(** * Open3D point-cloud registration core

    A shallow embedding of [src/Core/Registration/Registration.cpp]
    (namespace [three]) and the properties of its five public operations.

    Conventions of the embedding.

    - [double] is IEEE-754 binary64, taken from the kernel's specification
      of floating-point arithmetic ([SpecFloat], precision 53, emax 1024):
      every arithmetic operation of the source is the correctly rounded
      operation on [spec_float], comparisons are the IEEE comparisons (a NaN
      compares false with everything).
    - [int] is [Z]; the casts [(int)v.size()] and [(unsigned int)t] are
      written out with their wrap-around.  The [int] counters ([i], [itr],
      [j], [good], [total_validation], [c]) are not wrapped: each is
      bounded by an [int] loop bound or by the size of a vector, and the
      statements that depend on it assume that this size is below [2^31]
      (beyond it the increment of the source overflows, which is
      undefined).
    - The file is the sequential build: the blocks under [#ifdef _OPENMP]
      are absent, each "private" accumulator exists once.
    - Undefined behaviour of the source (an index outside a vector, a
      remainder by zero) is the outcome [Undefined].
    - What the file consumes from headers that are not part of the
      translation unit (Eigen's 4x4 matrices, [PointCloud::Transform],
      [KDTreeFlann], [std::rand]) is the interface [Collaborators]. *)

From Stdlib Require Import ZArith List Bool Lia SpecFloat Sorted.
Import ListNotations.
Open Scope Z_scope.

(** ** IEEE-754 binary64 *)

Module Double.

Definition prec : Z := 53.
Definition emax : Z := 1024.

Definition double : Type := spec_float.

(** [(double)n] for an integer [n]. *)
Definition of_Z (n : Z) : double := binary_normalize prec emax n 0 false.

Definition zero : double := S754_zero false.
Definition one : double := Eval vm_compute in of_Z 1.
Definition two : double := Eval vm_compute in of_Z 2.

Definition add : double -> double -> double := SFadd prec emax.
Definition sub : double -> double -> double := SFsub prec emax.
Definition mul : double -> double -> double := SFmul prec emax.
Definition div : double -> double -> double := SFdiv prec emax.
Definition sqrt : double -> double := SFsqrt prec emax.
Definition opp : double -> double := SFopp.
Definition abs : double -> double := SFabs.

Definition ltb : double -> double -> bool := SFltb.
Definition leb : double -> double -> bool := SFleb.
Definition eqb : double -> double -> bool := SFeqb.

(** [nonneg x]: [x] is not a NaN and its sign bit is clear. *)
Definition nonneg (x : double) : bool :=
  match x with
  | S754_zero s => negb s
  | S754_infinity s => negb s
  | S754_nan => false
  | S754_finite s _ _ => negb s
  end.

(** The significand and the exponent of [(double)n], [1 <= n < 2^53]. *)
Definition mant (n : Z) : Z := n * 2 ^ (53 - Zdigits2 n).
Definition expo (n : Z) : Z := Zdigits2 n - 53.

End Double.

Abbreviation double := Double.double.

Declare Scope double_scope.
Delimit Scope double_scope with double.
Bind Scope double_scope with Double.double.
Infix "+" := Double.add : double_scope.
Infix "-" := Double.sub : double_scope.
Infix "*" := Double.mul : double_scope.
Infix "/" := Double.div : double_scope.
Infix "<?" := Double.ltb : double_scope.
Infix "<=?" := Double.leb : double_scope.
Infix "=?" := Double.eqb : double_scope.
Notation "- x" := (Double.opp x) : double_scope.

(** ** Integers of the source *)

(** [(int)n] for an unsigned [n]: the two's complement wrap to 32 bits. *)
Definition to_int (n : Z) : Z := (n + 2 ^ 31) mod 2 ^ 32 - 2 ^ 31.

(** [(unsigned int)n]. *)
Definition to_unsigned (n : Z) : Z := n mod 2 ^ 32.

(** [v.size()] *)
Definition size {A : Type} (v : list A) : Z := Z.of_nat (length v).

(** [v[i]] of a [std::vector] or an Eigen vector, undefined outside
    [0 <= i < v.size()]. *)
Definition at_index {A : Type} (v : list A) (i : Z) : option A :=
  if i <? 0 then None else nth_error v (Z.to_nat i).

(** [v[i] = a]; the vector is unchanged when [i] is outside it (the source
    never writes there). *)
Fixpoint set_nth {A : Type} (n : nat) (a : A) (v : list A) : list A :=
  match v, n with
  | [], _ => []
  | _ :: v', O => a :: v'
  | b :: v', S n' => b :: set_nth n' a v'
  end.

Definition set_index {A : Type} (v : list A) (i : Z) (a : A) : list A :=
  if i <? 0 then v else set_nth (Z.to_nat i) a v.

(** The elements of [l] with their indices [i], [i+1], ... *)
Fixpoint enumerate {A : Type} (i : Z) (l : list A) : list (Z * A) :=
  match l with
  | [] => []
  | a :: l' => (i, a) :: enumerate (i + 1) l'
  end.

(** ** Eigen: the fixed-size vectors and the 6x6 matrix *)

Record Vector3d : Type := mkVector3d { c0 : double; c1 : double; c2 : double }.

(** [Eigen::Vector2i]: a correspondence [(source index, target index)]. *)
Definition Vector2i : Type := (Z * Z)%type.

Definition CorrespondenceSet : Type := list Vector2i.

Definition Vector6d : Type := list double.
Definition Matrix6d : Type := list (list double).

Definition Vector6d_Zero : Vector6d := repeat Double.zero 6.

Definition Matrix6d_Identity : Matrix6d :=
  map (fun i => map (fun j => if Nat.eqb i j then Double.one else Double.zero)
                    (seq 0 6))
      (seq 0 6).

(** [v * v.transpose()] *)
Definition outer (v : Vector6d) : Matrix6d :=
  map (fun a => map (fun b => (a * b)%double) v) v.

Fixpoint zip_with {A B C : Type} (f : A -> B -> C) (l : list A) (r : list B)
  : list C :=
  match l, r with
  | a :: l', b :: r' => f a b :: zip_with f l' r'
  | _, _ => []
  end.

(** [A + B], coefficient by coefficient. *)
Definition Matrix6d_add (A B : Matrix6d) : Matrix6d :=
  zip_with (zip_with Double.add) A B.

(** [(a - b).squaredNorm()] *)
Definition squaredNorm_diff (a b : Vector3d) : double :=
  let d0 := (c0 a - c0 b)%double in
  let d1 := (c1 a - c1 b)%double in
  let d2 := (c2 a - c2 b)%double in
  (d0 * d0 + d1 * d1 + d2 * d2)%double.

(** ** Point clouds and features *)

(** Only [points_] is read by the registration core. *)
Record PointCloud : Type := mkPointCloud { points_ : list Vector3d }.

(** [Feature::data_]: one descriptor column per point. *)
Record Feature : Type := mkFeature { data_ : list (list double) }.

(** ** GetInformationMatrixFromRegistrationResult *)

(** One pass of the loop body (lines 355-373) for the correspondence [c]:
    the three rows of the Jacobian at the target point, each added to
    [GTG_private] as an outer product. *)
Definition information_step (target : PointCloud) (GTG_private : Matrix6d)
    (c : Vector2i) : option Matrix6d :=
  let t := snd c in
  match at_index (points_ target) t with
  | None => None
  | Some p =>
      let x := c0 p in
      let y := c1 p in
      let z := c2 p in
      let G_r := Vector6d_Zero in
      let G_r := set_index G_r 0 Double.one in
      let G_r := set_index G_r 4 (Double.two * z)%double in
      let G_r := set_index G_r 5 (- Double.two * y)%double in
      let GTG_private := Matrix6d_add GTG_private (outer G_r) in
      let G_r := Vector6d_Zero in
      let G_r := set_index G_r 1 Double.one in
      let G_r := set_index G_r 3 (- Double.two * z)%double in
      let G_r := set_index G_r 5 (Double.two * x)%double in
      let GTG_private := Matrix6d_add GTG_private (outer G_r) in
      let G_r := Vector6d_Zero in
      let G_r := set_index G_r 2 Double.one in
      let G_r := set_index G_r 3 (Double.two * y)%double in
      let G_r := set_index G_r 4 (- Double.two * x)%double in
      Some (Matrix6d_add GTG_private (outer G_r))
  end.

(** The loop over [result.correspondence_set_] (line 354). *)
Fixpoint information_loop (target : PointCloud) (GTG_private : Matrix6d)
    (cs : CorrespondenceSet) : option Matrix6d :=
  match cs with
  | [] => Some GTG_private
  | c :: cs' =>
      match information_step target GTG_private c with
      | None => None
      | Some G => information_loop target G cs'
      end
  end.

(** ** Collaborators

    The declarations the translation unit includes but does not define.
    Every operation is a function of its arguments; the two kd-tree
    searches receive the caller's [indices] and [distance2] buffers and
    return them as the call leaves them, next to the returned count. *)

Class Collaborators : Type := {
  (** [Eigen::Matrix4d] *)
  Matrix4d : Type;
  Matrix4d_Identity : Matrix4d;
  Matrix4d_isIdentity : Matrix4d -> bool;
  Matrix4d_mul : Matrix4d -> Matrix4d -> Matrix4d;
  (** the value held by a declared, not yet assigned [Eigen::Matrix4d] *)
  Matrix4d_uninitialized : Matrix4d;
  (** [PointCloud::Transform], on a copy *)
  Transform : Matrix4d -> PointCloud -> PointCloud;
  (** [KDTreeFlann] *)
  KDTreeFlann : Type;
  KDTreeFlann_of_PointCloud : PointCloud -> KDTreeFlann;
  KDTreeFlann_of_Feature : Feature -> KDTreeFlann;
  SearchHybrid : KDTreeFlann -> Vector3d -> double -> Z ->
                 list Z -> list double -> Z * list Z * list double;
  SearchKNN : KDTreeFlann -> list double -> Z ->
              list Z -> list double -> Z * list Z * list double;
  (** [std::srand], [std::rand] *)
  RandState : Type;
  srand : Z -> RandState;
  rand : RandState -> Z * RandState
}.

Section Registration.

Context {collaborators : Collaborators}.

(** Modelled from the spec: [class RegistrationResult] is declared in
    [Registration.h], which is not among the sources.  Section 3 gives its
    four fields; its constructor takes the transformation (the identity
    by default) and starts with no correspondence, fitness 0 and RMSE 0
    ("default result": section 7). *)
Record RegistrationResult : Type := mkRegistrationResult {
  transformation_ : Matrix4d;
  correspondence_set_ : CorrespondenceSet;
  inlier_rmse_ : double;
  fitness_ : double
}.

(** [RegistrationResult(transformation)] *)
Definition RegistrationResult_of (transformation : Matrix4d)
  : RegistrationResult :=
  {| transformation_ := transformation;
     correspondence_set_ := [];
     inlier_rmse_ := Double.zero;
     fitness_ := Double.zero |}.

(** [RegistrationResult()] *)
Definition RegistrationResult_default : RegistrationResult :=
  RegistrationResult_of Matrix4d_Identity.

(** Modelled from the spec: the two criteria classes of [Registration.h]
    (section 3); their fields are [int] and [double]. *)
Record ICPConvergenceCriteria : Type := mkICPConvergenceCriteria {
  relative_fitness_ : double;
  relative_rmse_ : double;
  icp_max_iteration_ : Z  (* [max_iteration_]; the name is taken below *)
}.

Record RANSACConvergenceCriteria : Type := mkRANSACConvergenceCriteria {
  max_iteration_ : Z;
  max_validation_ : Z
}.

(** Modelled from the spec: [class TransformationEstimation], "one
    operation ... a pure function of its inputs" (section 3). *)
Record TransformationEstimation : Type := mkTransformationEstimation {
  ComputeTransformation :
    PointCloud -> PointCloud -> CorrespondenceSet -> Matrix4d
}.

(** Modelled from the spec: [class CorrespondenceChecker], a flag and a
    [Check] (section 3). *)
Record CorrespondenceChecker : Type := mkCorrespondenceChecker {
  require_pointcloud_alignment_ : bool;
  Check : PointCloud -> PointCloud -> CorrespondenceSet -> Matrix4d -> bool
}.

(** [GetInformationMatrixFromRegistrationResult] (lines 337-385).  [source]
    is a parameter of the function and is never read. *)
Definition GetInformationMatrixFromRegistrationResult
    (source target : PointCloud) (result : RegistrationResult)
  : option Matrix6d :=
  let GTG := Matrix6d_Identity in
  let GTG_private := Matrix6d_Identity in
  match information_loop target GTG_private (correspondence_set_ result) with
  | None => None
  | Some GTG_private => Some (Matrix6d_add GTG GTG_private)
  end.

(** ** Effects

    The functions below read the wall clock, draw pseudo-random numbers
    from the C library's global generator and print debug messages.  The
    state they thread is [World]; [debug_log] holds the messages printed so
    far, newest first. *)

Inductive DebugMsg : Type :=
| ICP_Iteration (i : Z) (fitness rmse : double)
| RANSAC_Fitness (fitness rmse : double)
| Found_a_feature_without_neighbors.

Record World : Type := mkWorld {
  rand_state : RandState;
  wall_clock : Z;
  debug_log : list DebugMsg
}.

Inductive outcome (A : Type) : Type :=
| Ok (a : A) (w : World)
| Undefined
| OutOfFuel.

Arguments Ok {A} a w.
Arguments Undefined {A}.
Arguments OutOfFuel {A}.

Definition M (A : Type) : Type := World -> outcome A.

Definition ret {A : Type} (a : A) : M A := fun w => Ok a w.

Definition bind {A B : Type} (m : M A) (f : A -> M B) : M B :=
  fun w =>
    match m w with
    | Ok a w' => f a w'
    | Undefined => Undefined
    | OutOfFuel => OutOfFuel
    end.

Notation "x <- m ;; k" := (bind m (fun x => k))
  (at level 61, m at next level, right associativity).
Notation "m ;;; k" := (bind m (fun _ => k))
  (at level 61, right associativity).

(** A value whose computation is undefined behaviour when absent. *)
Definition defined {A : Type} (o : option A) : M A :=
  fun w => match o with Some a => Ok a w | None => Undefined end.

(** [std::time(0)] *)
Definition time0 : M Z := fun w => Ok (wall_clock w) w.

(** [std::srand(seed)] *)
Definition do_srand (seed : Z) : M unit :=
  fun w => Ok tt {| rand_state := srand seed;
                    wall_clock := wall_clock w;
                    debug_log := debug_log w |}.

(** [std::rand()] *)
Definition do_rand : M Z :=
  fun w => let '(r, s) := rand (rand_state w) in
           Ok r {| rand_state := s;
                   wall_clock := wall_clock w;
                   debug_log := debug_log w |}.

(** [PrintDebug(...)] *)
Definition PrintDebug (msg : DebugMsg) : M unit :=
  fun w => Ok tt {| rand_state := rand_state w;
                    wall_clock := wall_clock w;
                    debug_log := msg :: debug_log w |}.

(** [a % b] on [int]: truncated remainder, undefined for [b = 0]. *)
Definition int_rem (a b : Z) : option Z :=
  if b =? 0 then None else Some (Z.rem a b).

(** *** Loops *)

(** [for (int i = lo; i < hi; i++) body], a body that neither writes [i]
    nor leaves the loop. *)
Fixpoint for_upto {S : Type} (n : nat) (i : Z) (body : Z -> S -> M S)
    (s : S) : M S :=
  match n with
  | O => ret s
  | Datatypes.S n' => s' <- body i s ;; for_upto n' (i + 1) body s'
  end.

Definition for_range {S : Type} (lo hi : Z) (body : Z -> S -> M S) (s : S)
  : M S :=
  for_upto (Z.to_nat (hi - lo)) lo body s.

(** The pure counterpart, [None] for undefined behaviour. *)
Fixpoint for_upto_pure {S : Type} (n : nat) (i : Z)
    (body : Z -> S -> option S) (s : S) : option S :=
  match n with
  | O => Some s
  | Datatypes.S n' =>
      match body i s with
      | None => None
      | Some s' => for_upto_pure n' (i + 1) body s'
      end
  end.

Definition for_range_pure {S : Type} (lo hi : Z)
    (body : Z -> S -> option S) (s : S) : option S :=
  for_upto_pure (Z.to_nat (hi - lo)) lo body s.

Inductive flow : Type := Next | Break.

(** [for (int i = ...; cond(i); i++) body] with an arbitrary guard and a
    body that may [break]: one unit of [fuel] per executed body. *)
Fixpoint for_loop {S : Type} (fuel : nat) (cond : Z -> bool)
    (body : Z -> S -> M (flow * S)) (i : Z) (s : S) : M S :=
  if cond i then
    match fuel with
    | O => fun _ => OutOfFuel
    | Datatypes.S fuel' =>
        r <- body i s ;;
        match fst r with
        | Break => ret (snd r)
        | Next => for_loop fuel' cond body (i + 1) (snd r)
        end
    end
  else ret s.

(** ** The Evaluator: GetRegistrationResultAndCorrespondences (lines 41-96) *)

(** The body of the loop over the source points (lines 63-71): a hybrid
    search with [max_nn = 1] into fresh one-element buffers. *)
Definition evaluator_step (source : PointCloud) (target_kdtree : KDTreeFlann)
    (max_correspondence_distance : double) (i : Z)
    (acc : double * CorrespondenceSet) : option (double * CorrespondenceSet) :=
  let '(error2_private, correspondence_set_private) := acc in
  let indices := [0] in
  let dists := [Double.zero] in
  match at_index (points_ source) i with
  | None => None
  | Some point =>
      let '(k, indices, dists) :=
        SearchHybrid target_kdtree point max_correspondence_distance 1
                     indices dists in
      if 0 <? k then
        match at_index dists 0, at_index indices 0 with
        | Some d, Some j =>
            Some ((error2_private + d)%double,
                  correspondence_set_private ++ [(i, j)])
        | _, _ => None
        end
      else Some acc
  end.

Definition GetRegistrationResultAndCorrespondences
    (source target : PointCloud) (target_kdtree : KDTreeFlann)
    (max_correspondence_distance : double) (transformation : Matrix4d)
  : option RegistrationResult :=
  let result := RegistrationResult_of transformation in
  if (max_correspondence_distance <=? Double.zero)%double then Some result
  else
    let error2 := Double.zero in
    match for_range_pure 0 (to_int (size (points_ source)))
            (evaluator_step source target_kdtree max_correspondence_distance)
            (Double.zero, []) with
    | None => None
    | Some (error2_private, correspondence_set_private) =>
        let correspondence_set :=
          correspondence_set_ result ++ correspondence_set_private in
        let error2 := (error2 + error2_private)%double in
        match correspondence_set with
        | [] =>
            Some {| transformation_ := transformation;
                    correspondence_set_ := correspondence_set;
                    inlier_rmse_ := Double.zero;
                    fitness_ := Double.zero |}
        | _ :: _ =>
            let corres_number := size correspondence_set in
            Some {| transformation_ := transformation;
                    correspondence_set_ := correspondence_set;
                    inlier_rmse_ :=
                      Double.sqrt (error2 / Double.of_Z corres_number);
                    fitness_ :=
                      (Double.of_Z corres_number
                       / Double.of_Z (size (points_ source)))%double |}
        end
    end.

(** ** EvaluateRANSACBasedOnCorrespondence (lines 98-123) *)

(** The body of the loop over [corres] (lines 108-113). *)
Definition ransac_score_step (source target : PointCloud) (max_dis2 : double)
    (acc : double * Z) (c : Vector2i) : option (double * Z) :=
  let '(error2, good) := acc in
  match at_index (points_ source) (fst c), at_index (points_ target) (snd c) with
  | Some p, Some q =>
      let dis2 := squaredNorm_diff p q in
      if (dis2 <? max_dis2)%double
      then Some ((error2 + dis2)%double, good + 1)
      else Some acc
  | _, _ => None
  end.

Fixpoint ransac_score_loop (source target : PointCloud) (max_dis2 : double)
    (acc : double * Z) (corres : CorrespondenceSet) : option (double * Z) :=
  match corres with
  | [] => Some acc
  | c :: corres' =>
      match ransac_score_step source target max_dis2 acc c with
      | None => None
      | Some acc' => ransac_score_loop source target max_dis2 acc' corres'
      end
  end.

Definition EvaluateRANSACBasedOnCorrespondence (source target : PointCloud)
    (corres : CorrespondenceSet) (max_correspondence_distance : double)
    (transformation : Matrix4d) : option RegistrationResult :=
  let result := RegistrationResult_of transformation in
  let max_dis2 :=
    (max_correspondence_distance * max_correspondence_distance)%double in
  match ransac_score_loop source target max_dis2 (Double.zero, 0) corres with
  | None => None
  | Some (error2, good) =>
      if good =? 0 then
        Some {| transformation_ := transformation_ result;
                correspondence_set_ := correspondence_set_ result;
                inlier_rmse_ := Double.zero;
                fitness_ := Double.zero |}
      else
        Some {| transformation_ := transformation_ result;
                correspondence_set_ := correspondence_set_ result;
                inlier_rmse_ := Double.sqrt (error2 / Double.of_Z good);
                fitness_ :=
                  (Double.of_Z good / Double.of_Z (size corres))%double |}
  end.

(** ** EvaluateRegistration (lines 127-139) *)

Definition EvaluateRegistration (source target : PointCloud)
    (max_correspondence_distance : double) (transformation : Matrix4d)
  : option RegistrationResult :=
  let kdtree := KDTreeFlann_of_PointCloud target in
  let pcd := source in
  let pcd :=
    if Bool.eqb (Matrix4d_isIdentity transformation) false
    then Transform transformation pcd else pcd in
  GetRegistrationResultAndCorrespondences pcd target kdtree
    max_correspondence_distance transformation.

(** ** RegistrationICP (lines 141-178) *)

Definition ICPState : Type := (Matrix4d * PointCloud * RegistrationResult)%type.

(** The loop body (lines 162-175). *)
Definition icp_body (target : PointCloud) (kdtree : KDTreeFlann)
    (max_correspondence_distance : double)
    (estimation : TransformationEstimation)
    (criteria : ICPConvergenceCriteria) (i : Z) (st : ICPState)
  : M (flow * ICPState) :=
  let '(transformation, pcd, result) := st in
  PrintDebug (ICP_Iteration i (fitness_ result) (inlier_rmse_ result)) ;;;
  let update :=
    ComputeTransformation estimation pcd target (correspondence_set_ result) in
  let transformation := Matrix4d_mul update transformation in
  let pcd := Transform update pcd in
  let backup := result in
  result <- defined (GetRegistrationResultAndCorrespondences pcd target kdtree
                       max_correspondence_distance transformation) ;;
  if (Double.abs (fitness_ backup - fitness_ result)
        <? relative_fitness_ criteria)%double
     && (Double.abs (inlier_rmse_ backup - inlier_rmse_ result)
           <? relative_rmse_ criteria)%double
  then ret (Break, (transformation, pcd, result))
  else ret (Next, (transformation, pcd, result)).

Definition RegistrationICP (fuel : nat) (source target : PointCloud)
    (max_correspondence_distance : double) (init : Matrix4d)
    (estimation : TransformationEstimation)
    (criteria : ICPConvergenceCriteria) : M RegistrationResult :=
  if (max_correspondence_distance <=? Double.zero)%double
  then ret (RegistrationResult_of init)
  else
    let transformation := init in
    let kdtree := KDTreeFlann_of_PointCloud target in
    let pcd := source in
    let pcd :=
      if Bool.eqb (Matrix4d_isIdentity init) false
      then Transform init pcd else pcd in
    result <- defined (GetRegistrationResultAndCorrespondences pcd target
                         kdtree max_correspondence_distance transformation) ;;
    st <- for_loop fuel (fun i => i <? icp_max_iteration_ criteria)
            (icp_body target kdtree max_correspondence_distance estimation
                      criteria)
            0 (transformation, pcd, result) ;;
    ret (snd st).

(** ** RegistrationRANSACBasedOnCorrespondence (lines 180-216) *)

Definition RANSACState : Type := (CorrespondenceSet * RegistrationResult)%type.

(** Line 199: [ransac_corres[j] = corres[std::rand() % (int)corres.size()]]. *)
Definition ransac_sample_step (corres : CorrespondenceSet) (j : Z)
    (ransac_corres : CorrespondenceSet) : M CorrespondenceSet :=
  r <- do_rand ;;
  k <- defined (int_rem r (to_int (size corres))) ;;
  c <- defined (at_index corres k) ;;
  ret (set_index ransac_corres j c).

(** The loop body (lines 198-211). *)
Definition ransac_body (source target : PointCloud)
    (corres : CorrespondenceSet) (max_correspondence_distance : double)
    (estimation : TransformationEstimation) (ransac_n : Z)
    (itr : Z) (st : RANSACState) : M (flow * RANSACState) :=
  let '(ransac_corres, result) := st in
  ransac_corres <- for_range 0 ransac_n (ransac_sample_step corres)
                     ransac_corres ;;
  let transformation :=
    ComputeTransformation estimation source target ransac_corres in
  let pcd := source in
  let pcd := Transform transformation pcd in
  this_result <- defined (EvaluateRANSACBasedOnCorrespondence pcd target
                            corres max_correspondence_distance
                            transformation) ;;
  if (fitness_ result <? fitness_ this_result)%double
     || ((fitness_ this_result =? fitness_ result)%double
         && (inlier_rmse_ this_result <? inlier_rmse_ result)%double)
  then ret (Next, (ransac_corres, this_result))
  else ret (Next, (ransac_corres, result)).

(** [CorrespondenceSet ransac_corres(n)]: [n] entries that hold no
    meaningful value until they are assigned. *)
Definition CorrespondenceSet_of_size (n : Z) : CorrespondenceSet :=
  repeat (0, 0) (Z.to_nat n).

Definition RegistrationRANSACBasedOnCorrespondence (fuel : nat)
    (source target : PointCloud) (corres : CorrespondenceSet)
    (max_correspondence_distance : double)
    (estimation : TransformationEstimation) (ransac_n : Z)
    (criteria : RANSACConvergenceCriteria) : M RegistrationResult :=
  if (ransac_n <? 3) || (to_int (size corres) <? ransac_n)
     || (max_correspondence_distance <=? Double.zero)%double
  then ret RegistrationResult_default
  else
    now <- time0 ;;
    do_srand (to_unsigned now) ;;;
    let ransac_corres := CorrespondenceSet_of_size ransac_n in
    let result := RegistrationResult_default in
    st <- for_loop fuel
            (fun itr => (itr <? max_iteration_ criteria)
                        && (itr <? max_validation_ criteria))
            (ransac_body source target corres max_correspondence_distance
                         estimation ransac_n)
            0 (ransac_corres, result) ;;
    let result := snd st in
    PrintDebug (RANSAC_Fitness (fitness_ result) (inlier_rmse_ result)) ;;;
    ret result.

(** ** RegistrationRANSACBasedOnFeatureMatching (lines 218-335) *)

Definition SampleState : Type :=
  (CorrespondenceSet * list Z * list double)%type.

(** The body of the sampling loop (lines 264-273). *)
Definition feature_sample_step (source : PointCloud) (source_feature : Feature)
    (kdtree_feature : KDTreeFlann) (j : Z) (st : SampleState)
  : M SampleState :=
  let '(ransac_corres, indices, dists) := st in
  r <- do_rand ;;
  s <- defined (int_rem r (to_int (size (points_ source)))) ;;
  c <- defined (at_index ransac_corres j) ;;
  let ransac_corres := set_index ransac_corres j (s, snd c) in
  col <- defined (at_index (data_ source_feature) s) ;;
  let '(k, indices, dists) := SearchKNN kdtree_feature col 1 indices dists in
  if k =? 0 then
    PrintDebug Found_a_feature_without_neighbors ;;;
    ret (set_index ransac_corres j (s, 0), indices, dists)
  else
    t <- defined (at_index indices 0) ;;
    ret (set_index ransac_corres j (s, t), indices, dists).

(** The two loops over [checkers] (lines 275-283 and 287-295): [check]
    stays [true] unless a checker of the wanted kind answers [false]. *)
Definition run_checkers (alignment : bool)
    (checkers : list CorrespondenceChecker) (source target : PointCloud)
    (ransac_corres : CorrespondenceSet) (transformation : Matrix4d) : bool :=
  negb (existsb
          (fun checker =>
             Bool.eqb (require_pointcloud_alignment_ checker) alignment
             && Bool.eqb (Check checker source target ransac_corres
                                transformation) false)
          checkers).

Definition FeatureState : Type :=
  (CorrespondenceSet * RegistrationResult * Z * bool)%type.

(** The loop body (lines 258-317). *)
Definition feature_body (source target : PointCloud) (source_feature : Feature)
    (kdtree kdtree_feature : KDTreeFlann)
    (max_correspondence_distance : double)
    (estimation : TransformationEstimation) (ransac_n : Z)
    (checkers : list CorrespondenceChecker)
    (criteria : RANSACConvergenceCriteria) (itr : Z) (st : FeatureState)
  : M FeatureState :=
  let '(ransac_corres, result_private, total_validation,
        finished_validation) := st in
  if negb finished_validation then
    let indices := [0] in
    let dists := [Double.zero] in
    let transformation := Matrix4d_uninitialized in
    sampled <- for_range 0 ransac_n
                 (feature_sample_step source source_feature kdtree_feature)
                 (ransac_corres, indices, dists) ;;
    let ransac_corres := fst (fst sampled) in
    let check :=
      run_checkers false checkers source target ransac_corres transformation in
    if Bool.eqb check false then
      ret (ransac_corres, result_private, total_validation,
           finished_validation)
    else
      let transformation :=
        ComputeTransformation estimation source target ransac_corres in
      let check :=
        run_checkers true checkers source target ransac_corres
                     transformation in
      if Bool.eqb check false then
        ret (ransac_corres, result_private, total_validation,
             finished_validation)
      else
        let pcd := source in
        let pcd := Transform transformation pcd in
        this_result <- defined (GetRegistrationResultAndCorrespondences pcd
                                  target kdtree max_correspondence_distance
                                  transformation) ;;
        let result_private :=
          if (fitness_ result_private <? fitness_ this_result)%double
             || ((fitness_ this_result =? fitness_ result_private)%double
                 && (inlier_rmse_ this_result
                       <? inlier_rmse_ result_private)%double)
          then this_result else result_private in
        let total_validation := total_validation + 1 in
        let finished_validation :=
          if max_validation_ criteria <=? total_validation
          then true else finished_validation in
        ret (ransac_corres, result_private, total_validation,
             finished_validation)
  else ret st.

Definition RegistrationRANSACBasedOnFeatureMatching
    (source target : PointCloud) (source_feature target_feature : Feature)
    (max_correspondence_distance : double)
    (estimation : TransformationEstimation) (ransac_n : Z)
    (checkers : list CorrespondenceChecker)
    (criteria : RANSACConvergenceCriteria) : M RegistrationResult :=
  if (ransac_n <? 3) || (max_correspondence_distance <=? Double.zero)%double
  then ret RegistrationResult_default
  else
    let result := RegistrationResult_default in
    let total_validation := 0 in
    let finished_validation := false in
    let ransac_corres := CorrespondenceSet_of_size ransac_n in
    let kdtree := KDTreeFlann_of_PointCloud target in
    let kdtree_feature := KDTreeFlann_of_Feature target_feature in
    let result_private := RegistrationResult_default in
    now <- time0 ;;
    let seed_number := to_unsigned now in
    do_srand seed_number ;;;
    st <- for_range 0 (max_iteration_ criteria)
            (feature_body source target source_feature kdtree kdtree_feature
                          max_correspondence_distance estimation ransac_n
                          checkers criteria)
            (ransac_corres, result_private, total_validation,
             finished_validation) ;;
    let result_private := snd (fst (fst st)) in
    let result :=
      if (fitness_ result <? fitness_ result_private)%double
         || ((fitness_ result_private =? fitness_ result)%double
             && (inlier_rmse_ result_private <? inlier_rmse_ result)%double)
      then result_private else result in
    PrintDebug (RANSAC_Fitness (fitness_ result) (inlier_rmse_ result)) ;;;
    ret result.

End Registration.

Arguments Ok {collaborators A} a w.
Arguments Undefined {collaborators A}.
Arguments OutOfFuel {collaborators A}.

Notation "x <- m ;; k" := (bind m (fun x => k))
  (at level 61, m at next level, right associativity).
Notation "m ;;; k" := (bind m (fun _ => k))
  (at level 61, right associativity).

(** ** A reference implementation of the collaborators

    Exact brute-force searches, the homogeneous action of a 4x4 matrix on
    points and a linear congruential generator.  It instantiates
    [Collaborators] wherever a statement is run on concrete data. *)

Module Reference.

Definition Mat4 : Type := list (list double).

Definition Identity : Mat4 :=
  map (fun i => map (fun j => if Nat.eqb i j then Double.one else Double.zero)
                    (seq 0 4))
      (seq 0 4).

Definition coeff (A : Mat4) (i j : nat) : double :=
  nth j (nth i A []) Double.zero.

(** Modelled from the spec: Eigen's [isIdentity] is not part of the
    sources; the spec only uses it as "T is the identity". *)
Definition isIdentity (A : Mat4) : bool :=
  forallb (fun i =>
             forallb (fun j =>
                        (coeff A i j
                         =? (if Nat.eqb i j then Double.one else Double.zero))
                          %double)
                     (seq 0 4))
          (seq 0 4).

(** Modelled from the spec: the product of two homogeneous transforms. *)
Definition mul (A B : Mat4) : Mat4 :=
  map (fun i =>
         map (fun j =>
                (coeff A i 0 * coeff B 0 j + coeff A i 1 * coeff B 1 j
                 + coeff A i 2 * coeff B 2 j + coeff A i 3 * coeff B 3 j)
                  %double)
             (seq 0 4))
      (seq 0 4).

Definition transform_point (T : Mat4) (p : Vector3d) : Vector3d :=
  let row i :=
    (coeff T i 0 * c0 p + coeff T i 1 * c1 p + coeff T i 2 * c2 p
     + coeff T i 3)%double in
  mkVector3d (row 0%nat) (row 1%nat) (row 2%nat).

(** Modelled from the spec: [PointCloud::Transform], "an in-place rigid
    transform operation" that keeps the order of the points. *)
Definition TransformPoints (T : Mat4) (pcd : PointCloud) : PointCloud :=
  mkPointCloud (map (transform_point T) (points_ pcd)).

(** A search structure over points or over feature columns. *)
Inductive KDTree : Type :=
| PointTree (points : list Vector3d)
| FeatureTree (columns : list (list double)).

Fixpoint squared_distance (a b : list double) : double :=
  match a, b with
  | x :: a', y :: b' =>
      (((x - y) * (x - y)) + squared_distance a' b')%double
  | _, _ => Double.zero
  end.

(** Insertion of a candidate [(distance2, index)] into a list kept in
    increasing order of distance; earlier indices win ties. *)
Fixpoint insert_by_distance (c : double * Z) (l : list (double * Z))
  : list (double * Z) :=
  match l with
  | [] => [c]
  | c' :: l' =>
      if (fst c <? fst c')%double then c :: l
      else c' :: insert_by_distance c l'
  end.

(** All candidates [(distance2, index)] accepted by [keep], nearest
    first. *)
Definition nearest {A : Type} (dist2 : A -> double) (keep : double -> bool)
    (data : list A) : list (double * Z) :=
  fold_right
    (fun ia acc =>
       let d := dist2 (snd ia) in
       if keep d then insert_by_distance (d, fst ia) acc else acc)
    [] (enumerate 0 data).

(** Modelled from the spec: [search_hybrid(q, radius, k)] returns at most
    [k] nearest points, "all returned points satisfy squared distance <=
    radius^2", and the count, 0 if none.  The buffers are resized to the
    count. *)
Definition search_hybrid (tree : KDTree) (query : Vector3d) (radius : double)
    (max_nn : Z) (indices : list Z) (distance2 : list double)
  : Z * list Z * list double :=
  match tree with
  | PointTree points =>
      let found :=
        firstn (Z.to_nat max_nn)
          (nearest (squaredNorm_diff query)
                   (fun d => (d <=? radius * radius)%double) points) in
      (size found, map snd found, map fst found)
  | FeatureTree _ => (-1, indices, distance2)
  end.

(** Modelled from the spec: [search_knn(q, k)] returns the [k] nearest
    columns and the count. *)
Definition search_knn (tree : KDTree) (query : list double) (knn : Z)
    (indices : list Z) (distance2 : list double)
  : Z * list Z * list double :=
  match tree with
  | FeatureTree columns =>
      let found :=
        firstn (Z.to_nat knn)
          (nearest (squared_distance query)
                   (fun d => (d <=? d)%double) columns) in
      (size found, map snd found, map fst found)
  | PointTree _ => (-1, indices, distance2)
  end.

(** Modelled from the spec: a deterministic generator with values in
    [0, 2^31). *)
Definition lcg (s : Z) : Z * Z :=
  let s' := (s * 1103515245 + 12345) mod 2 ^ 31 in (s', s').

#[export] Instance collaborators : Collaborators := {|
  Matrix4d := Mat4;
  Matrix4d_Identity := Identity;
  Matrix4d_isIdentity := isIdentity;
  Matrix4d_mul := mul;
  Matrix4d_uninitialized := [];
  Transform := TransformPoints;
  KDTreeFlann := KDTree;
  KDTreeFlann_of_PointCloud := fun pcd => PointTree (points_ pcd);
  KDTreeFlann_of_Feature := fun f => FeatureTree (data_ f);
  SearchHybrid := search_hybrid;
  SearchKNN := search_knn;
  RandState := Z;
  srand := fun seed => seed;
  rand := lcg
|}.

End Reference.

(** A point with integer coordinates. *)
Definition pt (x y z : Z) : Vector3d :=
  mkVector3d (Double.of_Z x) (Double.of_Z y) (Double.of_Z z).

(** Concrete data on which statements are run, over the reference
    collaborators. *)
Module Examples.

Definition world : World :=
  mkWorld (collaborators := Reference.collaborators) 1 0 [].

Definition identity : Matrix4d (Collaborators := Reference.collaborators) :=
  Reference.Identity.

(** The search structure over no feature column at all. *)
Definition no_features : KDTreeFlann (Collaborators := Reference.collaborators)
  := Reference.FeatureTree [].

(** An estimation that always answers the identity. *)
Definition identity_estimation : TransformationEstimation :=
  mkTransformationEstimation (collaborators := Reference.collaborators)
    (fun _ _ _ => Reference.Identity).

Definition two_points : PointCloud := mkPointCloud [pt 0 0 0; pt 1 0 0].

Definition one_point : PointCloud := mkPointCloud [pt 1 2 3].

Definition ransac_criteria (max_iteration max_validation : Z)
  : RANSACConvergenceCriteria :=
  {| max_iteration_ := max_iteration; max_validation_ := max_validation |}.

Definition icp_criteria (max_iteration : Z) : ICPConvergenceCriteria :=
  {| relative_fitness_ := Double.one;
     relative_rmse_ := Double.one;
     icp_max_iteration_ := max_iteration |}.

(** One point scored against itself by the correspondence-restricted
    scorer and by [EvaluateRegistration], at distance 1. *)
Definition scored : RegistrationResult :=
  Eval vm_compute in
    match EvaluateRANSACBasedOnCorrespondence one_point one_point [(0, 0)]
            Double.one identity with
    | Some r => r
    | None => RegistrationResult_default
    end.

Definition evaluated : RegistrationResult :=
  Eval vm_compute in
    match EvaluateRegistration one_point one_point Double.one identity with
    | Some r => r
    | None => RegistrationResult_default
    end.

(** One iteration of correspondence-RANSAC on three correspondences,
    from the default incumbent. *)
Definition three_corres : CorrespondenceSet := [(0, 0); (1, 1); (0, 1)].

Definition step_sampled : CorrespondenceSet :=
  Eval vm_compute in
    match ransac_body two_points two_points three_corres Double.one
            identity_estimation 3 0
            (CorrespondenceSet_of_size 3, RegistrationResult_default)
            world with
    | Ok out _ => fst (snd out)
    | _ => []
    end.

Definition step_result : RegistrationResult :=
  Eval vm_compute in
    match ransac_body two_points two_points three_corres Double.one
            identity_estimation 3 0
            (CorrespondenceSet_of_size 3, RegistrationResult_default)
            world with
    | Ok out _ => snd (snd out)
    | _ => RegistrationResult_default
    end.

Definition step_world : World :=
  Eval vm_compute in
    match ransac_body two_points two_points three_corres Double.one
            identity_estimation 3 0
            (CorrespondenceSet_of_size 3, RegistrationResult_default)
            world with
    | Ok _ w => w
    | _ => world
    end.

(** Correspondence-RANSAC on the three correspondences, samples of
    three, [max_iteration = 2] and [max_validation = 5]. *)
Definition ransac_result : RegistrationResult :=
  Eval vm_compute in
    match RegistrationRANSACBasedOnCorrespondence 2 two_points two_points
            three_corres Double.one identity_estimation 3
            (ransac_criteria 2 5) world with
    | Ok r _ => r
    | _ => RegistrationResult_default
    end.

Definition ransac_world : World :=
  Eval vm_compute in
    match RegistrationRANSACBasedOnCorrespondence 2 two_points two_points
            three_corres Double.one identity_estimation 3
            (ransac_criteria 2 5) world with
    | Ok _ w => w
    | _ => world
    end.

(** ICP of two points onto themselves, three steps allowed. *)
Definition icp_result : RegistrationResult :=
  Eval vm_compute in
    match RegistrationICP 3 two_points two_points Double.one identity
            identity_estimation (icp_criteria 3) world with
    | Ok r _ => r
    | _ => RegistrationResult_default
    end.

Definition icp_world : World :=
  Eval vm_compute in
    match RegistrationICP 3 two_points two_points Double.one identity
            identity_estimation (icp_criteria 3) world with
    | Ok _ w => w
    | _ => world
    end.

End Examples.

(** ** Relations on doubles, as the source's comparisons read *)

Definition dlt (x y : double) : Prop := (x <? y)%double = true.
Definition dle (x y : double) : Prop := (x <=? y)%double = true.
Definition deq (x y : double) : Prop := (x =? y)%double = true.

(** The best-of-N rule of section 4.4, as the spec words it. *)
Definition replaces `{Collaborators} (cand best : RegistrationResult) : Prop :=
  dlt (fitness_ best) (fitness_ cand)
  \/ (deq (fitness_ cand) (fitness_ best)
      /\ dlt (inlier_rmse_ cand) (inlier_rmse_ best)).

(** [2 * I], the value [I + I] takes in binary64. *)
Definition Matrix6d_twice_Identity : Matrix6d :=
  map (fun i => map (fun j => if Nat.eqb i j then Double.two else Double.zero)
                    (seq 0 6))
      (seq 0 6).

(** ** Vocabulary of the statements *)

Section Vocabulary.

Context {collaborators : Collaborators}.

(** The world in which the sampling of a RANSAC driver starts: the
    generator seeded from the clock. *)
Definition seeded (w : World) : World :=
  {| rand_state := srand (to_unsigned (wall_clock w));
     wall_clock := wall_clock w;
     debug_log := debug_log w |}.

(** [n] draws from the generator. *)
Definition draws (n : nat) (s : RandState) : RandState :=
  Nat.iter n (fun s => snd (rand s)) s.

(** The value of the call of [rand()] that follows [j] earlier calls from
    the state [s]. *)
Definition nth_rand (j : nat) (s : RandState) : Z := fst (rand (draws j s)).

(** The convergence rule of section 4.3, step d. *)
Definition converged (criteria : ICPConvergenceCriteria)
    (backup result : RegistrationResult) : Prop :=
  dlt (Double.abs (fitness_ backup - fitness_ result))
      (relative_fitness_ criteria)
  /\ dlt (Double.abs (inlier_rmse_ backup - inlier_rmse_ result))
         (relative_rmse_ criteria).

(** The messages printed at the start of the steps [i], [i+1], ... whose
    incoming results are [rs]. *)
Fixpoint icp_messages (i : Z) (rs : list RegistrationResult)
  : list DebugMsg :=
  match rs with
  | [] => []
  | r :: rs' =>
      ICP_Iteration i (fitness_ r) (inlier_rmse_ r) :: icp_messages (i + 1) rs'
  end.

(** What the hybrid search of the Evaluator finds for the source point
    [p] of index [i]: at most one pair [(i, j)] with its squared
    distance. *)
Definition hybrid_hit (target_kdtree : KDTreeFlann)
    (max_correspondence_distance : double) (ip : Z * Vector3d)
  : list (Vector2i * double) :=
  let '(k, indices, dists) :=
    SearchHybrid target_kdtree (snd ip) max_correspondence_distance 1
                 [0] [Double.zero] in
  if 0 <? k then
    match at_index dists 0, at_index indices 0 with
    | Some d, Some j => [((fst ip, j), d)]
    | _, _ => []
    end
  else [].

(** The inlier pairs of a cloud, in the order of its points, each with
    its squared distance. *)
Definition inliers (source : PointCloud) (target_kdtree : KDTreeFlann)
    (max_correspondence_distance : double) : list (Vector2i * double) :=
  flat_map (hybrid_hit target_kdtree max_correspondence_distance)
           (enumerate 0 (points_ source)).

(** The sum of a list of doubles, accumulated from [0.0] in list order. *)
Definition sum_doubles (l : list double) : double :=
  fold_left Double.add l Double.zero.

(** The pair [c] counts as an inlier of the correspondence-restricted
    scorer: both indices are valid and the squared distance is strictly
    below [max_dist * max_dist]. *)
Definition inlier_pair (source target : PointCloud)
    (max_correspondence_distance : double) (c : Vector2i) : bool :=
  match at_index (points_ source) (fst c), at_index (points_ target) (snd c) with
  | Some p, Some q =>
      (squaredNorm_diff p q
       <? max_correspondence_distance * max_correspondence_distance)%double
  | _, _ => false
  end.

(** What holds of a result of the Evaluator. *)
Definition evaluator_invariant (r : RegistrationResult) : Prop :=
  (correspondence_set_ r = [] <-> deq (fitness_ r) Double.zero)
  /\ (correspondence_set_ r = [] -> deq (inlier_rmse_ r) Double.zero).

(** What holds of a result of the correspondence-restricted scorer, which
    never fills [correspondence_set_]. *)
Definition scorer_invariant (r : RegistrationResult) : Prop :=
  correspondence_set_ r = []
  /\ (deq (fitness_ r) Double.zero -> deq (inlier_rmse_ r) Double.zero).

End Vocabulary.

(** ** Vocabulary of the further properties *)

(** [i] is an index of the vector [v]. *)
Definition valid_index {A : Type} (v : list A) (i : Z) : Prop :=
  0 <= i < size v.

(** Both indices of the correspondence [c] exist. *)
Definition valid_pair (source target : PointCloud) (c : Vector2i) : Prop :=
  valid_index (points_ source) (fst c) /\ valid_index (points_ target) (snd c).

(** [A(i, j)] *)
Definition Matrix6d_coeff (A : Matrix6d) (i j : nat) : double :=
  nth j (nth i A []) Double.zero.

(** Six rows of six coefficients. *)
Definition Matrix6d_is_6x6 (A : Matrix6d) : Prop :=
  length A = 6%nat /\ Forall (fun row => length row = 6%nat) A.

(** [A(i, j) = A(j, i)] *)
Definition Matrix6d_symmetric (A : Matrix6d) : Prop :=
  forall i j, (i < 6)%nat -> (j < 6)%nat ->
    Matrix6d_coeff A i j = Matrix6d_coeff A j i.

(** A square or a sum of squares in binary64: a NaN, or a number that is
    not negative. *)
Definition nonneg_or_nan (x : double) : Prop :=
  x = S754_nan \/ Double.nonneg x = true.

(** What the Evaluator reads after a [SearchHybrid]: [dists[0]] and
    [indices[0]] when the count is positive. *)
Definition buffers_filled (out : Z * list Z * list double) : bool :=
  let '(k, indices, dists) := out in
  if 0 <? k then
    match at_index dists 0, at_index indices 0 with
    | Some _, Some _ => true
    | _, _ => false
    end
  else true.

(** What the sampling step of feature-RANSAC reads after a [SearchKNN]:
    [indices[0]] unless the count is 0. *)
Definition knn_filled (out : Z * list Z * list double) : bool :=
  let '(k, indices, _) := out in
  (k =? 0) || match at_index indices 0 with Some _ => true | None => false end.

(** What the Evaluator adds to its error after a [SearchHybrid]: the first
    distance, a number that is not negative. *)
Definition hit_distance_nonneg (out : Z * list Z * list double) : bool :=
  let '(k, _, dists) := out in
  if 0 <? k then
    match at_index dists 0 with
    | Some d => Double.nonneg d
    | None => true
    end
  else true.

(** The index the Evaluator stores after a [SearchHybrid]: the first one,
    an index of a target point. *)
Definition hit_index_valid (target : PointCloud)
    (out : Z * list Z * list double) : bool :=
  let '(k, indices, _) := out in
  if 0 <? k then
    match at_index indices 0 with
    | Some j => (0 <=? j) && (j <? size (points_ target))
    | None => true
    end
  else true.

(** The position of a non-negative double in the order of the
    comparisons: zero, then the finite numbers by exponent and
    significand, then infinity. *)
Definition rank (x : double) : Z * Z * Z :=
  match x with
  | S754_zero _ => (0, 0, 0)
  | S754_finite _ m e => (1, e, Zpos m)
  | S754_infinity _ => (2, 0, 0)
  | S754_nan => (3, 0, 0)
  end.

(** The lexicographic order of ranks. *)
Definition rank_lt (a b : Z * Z * Z) : Prop :=
  fst (fst a) < fst (fst b)
  \/ (fst (fst a) = fst (fst b)
      /\ (snd (fst a) < snd (fst b)
          \/ (snd (fst a) = snd (fst b) /\ snd a < snd b))).

Section FurtherVocabulary.

Context {collaborators : Collaborators}.

(** The incumbent of a RANSAC driver: the default result or a result with
    positive fitness. *)
Definition default_or_fit (r : RegistrationResult) : Prop :=
  r = RegistrationResult_default \/ dlt Double.zero (fitness_ r).

(** A scored candidate: no inlier at all (fitness and RMSE are [0.0]) or a
    positive fitness. *)
Definition unfit_or_fit (r : RegistrationResult) : Prop :=
  (fitness_ r = Double.zero /\ inlier_rmse_ r = Double.zero)
  \/ dlt Double.zero (fitness_ r).

(** Neither score is a NaN or negative. *)
Definition scores_nonneg (r : RegistrationResult) : Prop :=
  Double.nonneg (fitness_ r) = true /\ Double.nonneg (inlier_rmse_ r) = true.

(** A candidate of correspondence-RANSAC: the score of the source moved by
    the transformation fitted to [ransac_n] pairs of [corres]. *)
Definition fitted_candidate (source target : PointCloud)
    (corres : CorrespondenceSet) (max_correspondence_distance : double)
    (estimation : TransformationEstimation) (ransac_n : Z)
    (c : RegistrationResult) : Prop :=
  exists sample,
    size sample = ransac_n
    /\ Forall (fun p => In p corres) sample
    /\ EvaluateRANSACBasedOnCorrespondence
         (Transform (ComputeTransformation estimation source target sample)
                    source)
         target corres max_correspondence_distance
         (ComputeTransformation estimation source target sample)
       = Some c.

(** A candidate of feature-RANSAC: the Evaluator's score of the source
    moved by the transformation fitted to some sample. *)
Definition evaluated_candidate (source target : PointCloud)
    (max_correspondence_distance : double)
    (estimation : TransformationEstimation) (c : RegistrationResult) : Prop :=
  exists sample,
    GetRegistrationResultAndCorrespondences
      (Transform (ComputeTransformation estimation source target sample)
                 source)
      target (KDTreeFlann_of_PointCloud target) max_correspondence_distance
      (ComputeTransformation estimation source target sample)
    = Some c.

(** [best] is the default result or one of [cands], and none of [cands]
    would replace it. *)
Definition best_of (cands : list RegistrationResult)
    (best : RegistrationResult) : Prop :=
  (best = RegistrationResult_default \/ In best cands)
  /\ Forall (fun c => ~ replaces c best) cands.

(** The incumbent after the comparison of lines 207-211, 302-306 and
    323-327: the candidate when it replaces the incumbent. *)
Definition keep_best (best cand : RegistrationResult) : RegistrationResult :=
  if (fitness_ best <? fitness_ cand)%double
     || ((fitness_ cand =? fitness_ best)%double
         && (inlier_rmse_ cand <? inlier_rmse_ best)%double)
  then cand else best.

(** The candidates that [n] consecutive iterations of correspondence-RANSAC
    score, first iteration first, when they start at iteration [itr] in the
    state [st] and the world [w]: each is the score of the transformation
    fitted to the sample that the iteration has drawn. *)
Fixpoint ransac_candidates (source target : PointCloud)
    (corres : CorrespondenceSet) (max_correspondence_distance : double)
    (estimation : TransformationEstimation) (ransac_n : Z)
    (n : nat) (itr : Z) (st : RANSACState) (w : World)
  : list RegistrationResult :=
  match n with
  | O => []
  | S n' =>
      match ransac_body source target corres max_correspondence_distance
              estimation ransac_n itr st w with
      | Ok out w' =>
          let T :=
            ComputeTransformation estimation source target (fst (snd out)) in
          match EvaluateRANSACBasedOnCorrespondence (Transform T source)
                  target corres max_correspondence_distance T with
          | Some cand =>
              cand :: ransac_candidates source target corres
                        max_correspondence_distance estimation ransac_n
                        n' (itr + 1) (snd out) w'
          | None => []
          end
      | _ => []
      end
  end.

(** The candidates that [n] consecutive iterations of feature-RANSAC score,
    first iteration first: an iteration scores the fit of its sample when
    the validation is not finished and no checker refuses the sample. *)
Fixpoint feature_candidates (source target : PointCloud)
    (source_feature : Feature) (kdtree kdtree_feature : KDTreeFlann)
    (max_correspondence_distance : double)
    (estimation : TransformationEstimation) (ransac_n : Z)
    (checkers : list CorrespondenceChecker)
    (criteria : RANSACConvergenceCriteria)
    (n : nat) (itr : Z) (st : FeatureState) (w : World)
  : list RegistrationResult :=
  match n with
  | O => []
  | S n' =>
      match feature_body source target source_feature kdtree kdtree_feature
              max_correspondence_distance estimation ransac_n checkers
              criteria itr st w with
      | Ok st' w' =>
          let rc := fst (fst (fst st')) in
          let T := ComputeTransformation estimation source target rc in
          let rest :=
            feature_candidates source target source_feature kdtree
              kdtree_feature max_correspondence_distance estimation ransac_n
              checkers criteria n' (itr + 1) st' w' in
          if negb (snd st)
             && run_checkers false checkers source target rc
                  Matrix4d_uninitialized
             && run_checkers true checkers source target rc T
          then
            match GetRegistrationResultAndCorrespondences
                    (Transform T source) target kdtree
                    max_correspondence_distance T with
            | Some cand => cand :: rest
            | None => rest
            end
          else rest
      | _ => []
      end
  end.

(** Two worlds with the same generator state and the same clock; their
    logs may differ. *)
Definition same_generator (w1 w2 : World) : Prop :=
  rand_state w1 = rand_state w2 /\ wall_clock w1 = wall_clock w2.

(** Two outcomes agree: the same value in worlds with the same generator,
    or the same failure. *)
Definition agree {A : Type} (o1 o2 : outcome A) : Prop :=
  match o1, o2 with
  | Ok a w1, Ok b w2 => a = b /\ same_generator w1 w2
  | Undefined, Undefined => True
  | OutOfFuel, OutOfFuel => True
  | _, _ => False
  end.

(** A computation that does not read the log. *)
Definition log_blind {A : Type} (m : M A) : Prop :=
  forall w1 w2, same_generator w1 w2 -> agree (m w1) (m w2).

(** Two outcomes return the same value, or fail alike. *)
Definition same_result {A : Type} (o1 o2 : outcome A) : Prop :=
  match o1, o2 with
  | Ok a _, Ok b _ => a = b
  | Undefined, Undefined => True
  | OutOfFuel, OutOfFuel => True
  | _, _ => False
  end.

End FurtherVocabulary.

(** Further data on which statements are run. *)
Module Runs.

Definition features : Feature := mkFeature [[Double.one]; [Double.two]].

Definition no_points : PointCloud := mkPointCloud [].

(** A checker that refuses every sample before the fit. *)
Definition refusing_checker : CorrespondenceChecker :=
  mkCorrespondenceChecker (collaborators := Reference.collaborators)
    false (fun _ _ _ _ => false).

(** Thresholds that no delta can be below. *)
Definition zero_thresholds (max_iteration : Z) : ICPConvergenceCriteria :=
  {| relative_fitness_ := Double.zero;
     relative_rmse_ := Double.zero;
     icp_max_iteration_ := max_iteration |}.

(** A world whose generator and log differ from those of
    [Examples.world], at the same clock value. *)
Definition other_world : World :=
  mkWorld (collaborators := Reference.collaborators) 42 0
    [Found_a_feature_without_neighbors].

(** Two points scored against themselves by the Evaluator. *)
Definition evaluated_two : RegistrationResult :=
  Eval vm_compute in
    match GetRegistrationResultAndCorrespondences Examples.two_points
            Examples.two_points
            (KDTreeFlann_of_PointCloud Examples.two_points) Double.one
            Examples.identity with
    | Some r => r
    | None => RegistrationResult_default
    end.

(** The information matrix of one point aligned with itself. *)
Definition information : Matrix6d :=
  Eval vm_compute in
    match GetInformationMatrixFromRegistrationResult Examples.one_point
            Examples.one_point Examples.evaluated with
    | Some G => G
    | None => []
    end.

(** ICP of two points onto themselves with thresholds 0: both allowed
    steps are taken. *)
Definition strict_icp_result : RegistrationResult :=
  Eval vm_compute in
    match RegistrationICP 2 Examples.two_points Examples.two_points
            Double.one Examples.identity Examples.identity_estimation
            (zero_thresholds 2) Examples.world with
    | Ok r _ => r
    | _ => RegistrationResult_default
    end.

Definition strict_icp_world : World :=
  Eval vm_compute in
    match RegistrationICP 2 Examples.two_points Examples.two_points
            Double.one Examples.identity Examples.identity_estimation
            (zero_thresholds 2) Examples.world with
    | Ok _ w => w
    | _ => Examples.world
    end.

(** Feature-RANSAC of two points onto themselves, samples of three. *)
Definition feature_result : RegistrationResult :=
  Eval vm_compute in
    match RegistrationRANSACBasedOnFeatureMatching Examples.two_points
            Examples.two_points features features Double.one
            Examples.identity_estimation 3 [] (Examples.ransac_criteria 2 5)
            Examples.world with
    | Ok r _ => r
    | _ => RegistrationResult_default
    end.

Definition feature_world : World :=
  Eval vm_compute in
    match RegistrationRANSACBasedOnFeatureMatching Examples.two_points
            Examples.two_points features features Double.one
            Examples.identity_estimation 3 [] (Examples.ransac_criteria 2 5)
            Examples.world with
    | Ok _ w => w
    | _ => Examples.world
    end.

(** The same call with the refusing checker. *)
Definition refused_world : World :=
  Eval vm_compute in
    match RegistrationRANSACBasedOnFeatureMatching Examples.two_points
            Examples.two_points features features Double.one
            Examples.identity_estimation 3 [refusing_checker]
            (Examples.ransac_criteria 2 5) Examples.world with
    | Ok _ w => w
    | _ => Examples.world
    end.

End Runs.

(** * Properties *)

(** ** Information matrix *)

Section InformationMatrix.

Context {collaborators : Collaborators}.

Lemma information_matrix_unfold (source target : PointCloud)
    (result : RegistrationResult) :
  GetInformationMatrixFromRegistrationResult source target result
  = option_map (Matrix6d_add Matrix6d_Identity)
      (information_loop target Matrix6d_Identity (correspondence_set_ result)).
Proof.
  unfold GetInformationMatrixFromRegistrationResult.
  destruct (information_loop _ _ _); reflexivity.
Qed.

(** C1 (the code departs from it).  The claim asks for one identity seed:
    on an empty correspondence set the matrix would be [I].  The code
    seeds both [GTG] and [GTG_private] with the identity and adds them, so
    a result with no correspondence yields [2 * I], which is not [I]. *)
Theorem information_matrix_empty_is_twice_identity
    (source target : PointCloud) (transformation : Matrix4d) :
  GetInformationMatrixFromRegistrationResult source target
    (RegistrationResult_of transformation)
  = Some Matrix6d_twice_Identity
  /\ Matrix6d_twice_Identity <> Matrix6d_Identity.
Proof.
  split.
  - reflexivity.
  - intro H. vm_compute in H. discriminate H.
Qed.

(** C10.  The information matrix does not depend on the source cloud:
    two calls that differ only in [source] return the same value (the same
    matrix, or both are undefined because a target index is out of
    range). *)
Theorem information_matrix_ignores_source
    (source1 source2 target : PointCloud) (result : RegistrationResult) :
  GetInformationMatrixFromRegistrationResult source1 target result
  = GetInformationMatrixFromRegistrationResult source2 target result.
Proof.
  rewrite !information_matrix_unfold. reflexivity.
Qed.

End InformationMatrix.

(** ** Integer casts *)

Lemma to_int_small (n : Z) : 0 <= n < 2 ^ 31 -> to_int n = n.
Proof.
  intros H. unfold to_int.
  rewrite Z.mod_small by lia. lia.
Qed.

Lemma to_int_range (n : Z) : - 2 ^ 31 <= to_int n < 2 ^ 31.
Proof.
  unfold to_int.
  pose proof (Z.mod_pos_bound (n + 2 ^ 31) (2 ^ 32) ltac:(lia)). lia.
Qed.

Lemma to_int_le_size {A : Type} (v : list A) : to_int (size v) <= size v.
Proof.
  unfold to_int, size.
  pose proof (Z.mod_le (Z.of_nat (length v) + 2 ^ 31) (2 ^ 32)
                ltac:(lia) ltac:(lia)). lia.
Qed.

(** ** Invalid arguments *)

Section InvalidArguments.

Context {collaborators : Collaborators}.

(** C6.  On invalid arguments each driver returns at once, without
    undefined behaviour and without touching the world (no seeding, no
    message): correspondence-RANSAC and feature-RANSAC return the default
    result (identity, no correspondence, fitness 0, RMSE 0), ICP returns
    that result with [init] as its transformation.  [ransac_n] is an
    [int], hence below [2^31]. *)
Theorem invalid_arguments_return_default
    (fuel : nat) (source target : PointCloud) (corres : CorrespondenceSet)
    (source_feature target_feature : Feature)
    (max_correspondence_distance : double) (init : Matrix4d)
    (estimation : TransformationEstimation) (ransac_n : Z)
    (checkers : list CorrespondenceChecker)
    (criteria : RANSACConvergenceCriteria)
    (icp_criteria : ICPConvergenceCriteria) (w : World)
    (Hint : ransac_n < 2 ^ 31) :
  (ransac_n < 3 \/ size corres < ransac_n
   \/ dle max_correspondence_distance Double.zero ->
   RegistrationRANSACBasedOnCorrespondence fuel source target corres
     max_correspondence_distance estimation ransac_n criteria w
   = Ok {| transformation_ := Matrix4d_Identity;
           correspondence_set_ := [];
           inlier_rmse_ := Double.zero;
           fitness_ := Double.zero |} w)
  /\ (ransac_n < 3 \/ dle max_correspondence_distance Double.zero ->
      RegistrationRANSACBasedOnFeatureMatching source target source_feature
        target_feature max_correspondence_distance estimation ransac_n
        checkers criteria w
      = Ok {| transformation_ := Matrix4d_Identity;
              correspondence_set_ := [];
              inlier_rmse_ := Double.zero;
              fitness_ := Double.zero |} w)
  /\ (dle max_correspondence_distance Double.zero ->
      RegistrationICP fuel source target max_correspondence_distance init
        estimation icp_criteria w
      = Ok {| transformation_ := init;
              correspondence_set_ := [];
              inlier_rmse_ := Double.zero;
              fitness_ := Double.zero |} w).
Proof.
  unfold dle. repeat split.
  - intros H. unfold RegistrationRANSACBasedOnCorrespondence.
    assert (E : (ransac_n <? 3) || (to_int (size corres) <? ransac_n)
                || (max_correspondence_distance <=? Double.zero)%double
                = true).
    { destruct H as [H | [H | H]].
      - apply Z.ltb_lt in H. rewrite H. reflexivity.
      - rewrite to_int_small by (unfold size in *; lia).
        apply Z.ltb_lt in H. rewrite H.
        rewrite orb_true_r. reflexivity.
      - rewrite H. apply orb_true_r. }
    rewrite E. reflexivity.
  - intros H. unfold RegistrationRANSACBasedOnFeatureMatching.
    assert (E : (ransac_n <? 3)
                || (max_correspondence_distance <=? Double.zero)%double
                = true).
    { destruct H as [H | H].
      - apply Z.ltb_lt in H. rewrite H. reflexivity.
      - rewrite H. apply orb_true_r. }
    rewrite E. reflexivity.
  - intros H. unfold RegistrationICP. rewrite H. reflexivity.
Qed.

End InvalidArguments.

(** On two points, a negative distance: every driver refuses its
    arguments. *)
Lemma invalid_arguments_return_default_witness :
  RegistrationRANSACBasedOnCorrespondence 5 Examples.two_points
    Examples.two_points [(0, 0)] (Double.of_Z (-1))
    Examples.identity_estimation 2 (Examples.ransac_criteria 4 4)
    Examples.world
  = Ok RegistrationResult_default Examples.world
  /\ RegistrationRANSACBasedOnFeatureMatching Examples.two_points
       Examples.two_points (mkFeature []) (mkFeature []) (Double.of_Z (-1))
       Examples.identity_estimation 2 [] (Examples.ransac_criteria 4 4)
       Examples.world
     = Ok RegistrationResult_default Examples.world
  /\ RegistrationICP 5 Examples.two_points Examples.two_points
       (Double.of_Z (-1)) Examples.identity Examples.identity_estimation
       (Examples.icp_criteria 3) Examples.world
     = Ok (RegistrationResult_of Examples.identity) Examples.world.
Proof.
  pose proof (invalid_arguments_return_default
                (collaborators := Reference.collaborators) 5
                Examples.two_points Examples.two_points
                [(0, 0)] (mkFeature []) (mkFeature []) (Double.of_Z (-1))
                Examples.identity Examples.identity_estimation 2 []
                (Examples.ransac_criteria 4 4) (Examples.icp_criteria 3)
                Examples.world ltac:(lia)) as [H1 [H2 H3]].
  split; [| split].
  - apply H1. left. lia.
  - apply H2. left. lia.
  - apply H3. reflexivity.
Defined.

(** ** Reasoning about [M] *)

Section Monad.

Context {collaborators : Collaborators}.

Lemma bind_Ok {A B : Type} (m : M A) (f : A -> M B) (w w' : World) (b : B) :
  bind m f w = Ok b w' ->
  exists a w1, m w = Ok a w1 /\ f a w1 = Ok b w'.
Proof.
  unfold bind. destruct (m w) as [a w1 | |]; intros H; try discriminate.
  exists a, w1. split; [reflexivity | exact H].
Qed.

Lemma ret_Ok {A : Type} (a b : A) (w w' : World) :
  ret a w = Ok b w' -> b = a /\ w' = w.
Proof. unfold ret. intros H. inversion H. split; reflexivity. Qed.

Lemma defined_Ok {A : Type} (o : option A) (a : A) (w w' : World) :
  defined o w = Ok a w' -> o = Some a /\ w' = w.
Proof.
  unfold defined. destruct o; intros H; inversion H. split; reflexivity.
Qed.

Lemma PrintDebug_Ok (msg : DebugMsg) (u : unit) (w w' : World) :
  PrintDebug msg w = Ok u w' ->
  rand_state w' = rand_state w /\ wall_clock w' = wall_clock w
  /\ debug_log w' = msg :: debug_log w.
Proof.
  unfold PrintDebug. intros H. inversion H. simpl. repeat split.
Qed.

Lemma do_rand_Ok (r : Z) (w w' : World) :
  do_rand w = Ok r w' ->
  r = fst (rand (rand_state w))
  /\ rand_state w' = snd (rand (rand_state w))
  /\ wall_clock w' = wall_clock w
  /\ debug_log w' = debug_log w.
Proof.
  unfold do_rand. destruct (rand (rand_state w)) as [r0 s0].
  intros H. inversion H. simpl. repeat split.
Qed.

Lemma bind_not_OutOfFuel {A B : Type} (m : M A) (f : A -> M B) (w : World) :
  m w <> OutOfFuel ->
  (forall a w1, m w = Ok a w1 -> f a w1 <> OutOfFuel) ->
  bind m f w <> OutOfFuel.
Proof.
  unfold bind. intros Hm Hf. destruct (m w) as [a w1 | |].
  - apply Hf. reflexivity.
  - discriminate.
  - exfalso. apply Hm. reflexivity.
Qed.

Lemma defined_not_OutOfFuel {A : Type} (o : option A) (w : World) :
  defined o w <> OutOfFuel.
Proof. unfold defined. destruct o; discriminate. Qed.

Lemma bind_assoc {A B C : Type} (m : M A) (f : A -> M B) (g : B -> M C)
    (w : World) :
  bind (bind m f) g w = bind m (fun a => bind (f a) g) w.
Proof. unfold bind. destruct (m w); reflexivity. Qed.

Lemma bind_ret_l {A B : Type} (a : A) (f : A -> M B) (w : World) :
  bind (ret a) f w = f a w.
Proof. reflexivity. Qed.

Lemma bind_ext {A B : Type} (m : M A) (f g : A -> M B) (w : World) :
  (forall a w1, m w = Ok a w1 -> f a w1 = g a w1) ->
  bind m f w = bind m g w.
Proof.
  unfold bind. intros H. destruct (m w); try reflexivity.
  apply H. reflexivity.
Qed.

Lemma replaces_iff (cand best : RegistrationResult) :
  replaces cand best <->
  (fitness_ best <? fitness_ cand)%double
  || ((fitness_ cand =? fitness_ best)%double
      && (inlier_rmse_ cand <? inlier_rmse_ best)%double) = true.
Proof.
  unfold replaces, dlt, deq.
  rewrite orb_true_iff, andb_true_iff. reflexivity.
Qed.

Lemma replaces_pick (cand best : RegistrationResult) :
  let r :=
    if (fitness_ best <? fitness_ cand)%double
       || ((fitness_ cand =? fitness_ best)%double
           && (inlier_rmse_ cand <? inlier_rmse_ best)%double)
    then cand else best in
  (replaces cand best -> r = cand) /\ (~ replaces cand best -> r = best).
Proof.
  intros r. subst r. rewrite replaces_iff.
  destruct (_ || _); split; intros H; try reflexivity.
  - exfalso. apply H. reflexivity.
  - discriminate H.
Qed.

End Monad.

(** Inversion of a successful run, one bind at a time. *)
Ltac invert_run H :=
  repeat
    match type of H with
    | bind _ _ _ = Ok _ _ =>
        let a := fresh "a" in
        let w := fresh "w" in
        let H1 := fresh "Hrun" in
        apply bind_Ok in H; destruct H as [a [w [H1 H]]]
    end.

(** ** Best-of-N *)

Section BestOfN.

Context {collaborators : Collaborators}.

Lemma ransac_body_Ok (source target : PointCloud) (corres : CorrespondenceSet)
    (max_correspondence_distance : double)
    (estimation : TransformationEstimation) (ransac_n itr : Z)
    (ransac_corres : CorrespondenceSet) (result : RegistrationResult)
    (w w' : World) (out : flow * RANSACState) :
  ransac_body source target corres max_correspondence_distance estimation
    ransac_n itr (ransac_corres, result) w = Ok out w' ->
  exists sampled cand,
    for_range 0 ransac_n (ransac_sample_step corres) ransac_corres w
    = Ok sampled w'
    /\ EvaluateRANSACBasedOnCorrespondence
         (Transform (ComputeTransformation estimation source target sampled)
                    source)
         target corres max_correspondence_distance
         (ComputeTransformation estimation source target sampled)
       = Some cand
    /\ out = (Next, (sampled,
                     if (fitness_ result <? fitness_ cand)%double
                        || ((fitness_ cand =? fitness_ result)%double
                            && (inlier_rmse_ cand <? inlier_rmse_ result)
                                 %double)
                     then cand else result)).
Proof.
  intros H. unfold ransac_body in H. invert_run H.
  apply defined_Ok in Hrun0. destruct Hrun0 as [Hc ->].
  exists a, a0.
  destruct (_ || _); apply ret_Ok in H; destruct H as [-> ->];
    (split; [exact Hrun | split; [exact Hc | reflexivity]]).
Qed.

Lemma feature_body_Ok (source target : PointCloud) (source_feature : Feature)
    (kdtree kdtree_feature : KDTreeFlann)
    (max_correspondence_distance : double)
    (estimation : TransformationEstimation) (ransac_n : Z)
    (checkers : list CorrespondenceChecker)
    (criteria : RANSACConvergenceCriteria) (itr : Z)
    (ransac_corres : CorrespondenceSet) (result_private : RegistrationResult)
    (total_validation : Z) (finished_validation : bool)
    (w w' : World) (out : FeatureState) :
  feature_body source target source_feature kdtree kdtree_feature
    max_correspondence_distance estimation ransac_n checkers criteria itr
    (ransac_corres, result_private, total_validation, finished_validation) w
  = Ok out w' ->
  (finished_validation = true
   /\ out = (ransac_corres, result_private, total_validation,
             finished_validation)
   /\ w' = w)
  \/ (finished_validation = false
      /\ exists sampled,
          for_range 0 ransac_n
            (feature_sample_step source source_feature kdtree_feature)
            (ransac_corres, [0], [Double.zero]) w = Ok sampled w'
          /\ let rc := fst (fst sampled) in
             let T := ComputeTransformation estimation source target rc in
             (out = (rc, result_private, total_validation,
                     finished_validation)
              /\ (run_checkers false checkers source target rc
                    Matrix4d_uninitialized = false
                  \/ run_checkers true checkers source target rc T = false))
             \/ (run_checkers false checkers source target rc
                   Matrix4d_uninitialized = true
                 /\ run_checkers true checkers source target rc T = true
                 /\ exists cand,
                     GetRegistrationResultAndCorrespondences
                       (Transform T source) target kdtree
                       max_correspondence_distance T = Some cand
                     /\ out =
                        (rc,
                         if (fitness_ result_private <? fitness_ cand)%double
                            || ((fitness_ cand =? fitness_ result_private)
                                  %double
                                && (inlier_rmse_ cand
                                      <? inlier_rmse_ result_private)%double)
                         then cand else result_private,
                         total_validation + 1,
                         if max_validation_ criteria <=? total_validation + 1
                         then true else finished_validation))).
Proof.
  intros H. unfold feature_body in H.
  destruct finished_validation; cbn [negb] in H.
  - left. apply ret_Ok in H. destruct H as [-> ->]. repeat split.
  - right. split; [reflexivity |].
    invert_run H. exists a.
    destruct (run_checkers false checkers source target (fst (fst a))
                Matrix4d_uninitialized) eqn:Epre; cbn [Bool.eqb] in H.
    + destruct (run_checkers true checkers source target (fst (fst a))
                  (ComputeTransformation estimation source target
                     (fst (fst a)))) eqn:Epost; cbn [Bool.eqb] in H.
      * invert_run H. apply defined_Ok in Hrun0. destruct Hrun0 as [Hc ->].
        apply ret_Ok in H. destruct H as [-> ->].
        split; [exact Hrun |]. cbv zeta. right.
        split; [exact Epre | split; [exact Epost |]].
        exists a0. split; [exact Hc | reflexivity].
      * apply ret_Ok in H. destruct H as [-> ->].
        split; [exact Hrun |]. cbv zeta. left.
        split; [reflexivity | right; exact Epost].
    + apply ret_Ok in H. destruct H as [-> ->].
      split; [exact Hrun |]. cbv zeta. left.
      split; [reflexivity | left; exact Epre].
Qed.

Lemma feature_driver_Ok (source target : PointCloud)
    (source_feature target_feature : Feature)
    (max_correspondence_distance : double)
    (estimation : TransformationEstimation) (ransac_n : Z)
    (checkers : list CorrespondenceChecker)
    (criteria : RANSACConvergenceCriteria) (w w' : World)
    (r : RegistrationResult) :
  (ransac_n <? 3) || (max_correspondence_distance <=? Double.zero)%double
  = false ->
  RegistrationRANSACBasedOnFeatureMatching source target source_feature
    target_feature max_correspondence_distance estimation ransac_n checkers
    criteria w = Ok r w' ->
  exists st w1,
    for_range 0 (max_iteration_ criteria)
      (feature_body source target source_feature
         (KDTreeFlann_of_PointCloud target)
         (KDTreeFlann_of_Feature target_feature)
         max_correspondence_distance estimation ransac_n checkers criteria)
      (CorrespondenceSet_of_size ransac_n, RegistrationResult_default, 0,
       false) (seeded w) = Ok st w1
    /\ r = (if (fitness_ RegistrationResult_default
                <? fitness_ (snd (fst (fst st))))%double
               || ((fitness_ (snd (fst (fst st)))
                    =? fitness_ RegistrationResult_default)%double
                   && (inlier_rmse_ (snd (fst (fst st)))
                       <? inlier_rmse_ RegistrationResult_default)%double)
            then snd (fst (fst st)) else RegistrationResult_default)
    /\ debug_log w'
       = RANSAC_Fitness (fitness_ r) (inlier_rmse_ r) :: debug_log w1.
Proof.
  intros Hvalid H. unfold RegistrationRANSACBasedOnFeatureMatching in H.
  rewrite Hvalid in H. invert_run H.
  unfold time0 in Hrun. inversion Hrun; subst a w0. clear Hrun.
  unfold do_srand in Hrun0. inversion Hrun0; subst a0 w1. clear Hrun0.
  apply PrintDebug_Ok in Hrun2. destruct Hrun2 as [_ [_ Hlog]].
  apply ret_Ok in H. destruct H as [-> ->].
  exists a1, w2. split; [exact Hrun1 | split; [reflexivity | exact Hlog]].
Qed.

(** C5.  The three comparison points apply one rule: the candidate
    replaces the incumbent exactly when [replaces] holds, i.e. its fitness
    is strictly greater, or equal with a strictly smaller RMSE.
    (1) An iteration of correspondence-RANSAC always compares: the
    candidate is the score of the transformation fitted to its sample.
    (2) An iteration of feature-RANSAC leaves the incumbent and the
    validation count unchanged in two cases only, when the validation is
    finished (then it does nothing at all) and when a checker of either
    kind refuses the sample; in every other case it scores the fit of the
    sample with the Evaluator, compares and counts one validation.
    (3) The reduction of the worker's best into the result of
    feature-RANSAC, whose incumbent is the default result. *)
Theorem best_of_N_rule :
  (forall source target corres max_correspondence_distance estimation
          ransac_n itr ransac_corres result w fl sampled result' w',
      ransac_body source target corres max_correspondence_distance estimation
        ransac_n itr (ransac_corres, result) w
      = Ok (fl, (sampled, result')) w' ->
      exists cand,
        EvaluateRANSACBasedOnCorrespondence
          (Transform (ComputeTransformation estimation source target sampled)
             source)
          target corres max_correspondence_distance
          (ComputeTransformation estimation source target sampled)
        = Some cand
        /\ (replaces cand result -> result' = cand)
        /\ (~ replaces cand result -> result' = result))
  /\ (forall source target source_feature kdtree kdtree_feature
             max_correspondence_distance estimation ransac_n checkers
             criteria itr ransac_corres result_private total_validation
             finished_validation w sampled result_private' total_validation'
             finished_validation' w',
         feature_body source target source_feature kdtree kdtree_feature
           max_correspondence_distance estimation ransac_n checkers criteria
           itr (ransac_corres, result_private, total_validation,
                finished_validation) w
         = Ok (sampled, result_private', total_validation',
               finished_validation') w' ->
         let T := ComputeTransformation estimation source target sampled in
         (finished_validation = true
          /\ sampled = ransac_corres
          /\ result_private' = result_private
          /\ total_validation' = total_validation
          /\ finished_validation' = true
          /\ w' = w)
         \/ (finished_validation = false
             /\ (run_checkers false checkers source target sampled
                   Matrix4d_uninitialized = false
                 \/ run_checkers true checkers source target sampled T
                    = false)
             /\ result_private' = result_private
             /\ total_validation' = total_validation
             /\ finished_validation' = false)
         \/ (finished_validation = false
             /\ run_checkers false checkers source target sampled
                  Matrix4d_uninitialized = true
             /\ run_checkers true checkers source target sampled T = true
             /\ exists cand,
                 GetRegistrationResultAndCorrespondences
                   (Transform T source) target kdtree
                   max_correspondence_distance T = Some cand
                 /\ total_validation' = total_validation + 1
                 /\ (replaces cand result_private -> result_private' = cand)
                 /\ (~ replaces cand result_private ->
                     result_private' = result_private)))
  /\ (forall source target source_feature target_feature
             max_correspondence_distance estimation ransac_n checkers
             criteria w r w',
         (ransac_n <? 3)
         || (max_correspondence_distance <=? Double.zero)%double = false ->
         RegistrationRANSACBasedOnFeatureMatching source target
           source_feature target_feature max_correspondence_distance
           estimation ransac_n checkers criteria w = Ok r w' ->
         exists st w1,
           for_range 0 (max_iteration_ criteria)
             (feature_body source target source_feature
                (KDTreeFlann_of_PointCloud target)
                (KDTreeFlann_of_Feature target_feature)
                max_correspondence_distance estimation ransac_n checkers
                criteria)
             (CorrespondenceSet_of_size ransac_n, RegistrationResult_default,
              0, false) (seeded w) = Ok st w1
           /\ (replaces (snd (fst (fst st))) RegistrationResult_default ->
               r = snd (fst (fst st)))
           /\ (~ replaces (snd (fst (fst st))) RegistrationResult_default ->
               r = RegistrationResult_default)).
Proof.
  split; [| split].
  - intros * H. apply ransac_body_Ok in H.
    destruct H as [s [cand [_ [Hc Hout]]]].
    inversion Hout; subst. exists cand. split; [exact Hc |].
    apply replaces_pick.
  - intros * H T. apply feature_body_Ok in H.
    destruct H as [[Hfin [Hout Hw]] | [Hfin [s [_ H]]]].
    + inversion Hout; subst. left. repeat split; reflexivity.
    + cbv zeta in H. right.
      destruct H as [[Hout Hcheck] | [Hpre [Hpost [cand [Hc Hout]]]]].
      * inversion Hout; subst. left.
        split; [reflexivity |]. split; [exact Hcheck |].
        repeat split; reflexivity.
      * inversion Hout; subst. right.
        split; [reflexivity |]. split; [exact Hpre |]. split; [exact Hpost |].
        exists cand. split; [exact Hc |]. split; [reflexivity |].
        apply replaces_pick.
  - intros * Hvalid H.
    destruct (feature_driver_Ok _ _ _ _ _ _ _ _ _ _ _ _ Hvalid H)
      as [st [w1 [Hloop [Hr _]]]].
    exists st, w1. split; [exact Hloop |].
    rewrite Hr. apply replaces_pick.
Qed.

End BestOfN.

Lemma ransac_step_eq :
  ransac_body Examples.two_points Examples.two_points Examples.three_corres
    Double.one Examples.identity_estimation 3 0
    (CorrespondenceSet_of_size 3, RegistrationResult_default) Examples.world
  = Ok (Next, (Examples.step_sampled, Examples.step_result))
       Examples.step_world.
Proof. reflexivity. Qed.

Lemma ransac_first_step_eq :
  ransac_body Examples.two_points Examples.two_points Examples.three_corres
    Double.one Examples.identity_estimation 3 0
    (CorrespondenceSet_of_size 3, RegistrationResult_default) Examples.world
  = Ok (Next,
        ([(0, 0); (0, 0); (1, 1)],
         {| transformation_ := Examples.identity;
            correspondence_set_ := [];
            inlier_rmse_ := Double.zero;
            fitness_ := (Double.of_Z 2 / Double.of_Z 3)%double |}))
       (mkWorld (collaborators := Reference.collaborators) 662824084 0 []).
Proof. reflexivity. Qed.

Lemma feature_first_step_eq :
  feature_body Examples.two_points Examples.two_points Runs.features
    (KDTreeFlann_of_PointCloud Examples.two_points)
    (KDTreeFlann_of_Feature Runs.features) Double.one
    Examples.identity_estimation 3 [] (Examples.ransac_criteria 2 5) 0
    (CorrespondenceSet_of_size 3, RegistrationResult_default, 0, false)
    Examples.world
  = Ok ([(0, 0); (1, 1); (0, 0)],
        {| transformation_ := Examples.identity;
           correspondence_set_ := [(0, 0); (1, 1)];
           inlier_rmse_ := Double.zero;
           fitness_ := Double.one |},
        1, false)
       (mkWorld (collaborators := Reference.collaborators) 662824084 0 []).
Proof. reflexivity. Qed.

Lemma feature_two_steps_eq :
  RegistrationRANSACBasedOnFeatureMatching Examples.two_points
    Examples.two_points Runs.features Runs.features Double.one
    Examples.identity_estimation 3 [] (Examples.ransac_criteria 2 5)
    Examples.world
  = Ok {| transformation_ := Examples.identity;
          correspondence_set_ := [(0, 0); (1, 1)];
          inlier_rmse_ := Double.zero;
          fitness_ := Double.one |}
       (mkWorld (collaborators := Reference.collaborators) 1109335178 0
          [RANSAC_Fitness Double.one Double.zero]).
Proof. reflexivity. Qed.

(** The three comparison points on two points aligned with themselves.
    (1) One iteration of correspondence-RANSAC from the default incumbent:
    the identity scores 2 inliers out of 3 correspondences and replaces
    it.  (2) One iteration of feature-RANSAC without checkers: the
    validation is not finished, the Evaluator scores the identity with
    both points matched, the count goes from 0 to 1.  (3) The run of two
    such iterations returns the worker's best. *)
Lemma best_of_N_rule_witness :
  (exists cand,
      EvaluateRANSACBasedOnCorrespondence
        (Transform Examples.identity Examples.two_points)
        Examples.two_points Examples.three_corres Double.one
        Examples.identity
      = Some cand
      /\ (replaces cand RegistrationResult_default ->
          {| transformation_ := Examples.identity;
             correspondence_set_ := [];
             inlier_rmse_ := Double.zero;
             fitness_ := (Double.of_Z 2 / Double.of_Z 3)%double |} = cand)
      /\ (~ replaces cand RegistrationResult_default ->
          {| transformation_ := Examples.identity;
             correspondence_set_ := [];
             inlier_rmse_ := Double.zero;
             fitness_ := (Double.of_Z 2 / Double.of_Z 3)%double |}
          = RegistrationResult_default))
  /\ ((false = true
       /\ [(0, 0); (1, 1); (0, 0)] = CorrespondenceSet_of_size 3
       /\ {| transformation_ := Examples.identity;
             correspondence_set_ := [(0, 0); (1, 1)];
             inlier_rmse_ := Double.zero;
             fitness_ := Double.one |} = RegistrationResult_default
       /\ 1 = 0
       /\ false = true
       /\ mkWorld (collaborators := Reference.collaborators) 662824084 0 []
          = Examples.world)
      \/ (false = false
          /\ (run_checkers (collaborators := Reference.collaborators) false
                [] Examples.two_points Examples.two_points
                [(0, 0); (1, 1); (0, 0)] Matrix4d_uninitialized = false
              \/ run_checkers true [] Examples.two_points Examples.two_points
                   [(0, 0); (1, 1); (0, 0)] Examples.identity = false)
          /\ {| transformation_ := Examples.identity;
                correspondence_set_ := [(0, 0); (1, 1)];
                inlier_rmse_ := Double.zero;
                fitness_ := Double.one |} = RegistrationResult_default
          /\ 1 = 0
          /\ false = false)
      \/ (false = false
          /\ run_checkers (collaborators := Reference.collaborators) false
               [] Examples.two_points Examples.two_points
               [(0, 0); (1, 1); (0, 0)] Matrix4d_uninitialized = true
          /\ run_checkers true [] Examples.two_points Examples.two_points
               [(0, 0); (1, 1); (0, 0)] Examples.identity = true
          /\ exists cand,
              GetRegistrationResultAndCorrespondences
                (Transform Examples.identity Examples.two_points)
                Examples.two_points
                (KDTreeFlann_of_PointCloud Examples.two_points) Double.one
                Examples.identity = Some cand
              /\ 1 = 0 + 1
              /\ (replaces cand RegistrationResult_default ->
                  {| transformation_ := Examples.identity;
                     correspondence_set_ := [(0, 0); (1, 1)];
                     inlier_rmse_ := Double.zero;
                     fitness_ := Double.one |} = cand)
              /\ (~ replaces cand RegistrationResult_default ->
                  {| transformation_ := Examples.identity;
                     correspondence_set_ := [(0, 0); (1, 1)];
                     inlier_rmse_ := Double.zero;
                     fitness_ := Double.one |}
                  = RegistrationResult_default)))
  /\ (exists st w1,
         for_range 0 2
           (feature_body Examples.two_points Examples.two_points
              Runs.features (KDTreeFlann_of_PointCloud Examples.two_points)
              (KDTreeFlann_of_Feature Runs.features) Double.one
              Examples.identity_estimation 3 []
              (Examples.ransac_criteria 2 5))
           (CorrespondenceSet_of_size 3, RegistrationResult_default, 0, false)
           (seeded Examples.world) = Ok st w1
         /\ (replaces (snd (fst (fst st))) RegistrationResult_default ->
             {| transformation_ := Examples.identity;
                correspondence_set_ := [(0, 0); (1, 1)];
                inlier_rmse_ := Double.zero;
                fitness_ := Double.one |} = snd (fst (fst st)))
         /\ (~ replaces (snd (fst (fst st))) RegistrationResult_default ->
             {| transformation_ := Examples.identity;
                correspondence_set_ := [(0, 0); (1, 1)];
                inlier_rmse_ := Double.zero;
                fitness_ := Double.one |} = RegistrationResult_default)).
Proof.
  exact (conj
           (proj1 (best_of_N_rule (collaborators := Reference.collaborators))
              _ _ _ _ _ _ _ _ _ _ _ _ _ _ ransac_first_step_eq)
           (conj
              (proj1 (proj2 (best_of_N_rule
                               (collaborators := Reference.collaborators)))
                 _ _ _ _ _ _ _ _ _ _ _ _ _ _ _ _ _ _ _ _ _
                 feature_first_step_eq)
              (proj2 (proj2 (best_of_N_rule
                               (collaborators := Reference.collaborators)))
                 Examples.two_points Examples.two_points Runs.features
                 Runs.features Double.one Examples.identity_estimation 3 []
                 (Examples.ransac_criteria 2 5) Examples.world _ _ eq_refl
                 feature_two_steps_eq))).
Defined.

(** ** Comparisons of doubles *)

Lemma dlt_zero_not_dle (x : double) :
  dlt Double.zero x -> (x <=? Double.zero)%double = false.
Proof.
  unfold dlt, Double.ltb, Double.leb, SFltb, SFleb, Double.zero.
  destruct x as [s | s | | s m e]; simpl; try discriminate.
  - destruct s; [discriminate | reflexivity].
  - destruct s; [discriminate | reflexivity].
Qed.

Lemma SFcompare_refl (x : double) :
  SFcompare x x = Some Eq \/ SFcompare x x = None.
Proof.
  destruct x as [s | s | | s m e]; simpl; auto.
  - destruct s; auto.
  - left. rewrite Z.compare_refl.
    change (Pos.compare_cont Eq m m) with (Pos.compare m m).
    rewrite Pos.compare_refl. destruct s; reflexivity.
Qed.

Lemma ltb_irrefl (x : double) : (x <? x)%double = false.
Proof.
  unfold Double.ltb, SFltb.
  destruct (SFcompare_refl x) as [E | E]; rewrite E; reflexivity.
Qed.

(** ** Loops *)

Section Loops.

Context {collaborators : Collaborators}.

(** A guarded loop whose guard holds for exactly the next [n] indices and
    whose body never breaks is the counted loop of [n] iterations. *)
Lemma for_loop_counted {S : Type} (cond : Z -> bool)
    (body : Z -> S -> M (flow * S)) (n : nat) :
  (forall j s w out w', body j s w = Ok out w' -> fst out = Next) ->
  forall (fuel : nat) (i : Z) (s : S) (w : World),
    (forall k, (k < n)%nat -> cond (i + Z.of_nat k) = true) ->
    cond (i + Z.of_nat n) = false ->
    (n <= fuel)%nat ->
    for_loop fuel cond body i s w
    = for_upto n i (fun j s => r <- body j s ;; ret (snd r)) s w.
Proof.
  intros Hnext. induction n as [| n IH]; intros fuel i s w Htrue Hfalse Hfuel.
  - rewrite Z.add_0_r in Hfalse.
    destruct fuel; simpl; rewrite Hfalse; reflexivity.
  - destruct fuel as [| fuel]; [lia |].
    assert (Hi : cond i = true).
    { specialize (Htrue 0%nat ltac:(lia)). rewrite Z.add_0_r in Htrue.
      exact Htrue. }
    simpl. rewrite Hi. rewrite bind_assoc.
    apply bind_ext. intros out w1 Eb.
    rewrite (Hnext _ _ _ _ _ Eb). rewrite bind_ret_l.
    apply IH.
    + intros k Hk. specialize (Htrue (Datatypes.S k) ltac:(lia)).
      rewrite <- Htrue. f_equal. lia.
    + rewrite <- Hfalse. f_equal. lia.
    + lia.
Qed.

Lemma for_upto_not_OutOfFuel {S : Type} (body : Z -> S -> M S) :
  (forall j s w, body j s w <> OutOfFuel) ->
  forall (n : nat) (i : Z) (s : S) (w : World),
    for_upto n i body s w <> OutOfFuel.
Proof.
  intros Hb. induction n as [| n IH]; intros i s w; simpl.
  - discriminate.
  - apply bind_not_OutOfFuel; [apply Hb |]. intros. apply IH.
Qed.

End Loops.

(** ** Vectors *)

Lemma set_nth_length {A : Type} (a : A) (v : list A) (n : nat) :
  length (set_nth n a v) = length v.
Proof.
  revert n. induction v as [| b v IH]; intros [| n]; simpl; auto.
Qed.

Lemma nth_error_set_nth {A : Type} (a : A) (v : list A) (n : nat) :
  (n < length v)%nat -> nth_error (set_nth n a v) n = Some a.
Proof.
  revert n. induction v as [| b v IH]; intros [| n] H; simpl in *;
    try lia; [reflexivity |].
  apply IH. lia.
Qed.

Lemma at_index_set_index {A : Type} (v : list A) (i : Z) (a c : A) :
  at_index v i = Some c -> at_index (set_index v i a) i = Some a.
Proof.
  unfold at_index, set_index. destruct (i <? 0); [discriminate |].
  intros H. apply nth_error_set_nth.
  apply nth_error_Some. rewrite H. discriminate.
Qed.

Lemma firstn_set_nth {A : Type} (c : A) (v : list A) :
  forall n : nat, (n < length v)%nat ->
    firstn (S n) (set_nth n c v) = firstn n v ++ [c].
Proof.
  induction v as [| b v IH]; intros [| n] H; simpl in *; try lia;
    [reflexivity |].
  f_equal. apply IH. lia.
Qed.

Lemma at_index_defined {A : Type} (v : list A) (i : Z) :
  (exists a, at_index v i = Some a) <-> valid_index v i.
Proof.
  unfold at_index, valid_index, size. destruct (i <? 0) eqn:E.
  - apply Z.ltb_lt in E. split; [intros [a H]; discriminate | lia].
  - apply Z.ltb_ge in E. split.
    + intros [a H].
      assert (Hn : nth_error v (Z.to_nat i) <> None) by congruence.
      apply nth_error_Some in Hn. lia.
    + intros H. destruct (nth_error v (Z.to_nat i)) as [a |] eqn:En.
      * exists a. reflexivity.
      * apply nth_error_None in En. lia.
Qed.

Lemma at_index_None {A : Type} (v : list A) (i : Z) :
  at_index v i = None <-> ~ valid_index v i.
Proof.
  rewrite <- at_index_defined. split.
  - intros H [a Ha]. congruence.
  - intros H. destruct (at_index v i) as [a |]; [| reflexivity].
    exfalso. apply H. exists a. reflexivity.
Qed.

Lemma nth_error_set_nth_other {A : Type} (a : A) (v : list A) :
  forall n i : nat, i <> n -> nth_error (set_nth n a v) i = nth_error v i.
Proof.
  induction v as [| b v IH]; intros [| n] [| i] H; simpl; try reflexivity;
    try contradiction.
  apply IH. intros E. apply H. f_equal. exact E.
Qed.

(** ** Correspondence-RANSAC: the number of iterations *)

Section CorrespondenceRANSAC.

Context {collaborators : Collaborators}.

Lemma draws_succ (n : nat) (s : RandState) :
  draws (S n) s = draws n (snd (rand s)).
Proof. unfold draws. rewrite Nat.iter_succ_r. reflexivity. Qed.

Lemma ransac_sample_step_Ok (corres : CorrespondenceSet) (j : Z)
    (ransac_corres out : CorrespondenceSet) (w w' : World) :
  ransac_sample_step corres j ransac_corres w = Ok out w' ->
  (exists c, In c corres /\ out = set_index ransac_corres j c)
  /\ rand_state w' = snd (rand (rand_state w))
  /\ wall_clock w' = wall_clock w
  /\ debug_log w' = debug_log w.
Proof.
  intros H. unfold ransac_sample_step in H. invert_run H.
  apply do_rand_Ok in Hrun. destruct Hrun as [_ [Hs [Hc Hl]]].
  apply defined_Ok in Hrun0. destruct Hrun0 as [_ ->].
  apply defined_Ok in Hrun1. destruct Hrun1 as [Hat ->].
  apply ret_Ok in H. destruct H as [-> ->].
  split; [| auto].
  exists a1. split; [| reflexivity].
  unfold at_index in Hat. destruct (a0 <? 0); [discriminate |].
  eapply nth_error_In. exact Hat.
Qed.

Lemma ransac_sampling_Ok (corres : CorrespondenceSet) (n : nat) :
  forall (j : Z) (ransac_corres out : CorrespondenceSet) (w w' : World),
    for_upto n j (ransac_sample_step corres) ransac_corres w = Ok out w' ->
    rand_state w' = draws n (rand_state w)
    /\ wall_clock w' = wall_clock w
    /\ debug_log w' = debug_log w
    /\ length out = length ransac_corres.
Proof.
  induction n as [| n IH]; intros j rc out w w' H; simpl in H.
  - apply ret_Ok in H. destruct H as [-> ->]. repeat split.
  - invert_run H. apply ransac_sample_step_Ok in Hrun.
    destruct Hrun as [[c [_ ->]] [Hs [Hc Hl]]].
    apply IH in H. destruct H as [Hs' [Hc' [Hl' Hlen]]].
    rewrite draws_succ, <- Hs. repeat split; try congruence.
    rewrite Hlen. unfold set_index. destruct (j <? 0); [reflexivity |].
    clear. generalize (Z.to_nat j). induction rc as [| b rc IHrc];
      intros [| k]; simpl; auto.
Qed.

Lemma ransac_sampling_fills (corres : CorrespondenceSet) (k : nat) :
  forall (j : nat) (ransac_corres out : CorrespondenceSet) (w w' : World),
    (j + k <= length ransac_corres)%nat ->
    Forall (fun c => In c corres) (firstn j ransac_corres) ->
    for_upto k (Z.of_nat j) (ransac_sample_step corres) ransac_corres w
    = Ok out w' ->
    Forall (fun c => In c corres) (firstn (j + k) out)
    /\ length out = length ransac_corres.
Proof.
  induction k as [| k IH]; intros j rc out w w' Hlen Hpre H; cbn [for_upto] in H.
  - apply ret_Ok in H. destruct H as [-> _]. rewrite Nat.add_0_r.
    split; [exact Hpre | reflexivity].
  - invert_run H. apply ransac_sample_step_Ok in Hrun.
    destruct Hrun as [[c [Hc ->]] _].
    assert (Hset : set_index rc (Z.of_nat j) c = set_nth j c rc).
    { unfold set_index.
      replace (Z.of_nat j <? 0) with false by (symmetry; apply Z.ltb_ge; lia).
      rewrite Nat2Z.id. reflexivity. }
    rewrite Hset in H.
    replace (Z.of_nat j + 1) with (Z.of_nat (S j)) in H by lia.
    apply IH in H.
    + rewrite set_nth_length in H. rewrite Nat.add_succ_r. exact H.
    + rewrite set_nth_length. lia.
    + rewrite firstn_set_nth by lia. apply Forall_app. split; [exact Hpre |].
      constructor; [exact Hc | constructor].
Qed.

Lemma ransac_sample_from_corres (corres : CorrespondenceSet) (ransac_n : Z)
    (ransac_corres sampled : CorrespondenceSet) (w w' : World) :
  size ransac_corres = ransac_n ->
  for_range 0 ransac_n (ransac_sample_step corres) ransac_corres w
  = Ok sampled w' ->
  size sampled = ransac_n /\ Forall (fun c => In c corres) sampled.
Proof.
  intros Hsize Hs. unfold for_range in Hs.
  change 0 with (Z.of_nat 0) in Hs at 2.
  apply ransac_sampling_fills in Hs.
  - destruct Hs as [Hall Hlen]. unfold size in *. split; [lia |].
    rewrite firstn_all2 in Hall by lia. exact Hall.
  - unfold size in Hsize. lia.
  - constructor.
Qed.

Lemma ransac_sample_step_exact (corres : CorrespondenceSet) (j : Z)
    (ransac_corres out : CorrespondenceSet) (w w' : World) :
  ransac_sample_step corres j ransac_corres w = Ok out w' ->
  exists c,
    at_index corres (Z.rem (nth_rand 0 (rand_state w)) (to_int (size corres)))
    = Some c
    /\ out = set_index ransac_corres j c.
Proof.
  intros H. unfold ransac_sample_step in H. invert_run H.
  apply do_rand_Ok in Hrun. destruct Hrun as [-> _].
  apply defined_Ok in Hrun0. destruct Hrun0 as [Hk ->].
  apply defined_Ok in Hrun1. destruct Hrun1 as [Hat ->].
  apply ret_Ok in H. destruct H as [-> ->].
  unfold int_rem in Hk. destruct (_ =? 0); [discriminate |].
  injection Hk as <-. exists a1. split; [exact Hat | reflexivity].
Qed.

Lemma ransac_sampling_exact (corres : CorrespondenceSet) (k : nat) :
  forall (j : nat) (ransac_corres out : CorrespondenceSet) (w w' : World),
    (j + k <= length ransac_corres)%nat ->
    for_upto k (Z.of_nat j) (ransac_sample_step corres) ransac_corres w
    = Ok out w' ->
    (forall i, (i < j)%nat -> nth_error out i = nth_error ransac_corres i)
    /\ (forall i, (i < k)%nat ->
          nth_error out (j + i)
          = at_index corres (Z.rem (nth_rand i (rand_state w))
                                   (to_int (size corres)))).
Proof.
  induction k as [| k IH]; intros j rc out w w' Hlen H; cbn [for_upto] in H.
  - apply ret_Ok in H. destruct H as [-> _].
    split; [reflexivity | intros i Hi; lia].
  - invert_run H.
    pose proof (ransac_sample_step_Ok _ _ _ _ _ _ Hrun) as [_ [Hs _]].
    apply ransac_sample_step_exact in Hrun. destruct Hrun as [c [Hc ->]].
    assert (Hset : set_index rc (Z.of_nat j) c = set_nth j c rc).
    { unfold set_index.
      replace (Z.of_nat j <? 0) with false by (symmetry; apply Z.ltb_ge; lia).
      rewrite Nat2Z.id. reflexivity. }
    rewrite Hset in H.
    replace (Z.of_nat j + 1) with (Z.of_nat (S j)) in H by lia.
    apply IH in H; [| rewrite set_nth_length; lia].
    destruct H as [Hpre Hnew]. split.
    + intros i Hi. rewrite Hpre by lia.
      apply nth_error_set_nth_other. lia.
    + intros [| i] Hi.
      * rewrite Nat.add_0_r, Hpre by lia.
        rewrite nth_error_set_nth by lia. symmetry. exact Hc.
      * replace (j + S i)%nat with (S j + i)%nat by lia.
        rewrite Hnew by lia. unfold nth_rand.
        rewrite draws_succ, Hs. reflexivity.
Qed.

Lemma ransac_sample_exact (corres : CorrespondenceSet) (ransac_n : Z)
    (ransac_corres sampled : CorrespondenceSet) (w w' : World) :
  size ransac_corres = ransac_n ->
  for_range 0 ransac_n (ransac_sample_step corres) ransac_corres w
  = Ok sampled w' ->
  forall j, 0 <= j < ransac_n ->
    at_index sampled j
    = at_index corres (Z.rem (nth_rand (Z.to_nat j) (rand_state w))
                             (to_int (size corres))).
Proof.
  intros Hsize Hs j Hj. unfold for_range in Hs.
  change 0 with (Z.of_nat 0) in Hs at 2.
  apply ransac_sampling_exact in Hs; [| unfold size in Hsize; lia].
  destruct Hs as [_ Hnew].
  unfold at_index at 1.
  replace (j <? 0) with false by (symmetry; apply Z.ltb_ge; lia).
  apply (Hnew (Z.to_nat j)). lia.
Qed.

Lemma ransac_body_not_OutOfFuel (source target : PointCloud)
    (corres : CorrespondenceSet) (max_correspondence_distance : double)
    (estimation : TransformationEstimation) (ransac_n itr : Z)
    (st : RANSACState) (w : World) :
  ransac_body source target corres max_correspondence_distance estimation
    ransac_n itr st w <> OutOfFuel.
Proof.
  unfold ransac_body. destruct st as [rc result].
  apply bind_not_OutOfFuel.
  - apply for_upto_not_OutOfFuel. intros j s w0. unfold ransac_sample_step.
    apply bind_not_OutOfFuel.
    + unfold do_rand. destruct (rand _). discriminate.
    + intros. apply bind_not_OutOfFuel; [apply defined_not_OutOfFuel |].
      intros. apply bind_not_OutOfFuel; [apply defined_not_OutOfFuel |].
      intros. discriminate.
  - intros. apply bind_not_OutOfFuel; [apply defined_not_OutOfFuel |].
    intros. destruct (_ || _); discriminate.
Qed.

(** C3.  With valid arguments ([ransac_n >= 3], [|corres| >= ransac_n],
    [max_dist > 0]; the size of [corres] fits the [int] it is cast to) and
    fuel for [N = min(max_iteration, max_validation)] iterations (none when
    that minimum is not positive), correspondence-RANSAC is the counted
    loop of exactly [N] bodies run from the seeded generator, followed by
    the summary message; it never runs out of fuel.  Every body that
    completes continues the loop (no [break]) and draws [ransac_n] random
    numbers for a sample of [ransac_n] pairs of [corres]: entry [j] of the
    sample is [corres[r % |corres|]] for the [j]-th number [r] drawn.  The
    body scores the transformation fitted to that sample and keeps it or
    the incumbent by the best-of-N comparison. *)
Theorem ransac_correspondence_runs_min_iterations
    (fuel : nat) (source target : PointCloud) (corres : CorrespondenceSet)
    (max_correspondence_distance : double)
    (estimation : TransformationEstimation) (ransac_n : Z)
    (criteria : RANSACConvergenceCriteria) (w : World)
    (Hn : 3 <= ransac_n) (Hsize : ransac_n <= size corres)
    (Hint : size corres < 2 ^ 31)
    (Hdist : dlt Double.zero max_correspondence_distance)
    (Hfuel : (Z.to_nat (Z.min (max_iteration_ criteria)
                             (max_validation_ criteria)) <= fuel)%nat) :
  let body :=
    ransac_body source target corres max_correspondence_distance estimation
      ransac_n in
  RegistrationRANSACBasedOnCorrespondence fuel source target corres
    max_correspondence_distance estimation ransac_n criteria w
  = (st <- for_upto (Z.to_nat (Z.min (max_iteration_ criteria)
                                     (max_validation_ criteria)))
             0 (fun itr st => r <- body itr st ;; ret (snd r))
             (CorrespondenceSet_of_size ransac_n, RegistrationResult_default) ;;
     PrintDebug (RANSAC_Fitness (fitness_ (snd st)) (inlier_rmse_ (snd st))) ;;;
     ret (snd st)) (seeded w)
  /\ RegistrationRANSACBasedOnCorrespondence fuel source target corres
       max_correspondence_distance estimation ransac_n criteria w
     <> OutOfFuel
  /\ (forall itr ransac_corres result w1 out w2,
         size ransac_corres = ransac_n ->
         body itr (ransac_corres, result) w1 = Ok out w2 ->
         exists cand,
           fst out = Next
           /\ rand_state w2 = draws (Z.to_nat ransac_n) (rand_state w1)
           /\ size (fst (snd out)) = ransac_n
           /\ Forall (fun c => In c corres) (fst (snd out))
           /\ (forall j, 0 <= j < ransac_n ->
                 at_index (fst (snd out)) j
                 = at_index corres
                     (Z.rem (nth_rand (Z.to_nat j) (rand_state w1))
                            (size corres)))
           /\ EvaluateRANSACBasedOnCorrespondence
                (Transform
                   (ComputeTransformation estimation source target
                      (fst (snd out)))
                   source)
                target corres max_correspondence_distance
                (ComputeTransformation estimation source target
                   (fst (snd out)))
              = Some cand
           /\ (replaces cand result -> snd (snd out) = cand)
           /\ (~ replaces cand result -> snd (snd out) = result)).
Proof.
  intros body.
  assert (Hdrv :
    RegistrationRANSACBasedOnCorrespondence fuel source target corres
      max_correspondence_distance estimation ransac_n criteria w
    = (st <- for_upto (Z.to_nat (Z.min (max_iteration_ criteria)
                                       (max_validation_ criteria)))
               0 (fun itr st => r <- body itr st ;; ret (snd r))
               (CorrespondenceSet_of_size ransac_n,
                RegistrationResult_default) ;;
       PrintDebug (RANSAC_Fitness (fitness_ (snd st))
                                  (inlier_rmse_ (snd st))) ;;;
       ret (snd st)) (seeded w)).
  { unfold RegistrationRANSACBasedOnCorrespondence.
    rewrite to_int_small by (unfold size in *; lia).
    rewrite (dlt_zero_not_dle _ Hdist).
    replace (ransac_n <? 3) with false by (symmetry; apply Z.ltb_ge; lia).
    replace (size corres <? ransac_n) with false
      by (symmetry; apply Z.ltb_ge; lia).
    cbn [orb]. unfold bind at 1 2. unfold time0, do_srand. fold (seeded w).
    unfold bind at 1 3.
    rewrite (for_loop_counted _ _
               (Z.to_nat (Z.min (max_iteration_ criteria)
                                (max_validation_ criteria)))).
    - reflexivity.
    - intros j s w0 out w' H. subst body. destruct s as [rc res].
      apply ransac_body_Ok in H. destruct H as [? [? [_ [_ ->]]]].
      reflexivity.
    - intros k Hk. apply andb_true_iff. split; apply Z.ltb_lt; lia.
    - apply andb_false_iff.
      destruct (Z.le_ge_cases (max_iteration_ criteria)
                              (max_validation_ criteria));
        [left | right]; apply Z.ltb_ge; lia.
    - exact Hfuel. }
  split; [exact Hdrv | split].
  - rewrite Hdrv. apply bind_not_OutOfFuel.
    + apply for_upto_not_OutOfFuel. intros j s w0.
      apply bind_not_OutOfFuel; [apply ransac_body_not_OutOfFuel |].
      intros. discriminate.
    + intros. apply bind_not_OutOfFuel; [discriminate |]. intros. discriminate.
  - intros itr rc result w1 out w2 Hlen H. subst body.
    apply ransac_body_Ok in H. destruct H as [s [cand [Hs [Hc ->]]]].
    destruct (ransac_sample_from_corres corres ransac_n rc s w1 w2 Hlen Hs)
      as [Hslen Hsall].
    pose proof (ransac_sample_exact corres ransac_n rc s w1 w2 Hlen Hs)
      as Hexact.
    rewrite to_int_small in Hexact by (unfold size in *; lia).
    unfold for_range in Hs. apply ransac_sampling_Ok in Hs.
    destruct Hs as [Hr _].
    exists cand. cbn [fst snd].
    split; [reflexivity |].
    split; [rewrite Hr; f_equal; lia |].
    split; [exact Hslen |].
    split; [exact Hsall |].
    split; [exact Hexact |].
    split; [exact Hc |]. apply replaces_pick.
Qed.

End CorrespondenceRANSAC.

Lemma ransac_run_eq :
  RegistrationRANSACBasedOnCorrespondence 2 Examples.two_points
    Examples.two_points Examples.three_corres Double.one
    Examples.identity_estimation 3 (Examples.ransac_criteria 2 5)
    Examples.world
  = Ok Examples.ransac_result Examples.ransac_world.
Proof. reflexivity. Qed.

Lemma ransac_two_iterations_eq :
  RegistrationRANSACBasedOnCorrespondence 2 Examples.two_points
    Examples.two_points Examples.three_corres Double.one
    Examples.identity_estimation 3 (Examples.ransac_criteria 2 5)
    Examples.world
  = Ok {| transformation_ := Examples.identity;
          correspondence_set_ := [];
          inlier_rmse_ := Double.zero;
          fitness_ := (Double.of_Z 2 / Double.of_Z 3)%double |}
       (mkWorld (collaborators := Reference.collaborators) 1109335178 0
          [RANSAC_Fitness (Double.of_Z 2 / Double.of_Z 3)%double Double.zero]).
Proof. reflexivity. Qed.

(** Three correspondences [(0,0)], [(1,1)], [(0,1)] between two points and
    themselves, samples of three, [max_iteration = 2] and
    [max_validation = 5].  The counted loop of two bodies returns the
    identity with fitness 2/3 after six draws and one message.  The first
    body, from the generator state 1, draws three numbers and samples
    [(0,0)], [(0,0)], [(1,1)], each the pair of [corres] at the drawn
    number modulo 3. *)
Lemma ransac_correspondence_runs_min_iterations_witness :
  (st <- for_upto 2 0
           (fun itr st =>
              r <- ransac_body Examples.two_points Examples.two_points
                     Examples.three_corres Double.one
                     Examples.identity_estimation 3 itr st ;;
              ret (snd r))
           (CorrespondenceSet_of_size 3, RegistrationResult_default) ;;
   PrintDebug (RANSAC_Fitness (fitness_ (snd st)) (inlier_rmse_ (snd st))) ;;;
   ret (snd st)) (seeded Examples.world)
  = Ok {| transformation_ := Examples.identity;
          correspondence_set_ := [];
          inlier_rmse_ := Double.zero;
          fitness_ := (Double.of_Z 2 / Double.of_Z 3)%double |}
       (mkWorld (collaborators := Reference.collaborators) 1109335178 0
          [RANSAC_Fitness (Double.of_Z 2 / Double.of_Z 3)%double Double.zero])
  /\ exists cand,
      Next = Next
      /\ 662824084
         = draws (collaborators := Reference.collaborators) 3 1
      /\ size [(0, 0); (0, 0); (1, 1)] = 3
      /\ Forall (fun c => In c Examples.three_corres)
                [(0, 0); (0, 0); (1, 1)]
      /\ (forall j, 0 <= j < 3 ->
            at_index [(0, 0); (0, 0); (1, 1)] j
            = at_index Examples.three_corres
                (Z.rem (nth_rand (collaborators := Reference.collaborators)
                          (Z.to_nat j) 1)
                       (size Examples.three_corres)))
      /\ EvaluateRANSACBasedOnCorrespondence
           (Transform Examples.identity Examples.two_points)
           Examples.two_points Examples.three_corres Double.one
           Examples.identity
         = Some cand
      /\ (replaces cand RegistrationResult_default ->
          {| transformation_ := Examples.identity;
             correspondence_set_ := [];
             inlier_rmse_ := Double.zero;
             fitness_ := (Double.of_Z 2 / Double.of_Z 3)%double |} = cand)
      /\ (~ replaces cand RegistrationResult_default ->
          {| transformation_ := Examples.identity;
             correspondence_set_ := [];
             inlier_rmse_ := Double.zero;
             fitness_ := (Double.of_Z 2 / Double.of_Z 3)%double |}
          = RegistrationResult_default).
Proof.
  exact (conj
           (eq_trans
              (eq_sym
                 (proj1 (ransac_correspondence_runs_min_iterations 2
                           Examples.two_points Examples.two_points
                           Examples.three_corres Double.one
                           Examples.identity_estimation 3
                           (Examples.ransac_criteria 2 5) Examples.world
                           ltac:(lia) ltac:(vm_compute; discriminate)
                           eq_refl eq_refl (le_n 2))))
              ransac_two_iterations_eq)
           (proj2 (proj2 (ransac_correspondence_runs_min_iterations 2
                            Examples.two_points Examples.two_points
                            Examples.three_corres Double.one
                            Examples.identity_estimation 3
                            (Examples.ransac_criteria 2 5) Examples.world
                            ltac:(lia) ltac:(vm_compute; discriminate)
                            eq_refl eq_refl (le_n 2)))
              0 (CorrespondenceSet_of_size 3) RegistrationResult_default
              Examples.world _ _ eq_refl ransac_first_step_eq)).
Defined.

(** ** ICP: the refinement loop *)

Section ICP.

Context {collaborators : Collaborators}.

Lemma classic_converged (criteria : ICPConvergenceCriteria)
    (backup result : RegistrationResult) :
  converged criteria backup result \/ ~ converged criteria backup result.
Proof.
  unfold converged, dlt.
  destruct (Double.ltb _ _); [| right; intros [H _]; discriminate].
  destruct (Double.ltb _ _); [| right; intros [_ H]; discriminate].
  left. split; reflexivity.
Qed.

Lemma icp_body_Ok (target : PointCloud) (kdtree : KDTreeFlann)
    (max_correspondence_distance : double)
    (estimation : TransformationEstimation)
    (criteria : ICPConvergenceCriteria) (i : Z) (transformation : Matrix4d)
    (pcd : PointCloud) (result : RegistrationResult) (w w' : World)
    (out : flow * ICPState) :
  icp_body target kdtree max_correspondence_distance estimation criteria i
    (transformation, pcd, result) w = Ok out w' ->
  let update :=
    ComputeTransformation estimation pcd target (correspondence_set_ result) in
  exists result',
    GetRegistrationResultAndCorrespondences (Transform update pcd) target
      kdtree max_correspondence_distance (Matrix4d_mul update transformation)
    = Some result'
    /\ snd out = (Matrix4d_mul update transformation, Transform update pcd,
                 result')
    /\ debug_log w'
       = ICP_Iteration i (fitness_ result) (inlier_rmse_ result)
         :: debug_log w
    /\ (converged criteria result result' -> fst out = Break)
    /\ (~ converged criteria result result' -> fst out = Next).
Proof.
  intros H update. unfold icp_body in H. invert_run H.
  apply PrintDebug_Ok in Hrun. destruct Hrun as [_ [_ Hlog]].
  apply defined_Ok in Hrun0. destruct Hrun0 as [Hc ->].
  exists a0. split; [exact Hc |].
  unfold converged, dlt. fold update in H.
  destruct (Double.ltb (Double.abs (fitness_ result - fitness_ a0))
                       (relative_fitness_ criteria)) eqn:E1;
    destruct (Double.ltb (Double.abs (inlier_rmse_ result - inlier_rmse_ a0))
                         (relative_rmse_ criteria)) eqn:E2;
    cbn [andb] in H; apply ret_Ok in H; destruct H as [-> ->]; cbn [fst snd];
    (split; [reflexivity | split; [exact Hlog |]]); split; intros Hcv;
    try reflexivity; try (destruct Hcv; discriminate);
    exfalso; apply Hcv; split; reflexivity.
Qed.

Lemma icp_body_not_OutOfFuel (target : PointCloud) (kdtree : KDTreeFlann)
    (max_correspondence_distance : double)
    (estimation : TransformationEstimation)
    (criteria : ICPConvergenceCriteria) (i : Z) (st : ICPState) (w : World) :
  icp_body target kdtree max_correspondence_distance estimation criteria i
    st w <> OutOfFuel.
Proof.
  unfold icp_body. destruct st as [[T pcd] r].
  apply bind_not_OutOfFuel; [discriminate |]. intros.
  apply bind_not_OutOfFuel; [apply defined_not_OutOfFuel |]. intros.
  destruct (_ && _); discriminate.
Qed.

Lemma for_loop_enough_fuel {S : Type} (bound : Z)
    (body : Z -> S -> M (flow * S)) :
  (forall i s w, body i s w <> OutOfFuel) ->
  forall (fuel : nat) (i : Z) (s : S) (w : World),
    (Z.to_nat (bound - i) <= fuel)%nat ->
    for_loop fuel (fun i => i <? bound) body i s w <> OutOfFuel.
Proof.
  intros Hb. induction fuel as [| fuel IH]; intros i s w Hfuel; simpl.
  - replace (i <? bound) with false by (symmetry; apply Z.ltb_ge; lia).
    discriminate.
  - destruct (i <? bound) eqn:E; [| discriminate].
    apply Z.ltb_lt in E.
    apply bind_not_OutOfFuel; [apply Hb |]. intros [fl s'] w1 _.
    destruct fl; cbn [fst snd]; [| discriminate].
    apply IH. lia.
Qed.

Lemma last_cons {A : Type} (a d : A) (l : list A) :
  last (a :: l) d = last l a.
Proof.
  revert a d. induction l as [| b l IH]; intros a d; [reflexivity |].
  change (last (a :: b :: l) d) with (last (b :: l) d).
  rewrite (IH b d), (IH b a). reflexivity.
Qed.

Lemma icp_loop_trace (target : PointCloud) (kdtree : KDTreeFlann)
    (max_correspondence_distance : double)
    (estimation : TransformationEstimation)
    (criteria : ICPConvergenceCriteria) (fuel : nat) :
  forall (i : Z) (st : ICPState) (w : World) (st' : ICPState) (w' : World),
    for_loop fuel (fun i => i <? icp_max_iteration_ criteria)
      (icp_body target kdtree max_correspondence_distance estimation criteria)
      i st w = Ok st' w' ->
    exists rs : list RegistrationResult,
      snd st' = last rs (snd st)
      /\ Z.of_nat (length rs) <= Z.max 0 (icp_max_iteration_ criteria - i)
      /\ (rs = [] -> icp_max_iteration_ criteria <= i)
      /\ debug_log w'
         = rev (icp_messages i (removelast (snd st :: rs))) ++ debug_log w
      /\ forall k, (k < length rs)%nat ->
           (S k = length rs <->
            converged criteria (nth k (snd st :: rs) (snd st))
                               (nth (S k) (snd st :: rs) (snd st))
            \/ icp_max_iteration_ criteria <= i + Z.of_nat (S k)).
Proof.
  induction fuel as [| fuel IH]; intros i st w st' w' H; simpl in H.
  - destruct (i <? icp_max_iteration_ criteria) eqn:E; [discriminate |].
    apply Z.ltb_ge in E. apply ret_Ok in H. destruct H as [-> ->].
    exists []. cbn. repeat split; intros; lia.
  - destruct (i <? icp_max_iteration_ criteria) eqn:E.
    2:{ apply Z.ltb_ge in E. apply ret_Ok in H. destruct H as [-> ->].
        exists []. cbn. repeat split; intros; lia. }
    apply Z.ltb_lt in E. invert_run H.
    destruct st as [[T pcd] r0]. destruct a as [fl st1].
    apply icp_body_Ok in Hrun. cbv zeta in Hrun.
    destruct Hrun as [r1 [_ [Hst1 [Hlog [Hbreak Hnext]]]]].
    cbn [fst snd] in *. subst st1.
    destruct fl.
    + (* the loop goes on: the step did not converge *)
      assert (Hnc : ~ converged criteria r0 r1).
      { intros Hc. specialize (Hbreak Hc). discriminate. }
      apply IH in H. cbn [snd] in H.
      destruct H as [rs [Hlast [Hlen [Hnil [Hlog' Hidx]]]]].
      exists (r1 :: rs). split; [| split; [| split; [| split]]].
      * rewrite Hlast. symmetry. apply last_cons.
      * cbn [length]. lia.
      * discriminate.
      * rewrite Hlog'. rewrite Hlog.
        change (removelast (r0 :: r1 :: rs))
          with (r0 :: removelast (r1 :: rs)).
        cbn [icp_messages rev]. rewrite <- app_assoc. reflexivity.
      * intros [| k] Hk; cbn [length nth] in *.
        -- split.
           ++ intros Hone. right.
              assert (rs = []) by (destruct rs; [reflexivity | discriminate]).
              specialize (Hnil H). lia.
           ++ intros [Hc | Hm]; [contradiction |].
              f_equal. lia.
        -- specialize (Hidx k ltac:(lia)).
           assert (Hd : nth k rs r0 = nth k rs r1)
             by (apply nth_indep; lia).
           assert (Hd' : match k with
                         | O => r1
                         | S m => nth m rs r0
                         end
                         = match k with
                           | O => r1
                           | S m => nth m rs r1
                           end).
           { destruct k as [| m]; [reflexivity |]. apply nth_indep. lia. }
           rewrite Hd, Hd'.
           replace (i + Z.of_nat (S (S k))) with (i + 1 + Z.of_nat (S k))
             by lia.
           rewrite <- Hidx. lia.
    + (* break: the step converged *)
      assert (Hc : converged criteria r0 r1).
      { destruct (classic_converged criteria r0 r1) as [Hc | Hc];
          [exact Hc |]. specialize (Hnext Hc). discriminate. }
      apply ret_Ok in H. destruct H as [-> ->].
      exists [r1]. cbn [snd last length removelast icp_messages rev app].
      split; [reflexivity |]. split; [lia |]. split; [discriminate |].
      split; [exact Hlog |].
      intros k Hk. assert (k = 0%nat) by lia. subst k. cbn [nth].
      split; [intros _; left; exact Hc | reflexivity].
Qed.

(** C4.  When ICP enters its loop (the distance is not [<= 0]) with fuel
    for [max_iteration] steps, it never runs out of fuel, and every run
    that completes is described by the results [r0, r1, ..., rn]: [r0]
    scores [init], step [k] turns [rk] into [rk+1] after printing
    [rk]'s fitness and RMSE, [rn] is returned and [n <= max_iteration].
    No step is taken ([n = 0]) only when [max_iteration <= 0]: the loop
    never stops before its first step.  Step [k] is the last one exactly
    when both deltas [|fitness rk - fitness rk+1| < relative_fitness] and
    [|rmse rk - rmse rk+1| < relative_rmse] hold, or the cap is reached. *)
Theorem icp_stops_on_both_deltas_or_cap
    (fuel : nat) (source target : PointCloud)
    (max_correspondence_distance : double) (init : Matrix4d)
    (estimation : TransformationEstimation)
    (criteria : ICPConvergenceCriteria) (w : World)
    (Hdist : (max_correspondence_distance <=? Double.zero)%double = false)
    (Hfuel : (Z.to_nat (icp_max_iteration_ criteria) <= fuel)%nat) :
  RegistrationICP fuel source target max_correspondence_distance init
    estimation criteria w <> OutOfFuel
  /\ forall r w',
      RegistrationICP fuel source target max_correspondence_distance init
        estimation criteria w = Ok r w' ->
      exists r0 rs,
        GetRegistrationResultAndCorrespondences
          (if Bool.eqb (Matrix4d_isIdentity init) false
           then Transform init source else source)
          target (KDTreeFlann_of_PointCloud target)
          max_correspondence_distance init = Some r0
        /\ r = last rs r0
        /\ (length rs <= Z.to_nat (icp_max_iteration_ criteria))%nat
        /\ (rs = [] -> icp_max_iteration_ criteria <= 0)
        /\ debug_log w'
           = rev (icp_messages 0 (removelast (r0 :: rs))) ++ debug_log w
        /\ forall k, (k < length rs)%nat ->
             (S k = length rs <->
              converged criteria (nth k (r0 :: rs) r0)
                                 (nth (S k) (r0 :: rs) r0)
              \/ S k = Z.to_nat (icp_max_iteration_ criteria)).
Proof.
  unfold RegistrationICP. rewrite Hdist. split.
  - apply bind_not_OutOfFuel; [apply defined_not_OutOfFuel |].
    intros r0 w1 _. apply bind_not_OutOfFuel; [| discriminate].
    apply for_loop_enough_fuel; [apply icp_body_not_OutOfFuel |]. lia.
  - intros r w' H. invert_run H.
    apply defined_Ok in Hrun. destruct Hrun as [Hr0 ->].
    apply ret_Ok in H. destruct H as [-> ->].
    apply icp_loop_trace in Hrun0. cbn [snd] in Hrun0.
    destruct Hrun0 as [rs [Hlast [Hlen [Hnil [Hlog Hidx]]]]].
    exists a, rs. split; [exact Hr0 |]. split; [exact Hlast |].
    split; [lia |]. split; [exact Hnil |]. split; [exact Hlog |].
    intros k Hk. rewrite (Hidx k Hk).
    split; (intros [Hc | Hm]; [left; exact Hc | right; lia]).
Qed.

End ICP.

Lemma icp_run_eq :
  RegistrationICP 3 Examples.two_points Examples.two_points Double.one
    Examples.identity Examples.identity_estimation (Examples.icp_criteria 3)
    Examples.world = Ok Examples.icp_result Examples.icp_world.
Proof. reflexivity. Qed.

Lemma icp_one_step_eq :
  RegistrationICP 3 Examples.two_points Examples.two_points Double.one
    Examples.identity Examples.identity_estimation (Examples.icp_criteria 3)
    Examples.world
  = Ok {| transformation_ := Examples.identity;
          correspondence_set_ := [(0, 0); (1, 1)];
          inlier_rmse_ := Double.zero;
          fitness_ := Double.one |}
       (mkWorld (collaborators := Reference.collaborators) 1 0
          [ICP_Iteration 0 Double.one Double.zero]).
Proof. reflexivity. Qed.

(** Two points aligned with themselves, thresholds 1 and three steps
    allowed: ICP returns with fuel for three steps, after one message; its
    run has the described trace, which is not empty since
    [max_iteration = 3]. *)
Lemma icp_stops_on_both_deltas_or_cap_witness :
  RegistrationICP 3 Examples.two_points Examples.two_points Double.one
    Examples.identity Examples.identity_estimation (Examples.icp_criteria 3)
    Examples.world <> OutOfFuel
  /\ exists r0 rs,
      GetRegistrationResultAndCorrespondences Examples.two_points
        Examples.two_points (KDTreeFlann_of_PointCloud Examples.two_points)
        Double.one Examples.identity = Some r0
      /\ {| transformation_ := Examples.identity;
            correspondence_set_ := [(0, 0); (1, 1)];
            inlier_rmse_ := Double.zero;
            fitness_ := Double.one |} = last rs r0
      /\ (length rs <= 3)%nat
      /\ (rs = [] -> 3 <= 0)
      /\ [ICP_Iteration 0 Double.one Double.zero]
         = rev (icp_messages 0 (removelast (r0 :: rs)))
           ++ debug_log Examples.world
      /\ forall k, (k < length rs)%nat ->
           (S k = length rs <->
            converged (Examples.icp_criteria 3) (nth k (r0 :: rs) r0)
                      (nth (S k) (r0 :: rs) r0)
            \/ S k = 3%nat).
Proof.
  exact (conj
           (proj1 (icp_stops_on_both_deltas_or_cap 3 Examples.two_points
                     Examples.two_points Double.one Examples.identity
                     Examples.identity_estimation (Examples.icp_criteria 3)
                     Examples.world eq_refl (le_n 3)))
           (proj2 (icp_stops_on_both_deltas_or_cap 3 Examples.two_points
                     Examples.two_points Double.one Examples.identity
                     Examples.identity_estimation (Examples.icp_criteria 3)
                     Examples.world eq_refl (le_n 3))
              _ _ icp_one_step_eq)).
Defined.

(** ** Feature-RANSAC: a sampled index without a feature neighbour *)

Section FeatureSampling.

Context {collaborators : Collaborators}.

(** C8.  One pass of the sampling loop that completes draws the source
    index [s = rand() % (int)|source|], queries the feature tree for the
    one nearest neighbour of column [s], and then: if the query returns
    the count 0, entry [j] of [ransac_corres] is [(s, 0)] and the message
    "Found a feature without neighbors" is printed; otherwise entry [j] is
    [(s, t)] with [t] the first returned index, and nothing is printed. *)
Theorem feature_sampling_miss_takes_index_zero
    (source : PointCloud) (source_feature : Feature)
    (kdtree_feature : KDTreeFlann) (j : Z) (ransac_corres : CorrespondenceSet)
    (indices : list Z) (dists : list double) (w w' : World)
    (out : SampleState)
    (Hrun : feature_sample_step source source_feature kdtree_feature j
              (ransac_corres, indices, dists) w = Ok out w') :
  exists s column,
    int_rem (fst (rand (rand_state w))) (to_int (size (points_ source)))
    = Some s
    /\ at_index (data_ source_feature) s = Some column
    /\ snd (fst out)
       = snd (fst (SearchKNN kdtree_feature column 1 indices dists))
    /\ (fst (fst (SearchKNN kdtree_feature column 1 indices dists)) = 0 ->
        at_index (fst (fst out)) j = Some (s, 0)
        /\ debug_log w' = Found_a_feature_without_neighbors :: debug_log w)
    /\ (fst (fst (SearchKNN kdtree_feature column 1 indices dists)) <> 0 ->
        exists t,
          at_index
            (snd (fst (SearchKNN kdtree_feature column 1 indices dists))) 0
          = Some t
          /\ at_index (fst (fst out)) j = Some (s, t)
          /\ debug_log w' = debug_log w).
Proof.
  unfold feature_sample_step in Hrun. invert_run Hrun.
  apply do_rand_Ok in Hrun0. destruct Hrun0 as [-> [_ [_ Hl0]]].
  apply defined_Ok in Hrun1. destruct Hrun1 as [Hs ->].
  apply defined_Ok in Hrun2. destruct Hrun2 as [Hc ->].
  apply defined_Ok in Hrun3. destruct Hrun3 as [Hcol ->].
  exists a0, a2. split; [exact Hs |]. split; [exact Hcol |].
  destruct (SearchKNN kdtree_feature a2 1 indices dists) as [[k idx] ds].
  cbn [fst snd].
  assert (Hj : at_index (set_index ransac_corres j (a0, snd a1)) j
               = Some (a0, snd a1)).
  { eapply at_index_set_index. exact Hc. }
  destruct (k =? 0) eqn:Ek.
  - apply Z.eqb_eq in Ek. invert_run Hrun.
    apply PrintDebug_Ok in Hrun0. destruct Hrun0 as [_ [_ Hl]].
    apply ret_Ok in Hrun. destruct Hrun as [-> ->]. cbn [fst snd].
    split; [reflexivity |]. split.
    + intros _. split.
      * eapply at_index_set_index. exact Hj.
      * rewrite Hl, Hl0. reflexivity.
    + intros Hk. contradiction.
  - apply Z.eqb_neq in Ek. invert_run Hrun.
    apply defined_Ok in Hrun0. destruct Hrun0 as [Ht ->].
    apply ret_Ok in Hrun. destruct Hrun as [-> ->]. cbn [fst snd].
    split; [reflexivity |]. split.
    + intros Hk. contradiction.
    + intros _. exists a. split; [exact Ht |]. split.
      * eapply at_index_set_index. exact Hj.
      * exact Hl0.
Qed.

End FeatureSampling.

(** A target without any feature column: the query finds nothing, the
    entry takes target index 0 and the message is printed. *)
Lemma feature_sampling_miss_takes_index_zero_witness :
  exists s column,
    int_rem (fst (rand (rand_state Examples.world)))
            (to_int (size (points_ Examples.two_points))) = Some s
    /\ at_index [[Double.one]; [Double.two]] s = Some column
    /\ at_index [(0, 0); (7, 7); (7, 7)] 0 = Some (s, 0)
    /\ [Found_a_feature_without_neighbors]
       = Found_a_feature_without_neighbors :: debug_log Examples.world.
Proof.
  destruct (feature_sampling_miss_takes_index_zero
              (collaborators := Reference.collaborators)
              Examples.two_points (mkFeature [[Double.one]; [Double.two]])
              Examples.no_features 0 [(7, 7); (7, 7); (7, 7)] [0]
              [Double.zero] Examples.world
              (mkWorld (collaborators := Reference.collaborators)
                 1103527590 0 [Found_a_feature_without_neighbors])
              ([(0, 0); (7, 7); (7, 7)], [], [])
              eq_refl)
    as [s [column [Hs [Hcol [_ [Hmiss _]]]]]].
  exists s, column. split; [exact Hs |]. split; [exact Hcol |].
  apply Hmiss.
  vm_compute in Hs. injection Hs as <-.
  vm_compute in Hcol. injection Hcol as <-.
  reflexivity.
Defined.

(** ** Binary64 arithmetic

    Facts about the rounding of [SpecFloat] at precision 53: the shape of
    [(double)n] for an integer [n] below [2^53], of the quotient of two
    such doubles, and the sign of sums, squares, quotients and square
    roots. *)

Module DoubleFacts.

Import Double.

Lemma digits2_pos_size (p : positive) : digits2_pos p = Pos.size p.
Proof. induction p; simpl; congruence. Qed.

Lemma Zdigits2_bounds (p : positive) :
  2 ^ (Zdigits2 (Zpos p) - 1) <= Zpos p < 2 ^ Zdigits2 (Zpos p).
Proof.
  unfold Zdigits2. rewrite digits2_pos_size.
  pose proof (Pos.size_le p) as Hle. pose proof (Pos.size_gt p) as Hgt.
  apply Pos2Z.pos_le_pos in Hle. apply Pos2Z.pos_lt_pos in Hgt.
  rewrite Pos2Z.inj_pow in Hle, Hgt.
  change (Z.pos p~0) with (2 * Z.pos p) in Hle.
  assert (E : 2 ^ Zpos (Pos.size p) = 2 * 2 ^ (Zpos (Pos.size p) - 1)).
  { rewrite <- Z.pow_succ_r by lia. f_equal. lia. }
  lia.
Qed.

Lemma Zdigits2_unique (p : positive) (d : Z) :
  2 ^ (d - 1) <= Zpos p < 2 ^ d -> Zdigits2 (Zpos p) = d.
Proof.
  intros [Hlo Hhi]. pose proof (Zdigits2_bounds p) as [Blo Bhi].
  assert (Hd : 0 < d).
  { destruct (Z_lt_le_dec 0 d); [assumption |].
    assert (2 ^ d <= 1).
    { destruct (Z.eq_dec d 0) as [-> | ]; [simpl; lia |].
      rewrite Z.pow_neg_r by lia. lia. }
    lia. }
  assert (Hz : 0 < Zdigits2 (Zpos p)) by (simpl; lia).
  destruct (Z.lt_trichotomy (Zdigits2 (Zpos p)) d) as [H | [H | H]].
  - assert (2 ^ Zdigits2 (Zpos p) <= 2 ^ (d - 1))
      by (apply Z.pow_le_mono_r; lia). lia.
  - exact H.
  - assert (2 ^ d <= 2 ^ (Zdigits2 (Zpos p) - 1))
      by (apply Z.pow_le_mono_r; lia). lia.
Qed.

Lemma shr_m_of_loc (m : Z) (l : location) :
  shr_m (shr_record_of_loc m l) = m.
Proof. destruct l as [| []]; reflexivity. Qed.

Lemma shr_1_m (mrs : shr_record) :
  0 <= shr_m mrs -> shr_m (shr_1 mrs) = shr_m mrs / 2.
Proof.
  destruct mrs as [m r s]. simpl. intros H.
  rewrite <- Z.div2_div.
  destruct m as [| [p | p |] | p]; try reflexivity. lia.
Qed.

Lemma iter_shr_1_m (p : positive) :
  forall mrs, 0 <= shr_m mrs ->
    shr_m (iter_pos shr_1 p mrs) = shr_m mrs / 2 ^ Zpos p.
Proof.
  induction p as [p IH | p IH |]; intros mrs H; simpl iter_pos.
  - assert (H1 : 0 <= shr_m (shr_1 mrs)).
    { rewrite shr_1_m by exact H. apply Z.div_pos; lia. }
    assert (H2 : 0 <= shr_m (iter_pos shr_1 p (shr_1 mrs))).
    { rewrite IH by exact H1. apply Z.div_pos; [exact H1 | lia]. }
    rewrite IH by exact H2. rewrite IH by exact H1. rewrite shr_1_m by exact H.
    rewrite !Z.div_div by lia. f_equal.
    replace (Zpos p~1) with (Z.succ (Zpos p + Zpos p)) by lia.
    rewrite Z.pow_succ_r, Z.pow_add_r by lia. lia.
  - assert (H2 : 0 <= shr_m (iter_pos shr_1 p mrs)).
    { rewrite IH by exact H. apply Z.div_pos; [exact H | lia]. }
    rewrite IH by exact H2. rewrite IH by exact H.
    rewrite Z.div_div by lia. f_equal.
    replace (Zpos p~0) with (Zpos p + Zpos p) by lia.
    rewrite Z.pow_add_r by lia. lia.
  - rewrite shr_1_m by exact H. reflexivity.
Qed.

Lemma shr_spec (mrs : shr_record) (e n : Z) :
  0 <= shr_m mrs -> 0 <= n ->
  shr_m (fst (shr mrs e n)) = shr_m mrs / 2 ^ n /\ snd (shr mrs e n) = e + n.
Proof.
  intros Hm Hn. destruct n as [| p | p]; simpl; try lia.
  - rewrite Z.div_1_r. split; [reflexivity | lia].
  - split; [| reflexivity]. apply iter_shr_1_m. exact Hm.
Qed.

Lemma round_nearest_even_cases (m : Z) (l : location) :
  round_nearest_even m l = m \/ round_nearest_even m l = m + 1.
Proof.
  destruct l as [| []]; simpl; auto. destruct (Z.even m); auto.
Qed.

Lemma fexp_normal (x : Z) : -1021 <= x -> fexp 53 1024 x = x - 53.
Proof. intros H. unfold fexp, emin. lia. Qed.

Lemma shr_fexp_spec (m e : Z) (l : location) :
  0 < m -> -1021 <= Zdigits2 m + e -> 53 <= Zdigits2 m ->
  shr_m (fst (shr_fexp 53 1024 m e l)) = m / 2 ^ (Zdigits2 m - 53)
  /\ snd (shr_fexp 53 1024 m e l) = e + (Zdigits2 m - 53).
Proof.
  intros Hm He Hd. unfold shr_fexp. rewrite fexp_normal by exact He.
  replace (Zdigits2 m + e - 53 - e) with (Zdigits2 m - 53) by lia.
  pose proof (shr_spec (shr_record_of_loc m l) e (Zdigits2 m - 53)) as H.
  rewrite shr_m_of_loc in H. apply H; lia.
Qed.

Lemma binary_round_aux_normal (s : bool) (q e : Z) (l : location) :
  2 ^ 52 <= q ->
  -1074 <= e + (Zdigits2 q - 53) ->
  e + (Zdigits2 q - 53) + 1 <= 971 ->
  exists m2 e2,
    binary_round_aux 53 1024 s q e l = S754_finite s m2 e2
    /\ ((e2 = e + (Zdigits2 q - 53) /\ 2 ^ 52 <= Zpos m2 < 2 ^ 53)
        \/ (e2 = e + (Zdigits2 q - 53) + 1 /\ Zpos m2 = 2 ^ 52)).
Proof.
  intros Hq Hlo Hhi.
  destruct q as [| p | p]; try (exfalso; lia).
  pose proof (Zdigits2_bounds p) as [Blo Bhi].
  set (d := Zdigits2 (Zpos p)) in *.
  assert (Hd : 53 <= d).
  { destruct (Z_lt_le_dec d 53) as [H | H]; [| exact H].
    assert (2 ^ d <= 2 ^ 52) by (apply Z.pow_le_mono_r; lia). lia. }
  unfold binary_round_aux.
  destruct (shr_fexp_spec (Zpos p) e l) as [Hm1 He1]; try fold d; try lia.
  fold d in Hm1, He1.
  destruct (shr_fexp 53 1024 (Zpos p) e l) as [mrs1 e1].
  cbn [fst snd] in Hm1, He1.
  set (k := d - 53) in *.
  assert (Hq1 : 2 ^ 52 <= shr_m mrs1 < 2 ^ 53).
  { rewrite Hm1.
    assert (Hk : 0 < 2 ^ k) by (apply Z.pow_pos_nonneg; lia).
    assert (E1 : 2 ^ (d - 1) = 2 ^ 52 * 2 ^ k).
    { rewrite <- Z.pow_add_r by lia. f_equal. lia. }
    assert (E2 : 2 ^ d = 2 ^ 53 * 2 ^ k).
    { rewrite <- Z.pow_add_r by lia. f_equal. lia. }
    split.
    - apply Z.div_le_lower_bound; [exact Hk |]. lia.
    - apply Z.div_lt_upper_bound; [exact Hk |]. lia. }
  set (q2 := round_nearest_even (shr_m mrs1) (loc_of_shr_record mrs1)).
  assert (Hq2 : 2 ^ 52 <= q2 <= 2 ^ 53).
  { subst q2.
    destruct (round_nearest_even_cases (shr_m mrs1) (loc_of_shr_record mrs1))
      as [-> | ->]; lia. }
  destruct (Z.eq_dec q2 (2 ^ 53)) as [Etop | Ntop].
  - rewrite Etop.
    unfold shr_fexp. change (Zdigits2 (2 ^ 53)) with 54.
    rewrite fexp_normal by lia.
    replace (54 + e1 - 53 - e1) with 1 by lia.
    cbn [shr_record_of_loc shr iter_pos shr_1 shr_m].
    change (2 ^ 53) with (Zpos (xO (Z.to_pos (2 ^ 52)))).
    cbn [shr_1 shr_m orb].
    replace (e1 + 1 <=? 1024 - 53) with true by (symmetry; apply Z.leb_le; lia).
    eexists. eexists. split; [reflexivity |].
    right. split; [lia | reflexivity].
  - destruct q2 as [| p2 | p2] eqn:Eq2; try (exfalso; lia).
    assert (Hd2 : Zdigits2 (Zpos p2) = 53).
    { apply Zdigits2_unique. lia. }
    unfold shr_fexp. rewrite Hd2. rewrite fexp_normal by lia.
    replace (53 + e1 - 53 - e1) with 0 by lia.
    cbn [shr_record_of_loc shr fst snd shr_m].
    replace (e1 <=? 1024 - 53) with true by (symmetry; apply Z.leb_le; lia).
    eexists. eexists. split; [reflexivity |].
    left. split; lia.
Qed.

Lemma binary_round_aux_exact (s : bool) (p : positive) (e : Z) :
  2 ^ 52 <= Zpos p < 2 ^ 53 -> -1074 <= e <= 971 ->
  binary_round_aux 53 1024 s (Zpos p) e loc_Exact = S754_finite s p e.
Proof.
  intros Hp He.
  assert (Hd : Zdigits2 (Zpos p) = 53) by (apply Zdigits2_unique; lia).
  unfold binary_round_aux, shr_fexp. rewrite Hd.
  rewrite fexp_normal by lia.
  replace (53 + e - 53 - e) with 0 by lia.
  cbn [shr_record_of_loc shr shr_m loc_of_shr_record round_nearest_even].
  rewrite Hd. rewrite fexp_normal by lia.
  replace (53 + e - 53 - e) with 0 by lia.
  cbn [shr_record_of_loc shr shr_m].
  replace (e <=? 1024 - 53) with true by (symmetry; apply Z.leb_le; lia).
  reflexivity.
Qed.

Lemma iter_xO (k p : positive) :
  Zpos (Pos.iter xO p k) = Zpos p * 2 ^ Zpos k.
Proof.
  induction k as [| k IH] using Pos.peano_ind.
  - simpl. lia.
  - rewrite Pos.iter_succ. rewrite Pos2Z.inj_xO, IH.
    rewrite Pos2Z.inj_succ, Z.pow_succ_r by lia. lia.
Qed.

Lemma mant_bounds (n : Z) :
  1 <= n < 2 ^ 53 -> 2 ^ 52 <= mant n < 2 ^ 53 /\ -52 <= expo n <= 0.
Proof.
  intros Hn. destruct n as [| p | p]; try lia.
  pose proof (Zdigits2_bounds p) as [Blo Bhi].
  unfold mant, expo. set (d := Zdigits2 (Zpos p)) in *.
  assert (Hd1 : 1 <= d) by (subst d; simpl; lia).
  assert (Hd : d <= 53).
  { destruct (Z_le_gt_dec d 53) as [H | H]; [exact H |].
    assert (2 ^ 53 <= 2 ^ (d - 1)) by (apply Z.pow_le_mono_r; lia). lia. }
  assert (Hk : 0 < 2 ^ (53 - d)) by (apply Z.pow_pos_nonneg; lia).
  assert (E1 : 2 ^ 52 = 2 ^ (d - 1) * 2 ^ (53 - d)).
  { rewrite <- Z.pow_add_r by lia. f_equal. lia. }
  assert (E2 : 2 ^ 53 = 2 ^ d * 2 ^ (53 - d)).
  { rewrite <- Z.pow_add_r by lia. f_equal. lia. }
  split; [| lia]. rewrite E1 at 1. rewrite E2. split.
  - apply Z.mul_le_mono_nonneg_r; lia.
  - apply Z.mul_lt_mono_pos_r; lia.
Qed.

Lemma of_Z_normal (n : Z) :
  1 <= n < 2 ^ 53 ->
  of_Z n = S754_finite false (Z.to_pos (mant n)) (expo n).
Proof.
  intros Hn. pose proof (mant_bounds n Hn) as [Hm He].
  destruct n as [| p | p]; try lia.
  unfold of_Z, prec, emax, binary_normalize, binary_round.
  unfold mant, expo in *.
  change (Zpos (digits2_pos p)) with (Zdigits2 (Zpos p)).
  set (d := Zdigits2 (Zpos p)) in *.
  rewrite fexp_normal by lia.
  unfold shl_align.
  replace (d + 0 - 53 - 0) with (d - 53) by lia.
  destruct (d - 53) as [| k | k] eqn:Ek; try lia.
  - replace (53 - d) with 0 in * by lia.
    rewrite Z.mul_1_r in *. cbn [Z.to_pos].
    apply binary_round_aux_exact; lia.
  - replace (d + 0 - 53) with (Zneg k) by lia.
    assert (Ek' : 53 - d = Zpos k) by lia. rewrite Ek' in *.
    rewrite <- iter_xO in *. cbn [Z.to_pos].
    apply binary_round_aux_exact; lia.
Qed.

Lemma Zdigits2_mono (n m : Z) :
  1 <= n <= m -> Zdigits2 n <= Zdigits2 m.
Proof.
  intros H. destruct n as [| p | p]; try lia. destruct m as [| q | q]; try lia.
  pose proof (Zdigits2_bounds p) as [Plo _].
  pose proof (Zdigits2_bounds q) as [_ Qhi].
  destruct (Z_le_gt_dec (Zdigits2 (Zpos p)) (Zdigits2 (Zpos q)))
    as [Hle | Hgt]; [exact Hle |].
  assert (2 ^ Zdigits2 (Zpos q) <= 2 ^ (Zdigits2 (Zpos p) - 1)).
  { apply Z.pow_le_mono_r; [lia |]. lia. }
  lia.
Qed.

Lemma div_eucl_div_mod (a b : Z) : Z.div_eucl a b = (a / b, a mod b).
Proof. unfold Z.div, Z.modulo. destruct (Z.div_eucl a b). reflexivity. Qed.

Lemma SFdiv_core_normal (mx my : positive) (ex ey : Z) :
  Zdigits2 (Zpos mx) = 53 -> Zdigits2 (Zpos my) = 53 ->
  -1021 <= ex - ey ->
  SFdiv_core_binary 53 1024 (Zpos mx) ex (Zpos my) ey
  = (Zpos mx * 2 ^ 53 / Zpos my, ex - ey - 53,
     new_location (Zpos my) (Zpos mx * 2 ^ 53 mod Zpos my)).
Proof.
  intros Hx Hy He. unfold SFdiv_core_binary. rewrite Hx, Hy.
  rewrite fexp_normal by lia.
  replace (53 + ex - (53 + ey) - 53) with (ex - ey - 53) by lia.
  rewrite Z.min_l by lia.
  replace (ex - ey - (ex - ey - 53)) with 53 by lia.
  rewrite Z.shiftl_mul_pow2 by lia.
  rewrite div_eucl_div_mod. reflexivity.
Qed.

Lemma quotient_bounds (a b : Z) :
  2 ^ 52 <= a < 2 ^ 53 -> 2 ^ 52 <= b < 2 ^ 53 ->
  2 ^ 52 <= a * 2 ^ 53 / b < 2 ^ 54
  /\ (a < b -> Zdigits2 (a * 2 ^ 53 / b) = 53)
  /\ (b <= a -> Zdigits2 (a * 2 ^ 53 / b) = 54).
Proof.
  intros Ha Hb.
  assert (Hlo : 2 ^ 52 <= a * 2 ^ 53 / b).
  { apply Z.div_le_lower_bound; [lia |]. nia. }
  assert (Hhi : a * 2 ^ 53 / b < 2 ^ 54).
  { apply Z.div_lt_upper_bound; [lia |]. nia. }
  split; [lia |].
  destruct (a * 2 ^ 53 / b) as [| q | q] eqn:Eq; try lia.
  split; intros H; apply Zdigits2_unique.
  - split; [lia |]. rewrite <- Eq.
    apply Z.div_lt_upper_bound; [lia |]. nia.
  - split; [| lia]. rewrite <- Eq.
    apply Z.div_le_lower_bound; [lia |]. nia.
Qed.

Lemma SFdiv_of_Z_shape (n m : Z) :
  1 <= n < 2 ^ 53 -> 1 <= m < 2 ^ 53 ->
  exists m2 e2,
    div (of_Z n) (of_Z m) = S754_finite false m2 e2
    /\ ((e2 = expo n - expo m - 53
              + (Zdigits2 (mant n * 2 ^ 53 / mant m) - 53)
         /\ 2 ^ 52 <= Zpos m2 < 2 ^ 53)
        \/ (e2 = expo n - expo m - 53
                 + (Zdigits2 (mant n * 2 ^ 53 / mant m) - 53) + 1
            /\ Zpos m2 = 2 ^ 52)).
Proof.
  intros Hn Hm.
  pose proof (mant_bounds n Hn) as [Hmn Hen].
  pose proof (mant_bounds m Hm) as [Hmm Hem].
  rewrite (of_Z_normal n Hn), (of_Z_normal m Hm).
  destruct (mant n) as [| a | a] eqn:Ea; try lia.
  destruct (mant m) as [| b | b] eqn:Eb; try lia.
  cbn [Z.to_pos]. unfold div, prec, emax, SFdiv.
  rewrite SFdiv_core_normal;
    [| apply Zdigits2_unique; lia | apply Zdigits2_unique; lia | lia].
  cbn [xorb].
  pose proof (quotient_bounds (Zpos a) (Zpos b) Hmn Hmm) as [Hq [Hlt Hge]].
  assert (Hd : 53 <= Zdigits2 (Zpos a * 2 ^ 53 / Zpos b) <= 54).
  { destruct (Z_lt_le_dec (Zpos a) (Zpos b)) as [H | H];
      [rewrite (Hlt H) | rewrite (Hge H)]; lia. }
  apply binary_round_aux_normal; lia.
Qed.

Lemma SFdiv_of_Z_same (n : Z) :
  1 <= n < 2 ^ 53 -> div (of_Z n) (of_Z n) = one.
Proof.
  intros Hn. pose proof (mant_bounds n Hn) as [Hmn Hen].
  rewrite (of_Z_normal n Hn).
  destruct (mant n) as [| a | a] eqn:Ea; try lia.
  cbn [Z.to_pos]. unfold div, prec, emax, SFdiv.
  rewrite SFdiv_core_normal;
    [| apply Zdigits2_unique; lia | apply Zdigits2_unique; lia | lia].
  rewrite (Z.mul_comm (Zpos a)), Z.div_mul, Z.mod_mul by lia.
  replace (expo n - expo n - 53) with (-53) by lia.
  assert (El : new_location (Zpos a) 0 = loc_Exact).
  { unfold new_location, new_location_even, new_location_odd.
    destruct (Z.even (Zpos a)); reflexivity. }
  rewrite El. reflexivity.
Qed.

Lemma SFdiv_of_Z_le_one (n m : Z) :
  1 <= n <= m -> m < 2 ^ 53 ->
  leb (div (of_Z n) (of_Z m)) one = true.
Proof.
  intros Hnm Hm.
  destruct (Z.eq_dec n m) as [-> | Hne].
  { rewrite SFdiv_of_Z_same by lia. reflexivity. }
  assert (Hn : 1 <= n < 2 ^ 53) by lia.
  assert (Hm' : 1 <= m < 2 ^ 53) by lia.
  destruct (SFdiv_of_Z_shape n m Hn Hm') as [m2 [e2 [E Hshape]]].
  rewrite E.
  pose proof (mant_bounds n Hn) as [Hmn Hen].
  pose proof (mant_bounds m Hm') as [Hmm Hem].
  pose proof (quotient_bounds (mant n) (mant m) Hmn Hmm) as [Hq [Hlt Hge]].
  assert (Hdig : Zdigits2 n <= Zdigits2 m) by (apply Zdigits2_mono; lia).
  (* the exponent before a possible carry is at most -53 *)
  assert (Hexp : expo n - expo m - 53
                 + (Zdigits2 (mant n * 2 ^ 53 / mant m) - 53) <= -53).
  { unfold expo.
    destruct (Z_lt_le_dec (mant n) (mant m)) as [H | H].
    - rewrite (Hlt H). lia.
    - rewrite (Hge H).
      destruct (Z.eq_dec (Zdigits2 n) (Zdigits2 m)) as [Ed | Nd]; [| lia].
      exfalso. unfold mant in H. rewrite Ed in H.
      assert (0 < 2 ^ (53 - Zdigits2 m)).
      { apply Z.pow_pos_nonneg; [lia |]. unfold expo in Hem. lia. }
      nia. }
  unfold leb, SFleb, SFcompare, one.
  destruct Hshape as [[-> Hm2] | [-> Hm2]].
  - replace (_ ?= -52) with Lt; [reflexivity |].
    symmetry. apply Z.compare_lt_iff. lia.
  - destruct (Z.compare_spec
                (expo n - expo m - 53
                 + (Zdigits2 (mant n * 2 ^ 53 / mant m) - 53) + 1) (-52))
      as [Ec | Ec | Ec]; try reflexivity; try lia.
    assert (m2 = 4503599627370496%positive) by lia. subst m2. reflexivity.
Qed.

Lemma SFdiv_of_Z_nonzero (n m : Z) :
  1 <= n < 2 ^ 53 -> 1 <= m < 2 ^ 53 ->
  eqb (div (of_Z n) (of_Z m)) zero = false.
Proof.
  intros Hn Hm.
  destruct (SFdiv_of_Z_shape n m Hn Hm) as [m2 [e2 [E _]]].
  rewrite E. reflexivity.
Qed.

Lemma shr_nonneg (mrs : shr_record) (e n : Z) :
  0 <= shr_m mrs -> 0 <= shr_m (fst (shr mrs e n)).
Proof.
  intros H. destruct n as [| p | p]; simpl; try exact H.
  rewrite iter_shr_1_m by exact H. apply Z.div_pos; [exact H | lia].
Qed.

Lemma binary_round_aux_nonneg (prec emax m e : Z) (l : location) :
  0 <= m -> nonneg (binary_round_aux prec emax false m e l) = true.
Proof.
  intros Hm. unfold binary_round_aux, shr_fexp.
  pose proof (shr_nonneg (shr_record_of_loc m l) e
                (fexp prec emax (Zdigits2 m + e) - e)) as H1.
  rewrite shr_m_of_loc in H1. specialize (H1 Hm).
  destruct (shr (shr_record_of_loc m l) e _) as [mrs1 e1]. cbn [fst] in H1.
  set (q2 := round_nearest_even (shr_m mrs1) (loc_of_shr_record mrs1)).
  assert (H2 : 0 <= q2).
  { subst q2.
    destruct (round_nearest_even_cases (shr_m mrs1) (loc_of_shr_record mrs1))
      as [-> | ->]; lia. }
  pose proof (shr_nonneg (shr_record_of_loc q2 loc_Exact) e1
                (fexp prec emax (Zdigits2 q2 + e1) - e1)) as H3.
  rewrite shr_m_of_loc in H3. specialize (H3 H2).
  destruct (shr (shr_record_of_loc q2 loc_Exact) e1 _) as [mrs2 e2].
  cbn [fst] in H3.
  destruct (shr_m mrs2) as [| p | p]; try reflexivity; try lia.
  destruct (e2 <=? emax - prec); reflexivity.
Qed.

Lemma binary_normalize_nonneg (prec emax m e : Z) :
  0 <= m -> nonneg (binary_normalize prec emax m e false) = true.
Proof.
  intros Hm. destruct m as [| p | p]; try reflexivity; try lia.
  unfold binary_normalize, binary_round.
  destruct (shl_align p e _) as [mz ez].
  apply binary_round_aux_nonneg. lia.
Qed.

Lemma SFadd_nonneg (prec emax : Z) (x y : double) :
  nonneg x = true -> nonneg y = true ->
  nonneg (SFadd prec emax x y) = true.
Proof.
  intros Hx Hy.
  destruct x as [sx | sx | | sx mx ex]; try discriminate Hx;
    destruct sx; try discriminate Hx;
    destruct y as [sy | sy | | sy my ey]; try discriminate Hy;
    destruct sy; try discriminate Hy; try reflexivity.
  unfold SFadd, cond_Zopp. apply binary_normalize_nonneg. lia.
Qed.

Lemma SFadd_zero_l (prec emax : Z) (x : double) :
  nonneg x = true -> SFadd prec emax (S754_zero false) x = x.
Proof.
  destruct x as [s | s | | s m e]; simpl; try discriminate;
    destruct s; try discriminate; reflexivity.
Qed.

Lemma SFmul_self_nonneg (prec emax : Z) (x : double) :
  x <> S754_nan -> nonneg (SFmul prec emax x x) = true.
Proof.
  destruct x as [s | s | | s m e]; simpl; intros H;
    try (destruct s; reflexivity); try contradiction.
  replace (xorb s s) with false by (destruct s; reflexivity).
  apply binary_round_aux_nonneg. lia.
Qed.

Lemma SFdiv_nonneg (prec emax : Z) (x : double) (my : positive) (ey : Z) :
  nonneg x = true ->
  nonneg (SFdiv prec emax x (S754_finite false my ey)) = true.
Proof.
  destruct x as [s | s | | s m e]; simpl; try discriminate;
    destruct s; try discriminate; intros _; try reflexivity.
  unfold SFdiv_core_binary.
  set (m' := match _ - _ - _ with Z0 => _ | Zpos _ => _ | Zneg _ => _ end).
  assert (Hm' : 0 <= m').
  { subst m'. destruct (_ - _ - _); try lia. apply Z.shiftl_nonneg. lia. }
  rewrite div_eucl_div_mod.
  apply binary_round_aux_nonneg. apply Z.div_pos; lia.
Qed.

Lemma SFsqrt_nonneg (prec emax : Z) (x : double) :
  nonneg x = true -> nonneg (SFsqrt prec emax x) = true.
Proof.
  destruct x as [s | s | | s m e]; simpl; try discriminate;
    destruct s; try discriminate; intros _; try reflexivity.
  unfold SFsqrt_core_binary.
  set (m' := match _ - _ with Z0 => _ | Zpos _ => _ | Zneg _ => _ end).
  pose proof (Z.sqrtrem_sqrt m') as Hs.
  destruct (Z.sqrtrem m') as [q r]. cbn [fst] in Hs.
  apply binary_round_aux_nonneg. rewrite Hs. apply Z.sqrt_nonneg.
Qed.

Lemma nonneg_leb (x : double) :
  nonneg x = true -> SFleb (S754_zero false) x = true.
Proof.
  destruct x as [s | s | | s m e]; simpl; try discriminate;
    destruct s; try discriminate; reflexivity.
Qed.

Lemma nonneg_leb_refl (x : double) :
  nonneg x = true -> SFleb x x = true.
Proof.
  destruct x as [s | s | | s m e]; simpl; try discriminate;
    destruct s; try discriminate; intros _; try reflexivity.
  unfold SFleb, SFcompare. rewrite Z.compare_refl.
  change (Pos.compare_cont Eq m m) with (Pos.compare m m).
  rewrite Pos.compare_refl. reflexivity.
Qed.

(** *** The operations of [Double] *)

Lemma add_nonneg (x y : double) :
  nonneg x = true -> nonneg y = true -> nonneg (add x y) = true.
Proof. apply SFadd_nonneg. Qed.

Lemma add_zero_l (x : double) : nonneg x = true -> add zero x = x.
Proof. apply SFadd_zero_l. Qed.

Lemma mul_self_nonneg (x : double) :
  x <> S754_nan -> nonneg (mul x x) = true.
Proof. apply SFmul_self_nonneg. Qed.

Lemma div_of_Z_nonneg (x : double) (n : Z) :
  1 <= n < 2 ^ 53 -> nonneg x = true -> nonneg (div x (of_Z n)) = true.
Proof.
  intros Hn Hx. rewrite (of_Z_normal n Hn). apply SFdiv_nonneg. exact Hx.
Qed.

Lemma sqrt_nonneg (x : double) : nonneg x = true -> nonneg (sqrt x) = true.
Proof. apply SFsqrt_nonneg. Qed.

Lemma of_Z_nonneg (n : Z) : 0 <= n -> nonneg (of_Z n) = true.
Proof. apply binary_normalize_nonneg. Qed.

Lemma zero_div_of_Z (n : Z) : 1 <= n < 2 ^ 53 -> div (of_Z 0) (of_Z n) = zero.
Proof. intros Hn. rewrite (of_Z_normal n Hn). reflexivity. Qed.

End DoubleFacts.

(** ** The Evaluator *)

Section Evaluator.

Context {collaborators : Collaborators}.

Lemma at_index_app_middle {A : Type} (pre rest : list A) (a : A) :
  at_index (pre ++ a :: rest) (Z.of_nat (length pre)) = Some a.
Proof.
  unfold at_index.
  replace (Z.of_nat (length pre) <? 0) with false
    by (symmetry; apply Z.ltb_ge; lia).
  rewrite Nat2Z.id. rewrite nth_error_app2 by lia.
  rewrite Nat.sub_diag. reflexivity.
Qed.

Lemma evaluator_step_spec (source : PointCloud) (target_kdtree : KDTreeFlann)
    (max_correspondence_distance : double) (i : Z) (a : Vector3d)
    (e e1 : double) (cs cs1 : CorrespondenceSet) :
  at_index (points_ source) i = Some a ->
  evaluator_step source target_kdtree max_correspondence_distance i (e, cs)
  = Some (e1, cs1) ->
  let hit := hybrid_hit target_kdtree max_correspondence_distance (i, a) in
  cs1 = cs ++ map fst hit /\ e1 = fold_left Double.add (map snd hit) e.
Proof.
  intros Hat H. unfold evaluator_step in H. rewrite Hat in H.
  cbv zeta. unfold hybrid_hit. cbn [fst snd].
  destruct (SearchHybrid target_kdtree a max_correspondence_distance 1
              [0] [Double.zero]) as [[k indices] dists].
  destruct (0 <? k).
  - destruct (at_index dists 0) as [d |]; [| discriminate].
    destruct (at_index indices 0) as [j |]; [| discriminate].
    injection H as <- <-. split; reflexivity.
  - injection H as <- <-. cbn. rewrite app_nil_r. split; reflexivity.
Qed.

Lemma evaluator_loop_spec (source : PointCloud) (target_kdtree : KDTreeFlann)
    (max_correspondence_distance : double) :
  forall (rest pre : list Vector3d) (e : double) (cs : CorrespondenceSet)
         (e' : double) (cs' : CorrespondenceSet),
    points_ source = pre ++ rest ->
    for_upto_pure (length rest) (Z.of_nat (length pre))
      (evaluator_step source target_kdtree max_correspondence_distance)
      (e, cs) = Some (e', cs') ->
    let hits :=
      flat_map (hybrid_hit target_kdtree max_correspondence_distance)
               (enumerate (Z.of_nat (length pre)) rest) in
    cs' = cs ++ map fst hits
    /\ e' = fold_left Double.add (map snd hits) e.
Proof.
  induction rest as [| a rest IH]; intros pre e cs e' cs' Hpts H.
  - simpl in H. injection H as <- <-. simpl. rewrite app_nil_r. auto.
  - cbn [length for_upto_pure] in H.
    destruct (evaluator_step source target_kdtree
                max_correspondence_distance (Z.of_nat (length pre)) (e, cs))
      as [[e1 cs1] |] eqn:Estep; [| discriminate].
    apply (evaluator_step_spec _ _ _ _ a) in Estep;
      [| rewrite Hpts; apply at_index_app_middle].
    cbv zeta in Estep. destruct Estep as [-> ->].
    assert (Hpts' : points_ source = (pre ++ [a]) ++ rest).
    { rewrite <- app_assoc. exact Hpts. }
    assert (Hlen : Z.of_nat (length pre) + 1
                   = Z.of_nat (length (pre ++ [a]))).
    { rewrite length_app. simpl. lia. }
    rewrite Hlen in H.
    specialize (IH (pre ++ [a]) _ _ e' cs' Hpts' H).
    cbv zeta in IH. rewrite <- Hlen in IH. destruct IH as [-> ->].
    cbv zeta. cbn [enumerate flat_map].
    rewrite !map_app, fold_left_app, app_assoc. split; reflexivity.
Qed.

Lemma hybrid_hits_length (target_kdtree : KDTreeFlann)
    (max_correspondence_distance : double) (l : list Vector3d) :
  forall i,
    (length (flat_map (hybrid_hit target_kdtree max_correspondence_distance)
                      (enumerate i l)) <= length l)%nat.
Proof.
  induction l as [| a l IH]; intros i; [simpl; lia |].
  cbn [enumerate flat_map length]. rewrite length_app.
  specialize (IH (i + 1)).
  assert ((length (hybrid_hit target_kdtree max_correspondence_distance
                     (i, a)) <= 1)%nat).
  { unfold hybrid_hit. destruct (SearchHybrid _ _ _ _ _ _) as [[k idx] ds].
    destruct (0 <? k); [| simpl; lia].
    destruct (at_index ds 0); [| simpl; lia].
    destruct (at_index idx 0); simpl; lia. }
  lia.
Qed.

(** The result of the Evaluator on a cloud whose size fits [int]. *)
Lemma evaluator_Some (source target : PointCloud)
    (target_kdtree : KDTreeFlann) (max_correspondence_distance : double)
    (transformation : Matrix4d) (r : RegistrationResult) :
  size (points_ source) < 2 ^ 31 ->
  (max_correspondence_distance <=? Double.zero)%double = false ->
  GetRegistrationResultAndCorrespondences source target target_kdtree
    max_correspondence_distance transformation = Some r ->
  let hits := inliers source target_kdtree max_correspondence_distance in
  transformation_ r = transformation
  /\ correspondence_set_ r = map fst hits
  /\ (hits = [] ->
      fitness_ r = Double.zero /\ inlier_rmse_ r = Double.zero)
  /\ (hits <> [] ->
      fitness_ r = (Double.of_Z (size hits)
                    / Double.of_Z (size (points_ source)))%double
      /\ inlier_rmse_ r
         = Double.sqrt ((Double.zero + sum_doubles (map snd hits))
                        / Double.of_Z (size hits))).
Proof.
  intros Hsize Hdist H hits.
  unfold GetRegistrationResultAndCorrespondences in H. rewrite Hdist in H.
  rewrite to_int_small in H by (unfold size in *; lia).
  unfold for_range_pure in H.
  replace (Z.to_nat (size (points_ source) - 0))
    with (length (points_ source)) in H by (unfold size; lia).
  destruct (for_upto_pure _ _ _ _) as [[e cs] |] eqn:Eloop; [| discriminate].
  apply (evaluator_loop_spec source target_kdtree max_correspondence_distance
           (points_ source) [] Double.zero [] e cs eq_refl) in Eloop.
  cbv zeta in Eloop. cbn [length Z.of_nat app] in Eloop.
  fold (inliers source target_kdtree max_correspondence_distance) in Eloop.
  fold hits in Eloop. destruct Eloop as [-> ->].
  cbn [RegistrationResult_of correspondence_set_ app] in H.
  destruct hits as [| h hits'] eqn:Ehits.
  - cbn [map] in H. injection H as <-. cbn.
    split; [reflexivity |]. split; [reflexivity |].
    split; [auto |]. intros Hne. contradiction.
  - cbn [map] in H. injection H as <-.
    cbn [transformation_ correspondence_set_ fitness_ inlier_rmse_].
    split; [reflexivity |]. split; [reflexivity |].
    split; [discriminate |]. intros _.
    unfold size. cbn [length]. rewrite !length_map.
    split; reflexivity.
Qed.

Lemma sum_nonneg (l : list double) :
  forallb Double.nonneg l = true ->
  forall acc, Double.nonneg acc = true ->
    Double.nonneg (fold_left Double.add l acc) = true.
Proof.
  induction l as [| d l IH]; intros Hl acc Hacc; [exact Hacc |].
  cbn [forallb] in Hl. apply andb_true_iff in Hl. destruct Hl as [Hd Hl].
  cbn [fold_left]. apply IH; [exact Hl |].
  apply DoubleFacts.add_nonneg; assumption.
Qed.

(** C7.  On a non-empty source whose size fits [int], with [max_dist > 0]
    and a search that returns squared distances (non-negative numbers),
    every result of the Evaluator has
    [fitness = (double)|correspondence_set| / (double)|source|] and, when
    its set is not empty,
    [inlier_rmse = sqrt(sum / (double)|correspondence_set|)] where [sum]
    adds the squared distances of the inlier pairs in the order of the
    source points; the set itself lists those pairs.  Consequently
    [0 <= fitness <= 1] and [0 <= inlier_rmse]. *)
Theorem evaluator_fitness_and_rmse
    (source target : PointCloud) (target_kdtree : KDTreeFlann)
    (max_correspondence_distance : double) (transformation : Matrix4d)
    (r : RegistrationResult)
    (Hne : points_ source <> [])
    (Hsize : size (points_ source) < 2 ^ 31)
    (Hdist : dlt Double.zero max_correspondence_distance)
    (Hsq : forallb Double.nonneg
             (map snd (inliers source target_kdtree
                         max_correspondence_distance)) = true)
    (Hr : GetRegistrationResultAndCorrespondences source target target_kdtree
            max_correspondence_distance transformation = Some r) :
  correspondence_set_ r
  = map fst (inliers source target_kdtree max_correspondence_distance)
  /\ fitness_ r
     = (Double.of_Z (size (correspondence_set_ r))
        / Double.of_Z (size (points_ source)))%double
  /\ (correspondence_set_ r <> [] ->
      inlier_rmse_ r
      = Double.sqrt
          (sum_doubles (map snd (inliers source target_kdtree
                                   max_correspondence_distance))
           / Double.of_Z (size (correspondence_set_ r))))
  /\ dle Double.zero (fitness_ r)
  /\ dle (fitness_ r) Double.one
  /\ dle Double.zero (inlier_rmse_ r).
Proof.
  pose proof (evaluator_Some source target target_kdtree
                max_correspondence_distance transformation r Hsize
                (dlt_zero_not_dle _ Hdist) Hr) as H.
  cbv zeta in H. destruct H as [_ [Hset [Hnil Hcons]]].
  assert (Hm : 1 <= size (points_ source) < 2 ^ 53).
  { split; [| lia]. unfold size. destruct (points_ source); [contradiction |].
    cbn [length]. lia. }
  pose proof (hybrid_hits_length target_kdtree max_correspondence_distance
                (points_ source) 0) as Hlen.
  fold (inliers source target_kdtree max_correspondence_distance) in Hlen.
  set (hits := inliers source target_kdtree max_correspondence_distance) in *.
  assert (Hsz : size (correspondence_set_ r) = size hits).
  { rewrite Hset. unfold size. rewrite length_map. reflexivity. }
  split; [exact Hset |]. rewrite Hsz.
  destruct hits as [| h hits'] eqn:Ehits.
  - destruct (Hnil eq_refl) as [Hf Hrm]. rewrite Hf, Hrm.
    change (size (@nil (Vector2i * double))) with 0.
    rewrite DoubleFacts.zero_div_of_Z by exact Hm.
    split; [reflexivity |]. split; [rewrite Hset; intros Hc; contradiction |].
    repeat split; reflexivity.
  - destruct (Hcons ltac:(discriminate)) as [Hf Hrm]. rewrite Hf, Hrm.
    assert (Hn : 1 <= size (h :: hits') <= size (points_ source)).
    { unfold size in *. cbn [length] in *. lia. }
    assert (Hsum : Double.nonneg (sum_doubles (map snd (h :: hits'))) = true).
    { apply sum_nonneg; [exact Hsq | reflexivity]. }
    rewrite DoubleFacts.add_zero_l by exact Hsum.
    split; [reflexivity |]. split; [reflexivity |]. split; [| split].
    + apply DoubleFacts.nonneg_leb. apply DoubleFacts.div_of_Z_nonneg;
        [exact Hm |]. apply DoubleFacts.of_Z_nonneg. lia.
    + apply DoubleFacts.SFdiv_of_Z_le_one; lia.
    + apply DoubleFacts.nonneg_leb. apply DoubleFacts.sqrt_nonneg.
      apply DoubleFacts.div_of_Z_nonneg; [lia | exact Hsum].
Qed.

End Evaluator.

(** Two points scored against themselves at distance 1: fitness is at
    most 1. *)
Lemma evaluator_fitness_and_rmse_witness :
  match GetRegistrationResultAndCorrespondences Examples.two_points
          Examples.two_points
          (KDTreeFlann_of_PointCloud Examples.two_points) Double.one
          Examples.identity with
  | Some r => dle (fitness_ r) Double.one
  | None => False
  end.
Proof.
  destruct (GetRegistrationResultAndCorrespondences Examples.two_points
              Examples.two_points
              (KDTreeFlann_of_PointCloud Examples.two_points) Double.one
              Examples.identity) as [r |] eqn:Hr.
  - apply (evaluator_fitness_and_rmse Examples.two_points Examples.two_points
             (KDTreeFlann_of_PointCloud Examples.two_points) Double.one
             Examples.identity r).
    + discriminate.
    + reflexivity.
    + reflexivity.
    + vm_compute. reflexivity.
    + exact Hr.
  - discriminate Hr.
Defined.

(** ** Strict and inclusive distance tests *)

Section Scorer.

Context {collaborators : Collaborators}.

Lemma ransac_score_loop_count (source target : PointCloud)
    (max_correspondence_distance : double) (corres : CorrespondenceSet) :
  forall (e : double) (g : Z) (e' : double) (g' : Z),
    ransac_score_loop source target
      (max_correspondence_distance * max_correspondence_distance)%double
      (e, g) corres = Some (e', g') ->
    g' = g + Z.of_nat
               (length (filter (inlier_pair source target
                                  max_correspondence_distance) corres)).
Proof.
  induction corres as [| c corres IH]; intros e g e' g' H.
  - simpl in H. injection H as <- <-. simpl. lia.
  - cbn [ransac_score_loop] in H.
    destruct (ransac_score_step source target _ (e, g) c) as [[e1 g1] |]
      eqn:Estep; [| discriminate].
    apply IH in H. subst g'.
    unfold ransac_score_step in Estep. cbn [filter].
    destruct (inlier_pair source target max_correspondence_distance c)
      eqn:Ein; unfold inlier_pair in Ein;
      destruct (at_index (points_ source) (fst c)) as [p |];
      try discriminate;
      destruct (at_index (points_ target) (snd c)) as [q |];
      try discriminate;
      rewrite Ein in Estep; injection Estep as <- <-; cbn [length]; lia.
Qed.

Lemma scorer_Some (source target : PointCloud) (corres : CorrespondenceSet)
    (max_correspondence_distance : double) (transformation : Matrix4d)
    (r : RegistrationResult) :
  EvaluateRANSACBasedOnCorrespondence source target corres
    max_correspondence_distance transformation = Some r ->
  let good :=
    Z.of_nat (length (filter (inlier_pair source target
                                max_correspondence_distance) corres)) in
  transformation_ r = transformation
  /\ correspondence_set_ r = []
  /\ (good = 0 -> fitness_ r = Double.zero /\ inlier_rmse_ r = Double.zero)
  /\ (good <> 0 ->
      fitness_ r = (Double.of_Z good / Double.of_Z (size corres))%double
      /\ exists error2,
          inlier_rmse_ r = Double.sqrt (error2 / Double.of_Z good)).
Proof.
  intros H good. unfold EvaluateRANSACBasedOnCorrespondence in H.
  destruct (ransac_score_loop _ _ _ _ _) as [[e g] |] eqn:Eloop;
    [| discriminate].
  apply ransac_score_loop_count in Eloop. rewrite Z.add_0_l in Eloop.
  fold good in Eloop. subst g.
  destruct (good =? 0) eqn:Eg; injection H as <-;
    cbn [transformation_ correspondence_set_ fitness_ inlier_rmse_
         RegistrationResult_of].
  - apply Z.eqb_eq in Eg.
    split; [reflexivity |]. split; [reflexivity |].
    split; [intros _; split; reflexivity | intros Hg; contradiction].
  - apply Z.eqb_neq in Eg.
    split; [reflexivity |]. split; [reflexivity |].
    split; [intros Hg; contradiction |].
    intros _. split; [reflexivity |]. exists e. reflexivity.
Qed.

Lemma ransac_score_step_defined (source target : PointCloud)
    (max_dis2 : double) (acc : double * Z) (c : Vector2i) :
  (exists acc', ransac_score_step source target max_dis2 acc c = Some acc')
  <-> valid_pair source target c.
Proof.
  unfold valid_pair. rewrite <- !at_index_defined.
  unfold ransac_score_step. destruct acc as [e g].
  destruct (at_index (points_ source) (fst c)) as [p |];
    destruct (at_index (points_ target) (snd c)) as [q |].
  - split.
    + intros _. split; eexists; reflexivity.
    + intros _. destruct (_ <? _)%double; eexists; reflexivity.
  - split; [intros [x H]; discriminate | intros [_ [x H]]; discriminate].
  - split; [intros [x H]; discriminate | intros [[x H] _]; discriminate].
  - split; [intros [x H]; discriminate | intros [[x H] _]; discriminate].
Qed.

Lemma ransac_score_loop_defined (source target : PointCloud)
    (max_dis2 : double) (corres : CorrespondenceSet) :
  forall acc : double * Z,
    (exists acc', ransac_score_loop source target max_dis2 acc corres
                  = Some acc')
    <-> Forall (valid_pair source target) corres.
Proof.
  induction corres as [| c corres IH]; intros acc; cbn [ransac_score_loop].
  - split; [constructor | intros _; eexists; reflexivity].
  - destruct (ransac_score_step source target max_dis2 acc c) as [acc1 |]
      eqn:E.
    + rewrite IH. split.
      * intros H. constructor; [| exact H].
        apply (ransac_score_step_defined source target max_dis2 acc c).
        exists acc1. exact E.
      * intros H. inversion H. assumption.
    + split; [intros [x H]; discriminate |].
      intros H. inversion H as [| ? ? Hc _]. subst.
      apply (ransac_score_step_defined source target max_dis2 acc c) in Hc.
      destruct Hc as [x Hx]. congruence.
Qed.

Lemma scorer_defined (source target : PointCloud) (corres : CorrespondenceSet)
    (max_correspondence_distance : double) (transformation : Matrix4d) :
  (exists r,
      EvaluateRANSACBasedOnCorrespondence source target corres
        max_correspondence_distance transformation = Some r)
  <-> Forall (valid_pair source target) corres.
Proof.
  rewrite <- (ransac_score_loop_defined source target
                (max_correspondence_distance * max_correspondence_distance)
                corres (Double.zero, 0)).
  unfold EvaluateRANSACBasedOnCorrespondence.
  destruct (ransac_score_loop _ _ _ _ _) as [[e g] |].
  - split; [intros _; eexists; reflexivity |].
    intros _. destruct (g =? 0); eexists; reflexivity.
  - split; intros [x H]; discriminate.
Qed.

End Scorer.

(** C9.  (1) The correspondence-restricted scorer counts exactly the pairs
    whose squared distance is strictly below [max_dist * max_dist]: on
    fewer than [2^31] pairs with valid indices it returns a result whose
    fitness is that count over [|corres|].  (2) A pair whose squared
    distance equals [max_dist * max_dist] is not such a pair.  (3) Scored
    alone, a pair at exactly that distance gives the result without
    inlier (fitness 0), a pair strictly below it gives fitness 1.  (4) The
    Evaluator applies no distance test of its own: whatever distance the
    hybrid search reports with a hit, the pair is a correspondence.
    (5) The search, as the spec describes it, returns a neighbour whose
    squared distance equals [radius * radius]: over the reference search
    a pair at exactly that distance is a correspondence. *)
Theorem scorer_is_strict_evaluator_is_inclusive :
  (forall (collaborators : Collaborators) source target corres
          max_correspondence_distance transformation,
      size corres < 2 ^ 31 ->
      (forall c, In c corres ->
         0 <= fst c < size (points_ source)
         /\ 0 <= snd c < size (points_ target)) ->
      exists r,
        EvaluateRANSACBasedOnCorrespondence source target corres
          max_correspondence_distance transformation = Some r
        /\ let good :=
             Z.of_nat (length (filter (inlier_pair source target
                                         max_correspondence_distance)
                                      corres)) in
           (good = 0 -> fitness_ r = Double.zero)
           /\ (good <> 0 ->
               fitness_ r
               = (Double.of_Z good / Double.of_Z (size corres))%double))
  /\ (forall source target max_correspondence_distance c p q,
         at_index (points_ source) (fst c) = Some p ->
         at_index (points_ target) (snd c) = Some q ->
         squaredNorm_diff p q
         = (max_correspondence_distance * max_correspondence_distance)%double ->
         inlier_pair source target max_correspondence_distance c = false)
  /\ (forall (collaborators : Collaborators) source target i j p q
             max_correspondence_distance transformation,
         at_index (points_ source) i = Some p ->
         at_index (points_ target) j = Some q ->
         (squaredNorm_diff p q
          = (max_correspondence_distance * max_correspondence_distance)%double
          -> EvaluateRANSACBasedOnCorrespondence source target [(i, j)]
               max_correspondence_distance transformation
             = Some (RegistrationResult_of transformation))
         /\ ((squaredNorm_diff p q
              <? max_correspondence_distance * max_correspondence_distance)
               %double = true ->
             exists r,
               EvaluateRANSACBasedOnCorrespondence source target [(i, j)]
                 max_correspondence_distance transformation = Some r
               /\ fitness_ r = Double.one))
  /\ (forall (collaborators : Collaborators) p target target_kdtree
             max_correspondence_distance transformation k indices dists j d,
         (max_correspondence_distance <=? Double.zero)%double = false ->
         SearchHybrid target_kdtree p max_correspondence_distance 1
           [0] [Double.zero] = (k, indices, dists) ->
         0 < k ->
         at_index indices 0 = Some j ->
         at_index dists 0 = Some d ->
         exists r,
           GetRegistrationResultAndCorrespondences (mkPointCloud [p]) target
             target_kdtree max_correspondence_distance transformation
           = Some r
           /\ correspondence_set_ r = [(0, j)]
           /\ fitness_ r = Double.one)
  /\ (forall p q max_correspondence_distance transformation,
         dlt Double.zero max_correspondence_distance ->
         squaredNorm_diff p q
         = (max_correspondence_distance * max_correspondence_distance)%double ->
         exists r,
           GetRegistrationResultAndCorrespondences
             (collaborators := Reference.collaborators)
             (mkPointCloud [p]) (mkPointCloud [q]) (Reference.PointTree [q])
             max_correspondence_distance transformation = Some r
           /\ correspondence_set_ r = [(0, 0)]).
Proof.
  split; [| split; [| split; [| split]]].
  - intros c source target corres md T Hsize Hvalid.
    assert (Hdef : exists r,
               EvaluateRANSACBasedOnCorrespondence source target corres md T
               = Some r).
    { apply scorer_defined. apply Forall_forall. exact Hvalid. }
    destruct Hdef as [r H]. exists r. split; [exact H |].
    destruct (scorer_Some source target corres md T r H)
      as [_ [_ [H0 H1]]].
    cbv zeta. split; intros Hg.
    + apply H0. exact Hg.
    + apply H1. exact Hg.
  - intros source target md c p q Hp Hq Hd.
    unfold inlier_pair. rewrite Hp, Hq, Hd. apply ltb_irrefl.
  - intros c source target i j p q md T Hp Hq. split.
    + intros Hd. unfold EvaluateRANSACBasedOnCorrespondence.
      cbn [ransac_score_loop]. unfold ransac_score_step. cbn [fst snd].
      rewrite Hp, Hq, Hd, ltb_irrefl. reflexivity.
    + intros Hd. unfold EvaluateRANSACBasedOnCorrespondence.
      cbn [ransac_score_loop]. unfold ransac_score_step. cbn [fst snd].
      rewrite Hp, Hq, Hd. eexists. split; reflexivity.
  - intros c p target kd md T k indices dists j d Hmd Hsearch Hk Hj Hd.
    unfold GetRegistrationResultAndCorrespondences. rewrite Hmd.
    change (to_int (size (points_ (mkPointCloud [p])))) with 1.
    change (for_range_pure 0 1
              (evaluator_step (mkPointCloud [p]) kd md) (Double.zero, []))
      with (match evaluator_step (mkPointCloud [p]) kd md 0
                    (Double.zero, []) with
            | Some s' => Some s'
            | None => None
            end).
    unfold evaluator_step. cbv zeta.
    change (at_index (points_ (mkPointCloud [p])) 0) with (Some p).
    cbv iota. rewrite Hsearch.
    replace (0 <? k) with true by (symmetry; apply Z.ltb_lt; exact Hk).
    rewrite Hd, Hj. cbn [RegistrationResult_of correspondence_set_ app].
    eexists. split; [reflexivity |]. split; reflexivity.
  - intros p q md T Hmd Hd.
    assert (Hnn : Double.nonneg (md * md)%double = true).
    { apply DoubleFacts.mul_self_nonneg. intros ->. discriminate Hmd. }
    assert (Hkeep : (squaredNorm_diff p q <=? md * md)%double = true).
    { rewrite Hd. apply DoubleFacts.nonneg_leb_refl. exact Hnn. }
    assert (Hsearch :
      SearchHybrid (Collaborators := Reference.collaborators)
        (Reference.PointTree [q]) p md 1 [0] [Double.zero]
      = (1, [0], [squaredNorm_diff p q])).
    { change (SearchHybrid (Collaborators := Reference.collaborators))
        with Reference.search_hybrid.
      unfold Reference.search_hybrid, Reference.nearest.
      cbn [enumerate fold_right fst snd]. rewrite Hkeep. reflexivity. }
    assert (Hstep :
      evaluator_step (collaborators := Reference.collaborators)
        (mkPointCloud [p]) (Reference.PointTree [q]) md 0 (Double.zero, [])
      = Some ((Double.zero + squaredNorm_diff p q)%double, [(0, 0)])).
    { unfold evaluator_step. cbv zeta.
      change (at_index (points_ (mkPointCloud [p])) 0) with (Some p).
      cbv iota. rewrite Hsearch. reflexivity. }
    unfold GetRegistrationResultAndCorrespondences.
    rewrite (dlt_zero_not_dle _ Hmd).
    change (to_int (size (points_ (mkPointCloud [p])))) with 1.
    change (for_range_pure 0 1
              (evaluator_step (collaborators := Reference.collaborators)
                 (mkPointCloud [p]) (Reference.PointTree [q]) md)
              (Double.zero, []))
      with (match evaluator_step (collaborators := Reference.collaborators)
                    (mkPointCloud [p]) (Reference.PointTree [q]) md 0
                    (Double.zero, []) with
            | Some s' => Some s'
            | None => None
            end).
    rewrite Hstep.
    cbn [RegistrationResult_of correspondence_set_ app].
    eexists. split; reflexivity.
Qed.

(** The points (0,0,0) and (1,0,0) are at distance exactly 1.  With
    [max_dist = 1] the scorer returns the result without inlier for the
    pair, with [max_dist = 2] it returns fitness 1; with [max_dist = 1]
    the Evaluator, over the reference search, keeps the pair. *)
Lemma scorer_is_strict_evaluator_is_inclusive_witness :
  EvaluateRANSACBasedOnCorrespondence
    (collaborators := Reference.collaborators)
    (mkPointCloud [pt 0 0 0]) (mkPointCloud [pt 1 0 0]) [(0, 0)] Double.one
    Examples.identity
  = Some (RegistrationResult_of Examples.identity)
  /\ (exists r,
         EvaluateRANSACBasedOnCorrespondence
           (collaborators := Reference.collaborators)
           (mkPointCloud [pt 0 0 0]) (mkPointCloud [pt 1 0 0]) [(0, 0)]
           Double.two Examples.identity
         = Some r
         /\ fitness_ r = Double.one)
  /\ exists r,
      GetRegistrationResultAndCorrespondences
        (collaborators := Reference.collaborators)
        (mkPointCloud [pt 0 0 0]) (mkPointCloud [pt 1 0 0])
        (Reference.PointTree [pt 1 0 0]) Double.one Examples.identity
      = Some r
      /\ correspondence_set_ r = [(0, 0)].
Proof.
  destruct scorer_is_strict_evaluator_is_inclusive as [_ [_ [H3 [_ H5]]]].
  split; [| split].
  - exact (proj1 (H3 Reference.collaborators (mkPointCloud [pt 0 0 0])
                    (mkPointCloud [pt 1 0 0]) 0 0 (pt 0 0 0) (pt 1 0 0)
                    Double.one Examples.identity eq_refl eq_refl) eq_refl).
  - exact (proj2 (H3 Reference.collaborators (mkPointCloud [pt 0 0 0])
                    (mkPointCloud [pt 1 0 0]) 0 0 (pt 0 0 0) (pt 1 0 0)
                    Double.two Examples.identity eq_refl eq_refl) eq_refl).
  - apply H5; reflexivity.
Defined.

(** ** Invariants of the returned results *)

Section Invariants.

Context {collaborators : Collaborators}.

Lemma evaluator_invariant_of (transformation : Matrix4d) :
  evaluator_invariant (RegistrationResult_of transformation).
Proof. split; [split |]; reflexivity. Qed.

Lemma scorer_invariant_of (transformation : Matrix4d) :
  scorer_invariant (RegistrationResult_of transformation).
Proof. split; reflexivity. Qed.

Lemma evaluator_result_invariant (source target : PointCloud)
    (target_kdtree : KDTreeFlann) (max_correspondence_distance : double)
    (transformation : Matrix4d) (r : RegistrationResult) :
  size (points_ source) < 2 ^ 31 ->
  GetRegistrationResultAndCorrespondences source target target_kdtree
    max_correspondence_distance transformation = Some r ->
  evaluator_invariant r.
Proof.
  intros Hsize H.
  destruct (max_correspondence_distance <=? Double.zero)%double eqn:Ed.
  - unfold GetRegistrationResultAndCorrespondences in H. rewrite Ed in H.
    injection H as <-. apply evaluator_invariant_of.
  - pose proof (evaluator_Some source target target_kdtree
                  max_correspondence_distance transformation r Hsize Ed H)
      as Hr.
    cbv zeta in Hr. destruct Hr as [_ [Hset [Hnil Hcons]]].
    pose proof (hybrid_hits_length target_kdtree max_correspondence_distance
                  (points_ source) 0) as Hlen.
    fold (inliers source target_kdtree max_correspondence_distance) in Hlen.
    destruct (inliers source target_kdtree max_correspondence_distance)
      as [| h hits] eqn:Ehits.
    + destruct (Hnil eq_refl) as [Hf Hrm].
      unfold evaluator_invariant, deq. rewrite Hset, Hf, Hrm.
      split; [split |]; reflexivity.
    + destruct (Hcons ltac:(discriminate)) as [Hf _].
      unfold evaluator_invariant, deq. rewrite Hset, Hf.
      rewrite DoubleFacts.SFdiv_of_Z_nonzero
        by (unfold size in *; cbn [length] in *; lia).
      split; [split |]; discriminate.
Qed.

Lemma filter_length_le {A : Type} (f : A -> bool) (l : list A) :
  (length (filter f l) <= length l)%nat.
Proof.
  induction l as [| a l IH]; simpl; [lia |].
  destruct (f a); simpl; lia.
Qed.

Lemma scorer_result_invariant (source target : PointCloud)
    (corres : CorrespondenceSet) (max_correspondence_distance : double)
    (transformation : Matrix4d) (r : RegistrationResult) :
  size corres < 2 ^ 31 ->
  EvaluateRANSACBasedOnCorrespondence source target corres
    max_correspondence_distance transformation = Some r ->
  scorer_invariant r.
Proof.
  intros Hsize H. apply scorer_Some in H. cbv zeta in H.
  destruct H as [_ [Hset [H0 H1]]].
  pose proof (filter_length_le
                (inlier_pair source target max_correspondence_distance)
                corres) as Hlen.
  split; [exact Hset |].
  destruct (Z.eq_dec
              (Z.of_nat (length (filter (inlier_pair source target
                                           max_correspondence_distance)
                                        corres))) 0) as [Hg | Hg].
  - destruct (H0 Hg) as [_ Hrm]. intros _. unfold deq. rewrite Hrm.
    reflexivity.
  - destruct (H1 Hg) as [Hf _]. unfold deq. rewrite Hf.
    rewrite DoubleFacts.SFdiv_of_Z_nonzero by (unfold size in *; lia).
    discriminate.
Qed.

Lemma for_loop_invariant {S : Type} (P : S -> Prop) (cond : Z -> bool)
    (body : Z -> S -> M (flow * S)) :
  (forall i s w out w', P s -> body i s w = Ok out w' -> P (snd out)) ->
  forall (fuel : nat) (i : Z) (s : S) (w : World) (s' : S) (w' : World),
    P s -> for_loop fuel cond body i s w = Ok s' w' -> P s'.
Proof.
  intros Hbody. induction fuel as [| fuel IH]; intros i s w s' w' Hs H;
    simpl in H; destruct (cond i); try discriminate;
    try (apply ret_Ok in H; destruct H as [-> _]; exact Hs).
  invert_run H. pose proof (Hbody _ _ _ _ _ Hs Hrun) as Hout.
  destruct (fst a).
  - eapply IH; eassumption.
  - apply ret_Ok in H. destruct H as [-> _]. exact Hout.
Qed.

Lemma for_upto_invariant {S : Type} (P : S -> Prop) (body : Z -> S -> M S) :
  (forall i s w s' w', P s -> body i s w = Ok s' w' -> P s') ->
  forall (n : nat) (i : Z) (s : S) (w : World) (s' : S) (w' : World),
    P s -> for_upto n i body s w = Ok s' w' -> P s'.
Proof.
  intros Hbody. induction n as [| n IH]; intros i s w s' w' Hs H; simpl in H.
  - apply ret_Ok in H. destruct H as [-> _]. exact Hs.
  - invert_run H. eapply IH; [| exact H]. eapply Hbody; eassumption.
Qed.

(** C2, as amended.  Let [Transform] keep the number of points, and let
    the source cloud and the correspondence list have fewer than [2^31]
    elements.  Every result of the Evaluator, of [EvaluateRegistration],
    of ICP and of feature-RANSAC has an empty correspondence set exactly
    when its fitness is [== 0], and then its RMSE is [== 0].  Every result
    of the correspondence-restricted scorer and of correspondence-RANSAC
    has an empty correspondence set, and its RMSE is [== 0] whenever its
    fitness is [== 0]. *)
Theorem result_invariants
    (HT : forall T pcd,
        length (points_ (Transform T pcd)) = length (points_ pcd))
    (source target : PointCloud) (corres : CorrespondenceSet)
    (Hsource : size (points_ source) < 2 ^ 31)
    (Hcorres : size corres < 2 ^ 31) :
  (forall target_kdtree max_correspondence_distance transformation r,
      GetRegistrationResultAndCorrespondences source target target_kdtree
        max_correspondence_distance transformation = Some r ->
      evaluator_invariant r)
  /\ (forall max_correspondence_distance transformation r,
         EvaluateRegistration source target max_correspondence_distance
           transformation = Some r ->
         evaluator_invariant r)
  /\ (forall fuel max_correspondence_distance init estimation criteria
             w r w',
         RegistrationICP fuel source target max_correspondence_distance init
           estimation criteria w = Ok r w' ->
         evaluator_invariant r)
  /\ (forall source_feature target_feature max_correspondence_distance
             estimation ransac_n checkers criteria w r w',
         RegistrationRANSACBasedOnFeatureMatching source target
           source_feature target_feature max_correspondence_distance
           estimation ransac_n checkers criteria w = Ok r w' ->
         evaluator_invariant r)
  /\ (forall pcd max_correspondence_distance transformation r,
         EvaluateRANSACBasedOnCorrespondence pcd target corres
           max_correspondence_distance transformation = Some r ->
         scorer_invariant r)
  /\ (forall fuel max_correspondence_distance estimation ransac_n criteria
             w r w',
         RegistrationRANSACBasedOnCorrespondence fuel source target corres
           max_correspondence_distance estimation ransac_n criteria w
         = Ok r w' ->
         scorer_invariant r).
Proof.
  assert (Hsize : forall T, size (points_ (Transform T source)) < 2 ^ 31).
  { intros T. unfold size in *. rewrite HT. exact Hsource. }
  split; [| split; [| split; [| split; [| split]]]].
  - intros kd md T r H.
    eapply evaluator_result_invariant; [exact Hsource | exact H].
  - intros md T r H. unfold EvaluateRegistration in H.
    eapply evaluator_result_invariant; [| exact H].
    destruct (Bool.eqb _ _); [apply Hsize | exact Hsource].
  - intros fuel md init est crit w r w' H. unfold RegistrationICP in H.
    destruct (md <=? Double.zero)%double.
    + apply ret_Ok in H. destruct H as [-> _]. apply evaluator_invariant_of.
    + invert_run H. apply defined_Ok in Hrun. destruct Hrun as [Hr0 ->].
      apply ret_Ok in H. destruct H as [-> _].
      assert (Hpcd0 : size (points_ (if Bool.eqb (Matrix4d_isIdentity init)
                                          false
                                     then Transform init source
                                     else source)) < 2 ^ 31).
      { destruct (Bool.eqb _ _); [apply Hsize | exact Hsource]. }
      refine (proj2 (for_loop_invariant
                (fun st : ICPState =>
                   size (points_ (snd (fst st))) < 2 ^ 31
                   /\ evaluator_invariant (snd st))
                _ _ _ _ _ _ _ _ _ _ Hrun0)).
      * intros i [[T pcd] res] wa out wb [Hp _] Hb.
        apply icp_body_Ok in Hb. cbv zeta in Hb.
        destruct Hb as [res' [Hev [Hout _]]]. rewrite Hout. cbn [fst snd].
        assert (Hp' : size (points_ (Transform
                        (ComputeTransformation est pcd target
                           (correspondence_set_ res)) pcd)) < 2 ^ 31).
        { unfold size in *. rewrite HT. exact Hp. }
        split; [exact Hp' |].
        eapply evaluator_result_invariant; [exact Hp' | exact Hev].
      * cbn [fst snd]. split; [exact Hpcd0 |].
        eapply evaluator_result_invariant; [exact Hpcd0 | exact Hr0].
  - intros sf tf md est n checkers crit w r w' H.
    destruct ((n <? 3) || (md <=? Double.zero)%double) eqn:Evalid.
    + unfold RegistrationRANSACBasedOnFeatureMatching in H.
      rewrite Evalid in H. apply ret_Ok in H. destruct H as [-> _].
      apply evaluator_invariant_of.
    + destruct (feature_driver_Ok _ _ _ _ _ _ _ _ _ _ _ _ Evalid H)
        as [st [w1 [Hloop [Hr _]]]].
      assert (Hst : evaluator_invariant (snd (fst (fst st)))).
      { refine (for_upto_invariant
                  (fun st : FeatureState =>
                     evaluator_invariant (snd (fst (fst st))))
                  _ _ _ _ _ _ _ _ _ Hloop).
        - intros i [[[rc rp] tv] fin] wa out wb Hp Hb. cbn [fst snd] in Hp.
          apply feature_body_Ok in Hb.
          destruct Hb as [[_ [-> _]] | [_ [s [_ Hb]]]]; [exact Hp |].
          cbv zeta in Hb.
          destruct Hb as [[-> _] | [_ [_ [cand [Hc ->]]]]]; [exact Hp |].
          cbn [fst snd].
          match goal with
          | |- context [if ?c then _ else _] => destruct c
          end; [| exact Hp].
          eapply evaluator_result_invariant; [apply Hsize | exact Hc].
        - apply evaluator_invariant_of. }
      rewrite Hr.
      match goal with
      | |- context [if ?c then _ else _] => destruct c
      end; [exact Hst |].
      apply evaluator_invariant_of.
  - intros pcd md T r H.
    eapply scorer_result_invariant; [exact Hcorres | exact H].
  - intros fuel md est n crit w r w' H.
    unfold RegistrationRANSACBasedOnCorrespondence in H.
    destruct (_ || _).
    + apply ret_Ok in H. destruct H as [-> _]. apply scorer_invariant_of.
    + invert_run H. apply ret_Ok in H. destruct H as [-> _].
      refine (for_loop_invariant
                (fun st : RANSACState => scorer_invariant (snd st))
                _ _ _ _ _ _ _ _ _ _ Hrun1).
      * intros i [rc res] wa out wb Hp Hb. cbn [snd] in Hp.
        apply ransac_body_Ok in Hb.
        destruct Hb as [s [cand [_ [Hc ->]]]]. cbn [snd].
        match goal with
          | |- context [if ?c then _ else _] => destruct c
          end; [| exact Hp].
        eapply scorer_result_invariant; [exact Hcorres | exact Hc].
      * apply scorer_invariant_of.
Qed.

End Invariants.

Lemma scored_eq :
  EvaluateRANSACBasedOnCorrespondence Examples.one_point Examples.one_point
    [(0, 0)] Double.one Examples.identity = Some Examples.scored.
Proof. reflexivity. Qed.

Lemma evaluated_eq :
  EvaluateRegistration Examples.one_point Examples.one_point Double.one
    Examples.identity = Some Examples.evaluated.
Proof. reflexivity. Qed.

(** The claim as stated fails twice on one point aligned with itself.  The
    correspondence-restricted scorer returns fitness 1 with an empty
    correspondence set (it never fills the set); [EvaluateRegistration]
    returns RMSE 0 with one correspondence and fitness 1 (the only inlier
    is at distance 0). *)
Lemma result_invariants_counterexample :
  ~ (forall r,
        EvaluateRANSACBasedOnCorrespondence Examples.one_point
          Examples.one_point [(0, 0)] Double.one Examples.identity = Some r ->
        (correspondence_set_ r = [] <-> deq (fitness_ r) Double.zero)
        /\ (deq (fitness_ r) Double.zero
            <-> deq (inlier_rmse_ r) Double.zero))
  /\ ~ (forall r,
           EvaluateRegistration Examples.one_point Examples.one_point
             Double.one Examples.identity = Some r ->
           (correspondence_set_ r = [] <-> deq (fitness_ r) Double.zero)
           /\ (deq (fitness_ r) Double.zero
               <-> deq (inlier_rmse_ r) Double.zero)).
Proof.
  split; intros H.
  - destruct (H _ scored_eq) as [[H1 _] _].
    specialize (H1 eq_refl). unfold deq in H1. discriminate H1.
  - destruct (H _ evaluated_eq) as [_ [_ H2]].
    specialize (H2 eq_refl). unfold deq in H2. discriminate H2.
Qed.

(** The reference [Transform] maps over the points; one point, one
    correspondence. *)
Lemma result_invariants_witness :
  evaluator_invariant Examples.evaluated
  /\ scorer_invariant Examples.scored.
Proof.
  destruct (result_invariants (collaborators := Reference.collaborators)
              (fun T pcd => length_map (Reference.transform_point T)
                                       (points_ pcd))
              Examples.one_point Examples.one_point [(0, 0)]
              eq_refl eq_refl)
    as [_ [H2 [_ [_ [H5 _]]]]].
  split.
  - eapply H2. exact evaluated_eq.
  - eapply H5. exact scored_eq.
Defined.

(** * Further properties

    What the code shows beyond the statements above: the domain on which
    each function is defined, the shape of what it returns, its edge
    cases and what it leaves untouched. *)

(** ** Vectors and loops *)

Lemma set_index_length {A : Type} (v : list A) (i : Z) (a : A) :
  length (set_index v i a) = length v.
Proof.
  unfold set_index. destruct (i <? 0); [reflexivity | apply set_nth_length].
Qed.

Lemma filter_all {A : Type} (f : A -> bool) (l : list A) :
  forallb f l = true -> filter f l = l.
Proof.
  induction l as [| a l IH]; simpl; [reflexivity |].
  intros H. apply andb_true_iff in H. destruct H as [Ha Hl].
  rewrite Ha, IH by exact Hl. reflexivity.
Qed.

Lemma removelast_cons_length {A : Type} (l : list A) :
  forall a, length (removelast (a :: l)) = length l.
Proof.
  induction l as [| b l IH]; intros a; [reflexivity |].
  change (removelast (a :: b :: l)) with (a :: removelast (b :: l)).
  cbn [length]. rewrite IH. reflexivity.
Qed.

Section LoopOutcomes.

Context {collaborators : Collaborators}.

Lemma for_upto_Ok {S : Type} (Inv : S -> Prop) (body : Z -> S -> M S) :
  (forall j s w, Inv s -> exists s' w', body j s w = Ok s' w' /\ Inv s') ->
  forall (n : nat) (i : Z) (s : S) (w : World),
    Inv s -> exists s' w', for_upto n i body s w = Ok s' w'.
Proof.
  intros Hbody. induction n as [| n IH]; intros i s w Hs; cbn [for_upto].
  - eexists _, _. reflexivity.
  - destruct (Hbody i s w Hs) as [s1 [w1 [E Hs1]]]. unfold bind. rewrite E.
    apply IH. exact Hs1.
Qed.

Lemma for_loop_Ok {S : Type} (bound : Z) (body : Z -> S -> M (flow * S)) :
  (forall i s w, exists out w', body i s w = Ok out w') ->
  forall (fuel : nat) (i : Z) (s : S) (w : World),
    (Z.to_nat (bound - i) <= fuel)%nat ->
    exists s' w', for_loop fuel (fun i => i <? bound) body i s w = Ok s' w'.
Proof.
  intros Hb. induction fuel as [| fuel IH]; intros i s w Hfuel; simpl.
  - replace (i <? bound) with false by (symmetry; apply Z.ltb_ge; lia).
    eexists _, _. reflexivity.
  - destruct (i <? bound) eqn:E; [| eexists _, _; reflexivity].
    apply Z.ltb_lt in E.
    destruct (Hb i s w) as [[fl s1] [w1 Eb]]. unfold bind. rewrite Eb.
    cbn [fst snd]. destruct fl; [| eexists _, _; reflexivity].
    apply IH. lia.
Qed.

Lemma for_loop_keeps {S X : Type} (f : World -> X) (cond : Z -> bool)
    (body : Z -> S -> M (flow * S)) :
  (forall i s w out w', body i s w = Ok out w' -> f w' = f w) ->
  forall (fuel : nat) (i : Z) (s : S) (w : World) (s' : S) (w' : World),
    for_loop fuel cond body i s w = Ok s' w' -> f w' = f w.
Proof.
  intros Hbody. induction fuel as [| fuel IH]; intros i s w s' w' H;
    simpl in H; destruct (cond i); try discriminate;
    try (apply ret_Ok in H; destruct H as [_ ->]; reflexivity).
  invert_run H. pose proof (Hbody _ _ _ _ _ Hrun) as Hout.
  destruct (fst a).
  - rewrite <- Hout. eapply IH. exact H.
  - apply ret_Ok in H. destruct H as [_ ->]. exact Hout.
Qed.

End LoopOutcomes.

(** ** The Evaluator: domain, one correspondence per source point *)

Section EvaluatorDomain.

Context {collaborators : Collaborators}.

Lemma evaluator_step_defined (source : PointCloud) (target_kdtree : KDTreeFlann)
    (max_correspondence_distance : double) (i : Z)
    (acc : double * CorrespondenceSet) (p : Vector3d) :
  at_index (points_ source) i = Some p ->
  buffers_filled (SearchHybrid target_kdtree p max_correspondence_distance 1
                    [0] [Double.zero]) = true ->
  exists acc',
    evaluator_step source target_kdtree max_correspondence_distance i acc
    = Some acc'.
Proof.
  intros Hp Hb. unfold evaluator_step. destruct acc as [e cs]. rewrite Hp.
  unfold buffers_filled in Hb.
  destruct (SearchHybrid target_kdtree p max_correspondence_distance 1
              [0] [Double.zero]) as [[k indices] dists].
  destruct (0 <? k); [| eexists; reflexivity].
  destruct (at_index dists 0); [| discriminate].
  destruct (at_index indices 0); [| discriminate].
  eexists. reflexivity.
Qed.

Lemma evaluator_loop_defined (source : PointCloud) (target_kdtree : KDTreeFlann)
    (max_correspondence_distance : double) :
  (forall p, In p (points_ source) ->
     buffers_filled (SearchHybrid target_kdtree p max_correspondence_distance 1
                       [0] [Double.zero]) = true) ->
  forall (n : nat) (i : Z) (acc : double * CorrespondenceSet),
    0 <= i -> i + Z.of_nat n <= size (points_ source) ->
    exists acc',
      for_upto_pure n i
        (evaluator_step source target_kdtree max_correspondence_distance) acc
      = Some acc'.
Proof.
  intros Hsearch. induction n as [| n IH]; intros i acc Hi Hn;
    cbn [for_upto_pure].
  - eexists. reflexivity.
  - assert (Hv : valid_index (points_ source) i)
      by (unfold valid_index; lia).
    apply at_index_defined in Hv. destruct Hv as [p Hp].
    assert (Hin : In p (points_ source)).
    { unfold at_index in Hp. destruct (i <? 0); [discriminate |].
      eapply nth_error_In. exact Hp. }
    destruct (evaluator_step_defined source target_kdtree
                max_correspondence_distance i acc p Hp (Hsearch p Hin))
      as [acc1 E].
    rewrite E. apply IH; lia.
Qed.

Lemma evaluator_defined (source target : PointCloud)
    (target_kdtree : KDTreeFlann) (max_correspondence_distance : double)
    (transformation : Matrix4d) :
  (forall p,
     buffers_filled (SearchHybrid target_kdtree p
                       max_correspondence_distance 1 [0] [Double.zero])
     = true) ->
  exists r,
    GetRegistrationResultAndCorrespondences source target target_kdtree
      max_correspondence_distance transformation = Some r.
Proof.
  intros Hsearch. unfold GetRegistrationResultAndCorrespondences.
  destruct (max_correspondence_distance <=? Double.zero)%double;
    [eexists; reflexivity |].
  unfold for_range_pure.
  pose proof (to_int_le_size (points_ source)) as Hle.
  assert (Hn : 0 + Z.of_nat (Z.to_nat (to_int (size (points_ source)) - 0))
               <= size (points_ source)) by (unfold size in *; lia).
  destruct (evaluator_loop_defined source target_kdtree
              max_correspondence_distance (fun p _ => Hsearch p)
              (Z.to_nat (to_int (size (points_ source)) - 0)) 0
              (Double.zero, []) ltac:(lia) Hn) as [[e cs] E].
  rewrite E. cbn [RegistrationResult_of correspondence_set_ app].
  destruct cs; eexists; reflexivity.
Qed.

Lemma evaluator_transformation (source target : PointCloud)
    (target_kdtree : KDTreeFlann) (max_correspondence_distance : double)
    (transformation : Matrix4d) (r : RegistrationResult) :
  GetRegistrationResultAndCorrespondences source target target_kdtree
    max_correspondence_distance transformation = Some r ->
  transformation_ r = transformation.
Proof.
  unfold GetRegistrationResultAndCorrespondences. intros H.
  destruct (_ <=? _)%double; [injection H as <-; reflexivity |].
  destruct (for_range_pure _ _ _ _) as [[e cs] |]; [| discriminate].
  cbn [RegistrationResult_of correspondence_set_ app] in H.
  destruct cs; injection H as <-; reflexivity.
Qed.

(** X1.  The Evaluator never indexes [source.points_] outside its bounds,
    whatever the size of the source: provided the hybrid search leaves a
    first index and a first distance in its buffers whenever it reports a
    hit for a point of the source, the Evaluator is defined and returns a
    result for every source, target, distance and transformation. *)
Theorem evaluator_never_reads_out_of_bounds
    (source target : PointCloud) (target_kdtree : KDTreeFlann)
    (max_correspondence_distance : double) (transformation : Matrix4d)
    (Hsearch : forall p, In p (points_ source) ->
       buffers_filled (SearchHybrid target_kdtree p
                         max_correspondence_distance 1 [0] [Double.zero])
       = true) :
  exists r,
    GetRegistrationResultAndCorrespondences source target target_kdtree
      max_correspondence_distance transformation = Some r.
Proof.
  unfold GetRegistrationResultAndCorrespondences.
  destruct (max_correspondence_distance <=? Double.zero)%double;
    [eexists; reflexivity |].
  unfold for_range_pure.
  pose proof (to_int_le_size (points_ source)) as Hle.
  assert (Hn : 0 + Z.of_nat (Z.to_nat (to_int (size (points_ source)) - 0))
               <= size (points_ source)) by (unfold size in *; lia).
  destruct (evaluator_loop_defined source target_kdtree
              max_correspondence_distance Hsearch
              (Z.to_nat (to_int (size (points_ source)) - 0)) 0
              (Double.zero, []) ltac:(lia) Hn) as [[e cs] E].
  rewrite E. cbn [RegistrationResult_of correspondence_set_ app].
  destruct cs; eexists; reflexivity.
Qed.

Lemma hybrid_hits_sorted (target_kdtree : KDTreeFlann)
    (max_correspondence_distance : double) (l : list Vector3d) :
  forall i,
    let hits :=
      flat_map (hybrid_hit target_kdtree max_correspondence_distance)
               (enumerate i l) in
    StronglySorted Z.lt (map fst (map fst hits))
    /\ Forall (fun c => i <= fst c < i + Z.of_nat (length l)) (map fst hits).
Proof.
  induction l as [| a l IH]; intros i; cbv zeta.
  - split; constructor.
  - cbn [enumerate flat_map]. rewrite !map_app.
    destruct (IH (i + 1)) as [Hs Hr]. cbv zeta in Hs, Hr.
    assert (Hr' : Forall (fun c => i < fst c
                                   /\ i <= fst c
                                      < i + Z.of_nat (length (a :: l)))
                    (map fst
                       (flat_map (hybrid_hit target_kdtree
                                    max_correspondence_distance)
                                 (enumerate (i + 1) l)))).
    { eapply Forall_impl; [| exact Hr]. cbn [length]. intros c Hc. lia. }
    unfold hybrid_hit at 1 3. cbn [fst snd].
    destruct (SearchHybrid target_kdtree a max_correspondence_distance 1
                [0] [Double.zero]) as [[k indices] dists].
    assert (Hnil :
      StronglySorted Z.lt
        (map fst (map fst (flat_map (hybrid_hit target_kdtree
                                       max_correspondence_distance)
                                    (enumerate (i + 1) l))))
      /\ Forall (fun c => i <= fst c < i + Z.of_nat (length (a :: l)))
           (map fst (flat_map (hybrid_hit target_kdtree
                                 max_correspondence_distance)
                              (enumerate (i + 1) l)))).
    { split; [exact Hs |]. eapply Forall_impl; [| exact Hr'].
      intros c [_ Hc]. exact Hc. }
    destruct (0 <? k); [| exact Hnil].
    destruct (at_index dists 0) as [d |]; [| exact Hnil].
    destruct (at_index indices 0) as [j |]; [| exact Hnil].
    cbn [map app fst]. split.
    + constructor; [exact Hs |].
      rewrite Forall_map. eapply Forall_impl; [| exact Hr'].
      intros c [Hc _]. exact Hc.
    + constructor; [cbn [fst length]; lia |].
      eapply Forall_impl; [| exact Hr']. intros c [_ Hc]. exact Hc.
Qed.

Lemma StronglySorted_lt_NoDup (l : list Z) :
  StronglySorted Z.lt l -> NoDup l.
Proof.
  induction 1 as [| a l Hs IH Ha]; constructor; [| exact IH].
  intros Hin. rewrite Forall_forall in Ha. specialize (Ha a Hin). lia.
Qed.

(** X2.  The Evaluator matches every source point at most once: no two
    pairs of its correspondence set have the same source index, every
    source index lies in [[0, |source|)] and the set has at most
    [|source|] pairs, in whatever order they are stored.  The result
    carries the transformation it was given. *)
Theorem evaluator_matches_each_source_point_at_most_once
    (source target : PointCloud) (target_kdtree : KDTreeFlann)
    (max_correspondence_distance : double) (transformation : Matrix4d)
    (r : RegistrationResult)
    (Hsize : size (points_ source) < 2 ^ 31)
    (Hr : GetRegistrationResultAndCorrespondences source target target_kdtree
            max_correspondence_distance transformation = Some r) :
  transformation_ r = transformation
  /\ NoDup (map fst (correspondence_set_ r))
  /\ Forall (fun c => 0 <= fst c < size (points_ source))
            (correspondence_set_ r)
  /\ size (correspondence_set_ r) <= size (points_ source).
Proof.
  destruct (max_correspondence_distance <=? Double.zero)%double eqn:Ed.
  - unfold GetRegistrationResultAndCorrespondences in Hr. rewrite Ed in Hr.
    injection Hr as <-. cbn. repeat split; try constructor. unfold size. lia.
  - pose proof (evaluator_Some source target target_kdtree
                  max_correspondence_distance transformation r Hsize Ed Hr)
      as H.
    cbv zeta in H. destruct H as [HT [Hset _]].
    destruct (hybrid_hits_sorted target_kdtree max_correspondence_distance
                (points_ source) 0) as [Hs Hrange].
    cbv zeta in Hs, Hrange.
    pose proof (hybrid_hits_length target_kdtree max_correspondence_distance
                  (points_ source) 0) as Hlen.
    fold (inliers source target_kdtree max_correspondence_distance)
      in Hs, Hrange, Hlen.
    rewrite Hset.
    split; [exact HT |].
    split; [apply StronglySorted_lt_NoDup; exact Hs |].
    split; [exact Hrange |].
    unfold size. rewrite length_map. lia.
Qed.

(** X3.  When every point of a non-empty source has a correspondence, the
    fitness of the Evaluator is exactly [1.0]: the quotient
    [(double)n / (double)n] is not rounded. *)
Theorem evaluator_full_overlap_fitness_one
    (source target : PointCloud) (target_kdtree : KDTreeFlann)
    (max_correspondence_distance : double) (transformation : Matrix4d)
    (r : RegistrationResult)
    (Hne : points_ source <> [])
    (Hsize : size (points_ source) < 2 ^ 31)
    (Hr : GetRegistrationResultAndCorrespondences source target target_kdtree
            max_correspondence_distance transformation = Some r)
    (Hall : size (correspondence_set_ r) = size (points_ source)) :
  fitness_ r = Double.one.
Proof.
  assert (Hm : 1 <= size (points_ source)).
  { unfold size. destruct (points_ source); [contradiction |].
    cbn [length]. lia. }
  destruct (max_correspondence_distance <=? Double.zero)%double eqn:Ed.
  - unfold GetRegistrationResultAndCorrespondences in Hr. rewrite Ed in Hr.
    injection Hr as <-. cbn in Hall. lia.
  - pose proof (evaluator_Some source target target_kdtree
                  max_correspondence_distance transformation r Hsize Ed Hr)
      as H.
    cbv zeta in H. destruct H as [_ [Hset [_ Hcons]]].
    assert (Hsz : size (inliers source target_kdtree
                          max_correspondence_distance)
                  = size (points_ source)).
    { rewrite <- Hall, Hset. unfold size. rewrite length_map. reflexivity. }
    destruct Hcons as [Hf _].
    { intros E. rewrite E in Hsz. cbn in Hsz. lia. }
    rewrite Hf, Hsz. apply DoubleFacts.SFdiv_of_Z_same. lia.
Qed.

End EvaluatorDomain.

Lemma evaluated_two_eq :
  GetRegistrationResultAndCorrespondences Examples.two_points
    Examples.two_points (KDTreeFlann_of_PointCloud Examples.two_points)
    Double.one Examples.identity = Some Runs.evaluated_two.
Proof. reflexivity. Qed.

(** The reference searches return their count with as many indices and
    distances. *)
Lemma reference_search_hybrid_fills (tree : Reference.KDTree) (p : Vector3d)
    (radius : double) (indices : list Z) (dists : list double) :
  buffers_filled (Reference.search_hybrid tree p radius 1 indices dists)
  = true.
Proof.
  unfold Reference.search_hybrid. destruct tree as [points | columns];
    [| reflexivity].
  destruct (firstn _ _) as [| [d i] found]; reflexivity.
Qed.

(** The reference search fills its buffers: the Evaluator is defined on
    two points. *)
Lemma evaluator_never_reads_out_of_bounds_witness :
  exists r,
    GetRegistrationResultAndCorrespondences Examples.two_points
      Examples.two_points (KDTreeFlann_of_PointCloud Examples.two_points)
      Double.one Examples.identity = Some r.
Proof.
  apply (evaluator_never_reads_out_of_bounds
           (collaborators := Reference.collaborators)).
  intros p _. apply reference_search_hybrid_fills.
Defined.

(** Two points scored against themselves: the pairs [(0, 0)], [(1, 1)]. *)
Lemma evaluator_matches_each_source_point_at_most_once_witness :
  transformation_ Runs.evaluated_two = Examples.identity
  /\ NoDup (map fst (correspondence_set_ Runs.evaluated_two))
  /\ Forall (fun c => 0 <= fst c < size (points_ Examples.two_points))
            (correspondence_set_ Runs.evaluated_two)
  /\ size (correspondence_set_ Runs.evaluated_two)
     <= size (points_ Examples.two_points).
Proof.
  exact (evaluator_matches_each_source_point_at_most_once
           (collaborators := Reference.collaborators) Examples.two_points
           Examples.two_points (Reference.PointTree (points_ Examples.two_points))
           Double.one Examples.identity
           Runs.evaluated_two eq_refl evaluated_two_eq).
Defined.

(** Both points have a correspondence: fitness 1. *)
Lemma evaluator_full_overlap_fitness_one_witness :
  fitness_ Runs.evaluated_two = Double.one.
Proof.
  apply (evaluator_full_overlap_fitness_one
           (collaborators := Reference.collaborators) Examples.two_points
           Examples.two_points (Reference.PointTree (points_ Examples.two_points))
           Double.one Examples.identity Runs.evaluated_two).
  - discriminate.
  - reflexivity.
  - exact evaluated_two_eq.
  - reflexivity.
Defined.

(** ** The correspondence-restricted scorer: domain, bounds *)

Lemma mul_self_nonneg_or_nan (x : double) : nonneg_or_nan (x * x)%double.
Proof.
  destruct x as [s | s | | s m e] eqn:E; [| | left; reflexivity |];
    right; apply DoubleFacts.mul_self_nonneg; discriminate.
Qed.

Lemma add_nonneg_or_nan (x y : double) :
  nonneg_or_nan x -> nonneg_or_nan y -> nonneg_or_nan (x + y)%double.
Proof.
  intros [-> | Hx]; [left; reflexivity |].
  intros [-> | Hy]; [left; destruct x; reflexivity |].
  right. apply DoubleFacts.add_nonneg; assumption.
Qed.

Lemma squaredNorm_diff_nonneg_or_nan (p q : Vector3d) :
  nonneg_or_nan (squaredNorm_diff p q).
Proof.
  unfold squaredNorm_diff. cbv zeta.
  repeat apply add_nonneg_or_nan; apply mul_self_nonneg_or_nan.
Qed.

Lemma ltb_true_not_nan (x y : double) :
  (x <? y)%double = true -> x <> S754_nan.
Proof. intros H ->. discriminate H. Qed.

Lemma SFmul_opp_opp (prec emax : Z) (x : double) :
  SFmul prec emax (SFopp x) (SFopp x) = SFmul prec emax x x.
Proof.
  destruct x as [s | s | | s m e]; simpl; try reflexivity;
    destruct s; reflexivity.
Qed.

Section ScorerDomain.

Context {collaborators : Collaborators}.

(** X4.  The correspondence-restricted scorer checks no index.  On fewer
    than [2^31] pairs (the inlier counter is an [int]) it is defined
    exactly when every pair of [corres] names an existing source point and
    an existing target point; one pair out of range is undefined
    behaviour, whatever the distance. *)
Theorem scorer_defined_iff_indices_valid
    (source target : PointCloud) (corres : CorrespondenceSet)
    (max_correspondence_distance : double) (transformation : Matrix4d)
    (Hsize : size corres < 2 ^ 31) :
  (exists r,
      EvaluateRANSACBasedOnCorrespondence source target corres
        max_correspondence_distance transformation = Some r)
  <-> forall c, In c corres ->
        0 <= fst c < size (points_ source)
        /\ 0 <= snd c < size (points_ target).
Proof.
  rewrite scorer_defined, Forall_forall. reflexivity.
Qed.

Lemma ransac_score_loop_nonneg (source target : PointCloud)
    (max_dis2 : double) (corres : CorrespondenceSet) :
  forall (e : double) (g : Z) (e' : double) (g' : Z),
    Double.nonneg e = true ->
    ransac_score_loop source target max_dis2 (e, g) corres = Some (e', g') ->
    Double.nonneg e' = true.
Proof.
  induction corres as [| c corres IH]; intros e g e' g' He H;
    cbn [ransac_score_loop] in H.
  - injection H as <- _. exact He.
  - destruct (ransac_score_step source target max_dis2 (e, g) c)
      as [[e1 g1] |] eqn:E; [| discriminate].
    apply (IH e1 g1 e' g'); [| exact H].
    unfold ransac_score_step in E.
    destruct (at_index (points_ source) (fst c)) as [p |]; [| discriminate].
    destruct (at_index (points_ target) (snd c)) as [q |]; [| discriminate].
    destruct (squaredNorm_diff p q <? max_dis2)%double eqn:El.
    + injection E as <- _.
      apply DoubleFacts.add_nonneg; [exact He |].
      destruct (squaredNorm_diff_nonneg_or_nan p q) as [Hn | Hn];
        [| exact Hn].
      exfalso. exact (ltb_true_not_nan _ _ El Hn).
    + injection E as <- _. exact He.
Qed.

Lemma scorer_scores_nonneg (source target : PointCloud)
    (corres : CorrespondenceSet) (max_correspondence_distance : double)
    (transformation : Matrix4d) (r : RegistrationResult) :
  size corres < 2 ^ 31 ->
  EvaluateRANSACBasedOnCorrespondence source target corres
    max_correspondence_distance transformation = Some r ->
  scores_nonneg r.
Proof.
  intros Hsize Hr. unfold EvaluateRANSACBasedOnCorrespondence in Hr.
  destruct (ransac_score_loop _ _ _ _ _) as [[e g] |] eqn:Eloop;
    [| discriminate].
  pose proof (ransac_score_loop_nonneg source target _ corres Double.zero 0
                e g eq_refl Eloop) as He.
  apply ransac_score_loop_count in Eloop. rewrite Z.add_0_l in Eloop.
  pose proof (filter_length_le
                (inlier_pair source target max_correspondence_distance)
                corres) as Hlen.
  destruct (g =? 0) eqn:Eg; injection Hr as <-; split;
    cbn [fitness_ inlier_rmse_]; try reflexivity;
    apply Z.eqb_neq in Eg.
  - apply DoubleFacts.div_of_Z_nonneg; [unfold size in *; lia |].
    apply DoubleFacts.of_Z_nonneg. lia.
  - apply DoubleFacts.sqrt_nonneg.
    apply DoubleFacts.div_of_Z_nonneg; [unfold size in *; lia | exact He].
Qed.

(** X5.  On fewer than [2^31] pairs every result of the
    correspondence-restricted scorer has [0 <= fitness <= 1] and
    [0 <= inlier_rmse], whatever the coordinates of the points: a pair
    whose squared distance is a NaN is not an inlier, so the accumulated
    error is a sum of numbers that are not negative. *)
Theorem scorer_fitness_and_rmse_bounds
    (source target : PointCloud) (corres : CorrespondenceSet)
    (max_correspondence_distance : double) (transformation : Matrix4d)
    (r : RegistrationResult)
    (Hsize : size corres < 2 ^ 31)
    (Hr : EvaluateRANSACBasedOnCorrespondence source target corres
            max_correspondence_distance transformation = Some r) :
  dle Double.zero (fitness_ r) /\ dle (fitness_ r) Double.one
  /\ dle Double.zero (inlier_rmse_ r).
Proof.
  unfold EvaluateRANSACBasedOnCorrespondence in Hr.
  destruct (ransac_score_loop _ _ _ _ _) as [[e g] |] eqn:Eloop;
    [| discriminate].
  pose proof (ransac_score_loop_nonneg source target _ corres Double.zero 0
                e g eq_refl Eloop) as He.
  apply ransac_score_loop_count in Eloop. rewrite Z.add_0_l in Eloop.
  pose proof (filter_length_le
                (inlier_pair source target max_correspondence_distance)
                corres) as Hlen.
  unfold dle.
  destruct (g =? 0) eqn:Eg; injection Hr as <-;
    cbn [fitness_ inlier_rmse_].
  - repeat split; reflexivity.
  - apply Z.eqb_neq in Eg.
    assert (Hg : 1 <= g <= size corres) by (unfold size; lia).
    split; [| split].
    + apply DoubleFacts.nonneg_leb. apply DoubleFacts.div_of_Z_nonneg;
        [lia |]. apply DoubleFacts.of_Z_nonneg. lia.
    + apply DoubleFacts.SFdiv_of_Z_le_one; lia.
    + apply DoubleFacts.nonneg_leb. apply DoubleFacts.sqrt_nonneg.
      apply DoubleFacts.div_of_Z_nonneg; [lia | exact He].
Qed.

(** X6.  When every pair of a non-empty [corres] is an inlier, the fitness
    of the correspondence-restricted scorer is exactly [1.0]. *)
Theorem scorer_all_inliers_fitness_one
    (source target : PointCloud) (corres : CorrespondenceSet)
    (max_correspondence_distance : double) (transformation : Matrix4d)
    (r : RegistrationResult)
    (Hne : corres <> [])
    (Hsize : size corres < 2 ^ 31)
    (Hall : forallb (inlier_pair source target max_correspondence_distance)
              corres = true)
    (Hr : EvaluateRANSACBasedOnCorrespondence source target corres
            max_correspondence_distance transformation = Some r) :
  fitness_ r = Double.one.
Proof.
  apply scorer_Some in Hr. cbv zeta in Hr.
  destruct Hr as [_ [_ [_ H1]]].
  rewrite (filter_all _ _ Hall) in H1.
  assert (Hg : 1 <= size corres).
  { unfold size. destruct corres; [contradiction | cbn [length]; lia]. }
  destruct (H1 ltac:(unfold size in Hg; lia)) as [Hf _].
  rewrite Hf. apply DoubleFacts.SFdiv_of_Z_same. unfold size in *. lia.
Qed.

(** X7.  The correspondence-restricted scorer compares squared distances
    with [max_dist * max_dist], so only the magnitude of [max_dist]
    counts: scoring with [-max_dist] is scoring with [max_dist] (the
    drivers refuse [max_dist <= 0] before they call it). *)
Theorem scorer_ignores_sign_of_distance
    (source target : PointCloud) (corres : CorrespondenceSet)
    (max_correspondence_distance : double) (transformation : Matrix4d) :
  EvaluateRANSACBasedOnCorrespondence source target corres
    (- max_correspondence_distance)%double transformation
  = EvaluateRANSACBasedOnCorrespondence source target corres
      max_correspondence_distance transformation.
Proof.
  unfold EvaluateRANSACBasedOnCorrespondence.
  replace (- max_correspondence_distance * - max_correspondence_distance)%double
    with (max_correspondence_distance * max_correspondence_distance)%double
    by (symmetry; apply SFmul_opp_opp).
  reflexivity.
Qed.

End ScorerDomain.

(** Between one point and itself the pair [(0, 0)] is in range and the
    pair [(0, 1)] is not. *)
Lemma scorer_defined_iff_indices_valid_witness :
  ((exists r,
       EvaluateRANSACBasedOnCorrespondence Examples.one_point
         Examples.one_point [(0, 0)] Double.one Examples.identity = Some r)
   <-> forall c, In c [(0, 0)] ->
         0 <= fst c < size (points_ Examples.one_point)
         /\ 0 <= snd c < size (points_ Examples.one_point))
  /\ ((exists r,
          EvaluateRANSACBasedOnCorrespondence Examples.one_point
            Examples.one_point [(0, 1)] Double.one Examples.identity = Some r)
      <-> forall c, In c [(0, 1)] ->
            0 <= fst c < size (points_ Examples.one_point)
            /\ 0 <= snd c < size (points_ Examples.one_point)).
Proof.
  split; apply scorer_defined_iff_indices_valid; reflexivity.
Defined.

(** One point scored against itself. *)
Lemma scorer_fitness_and_rmse_bounds_witness :
  dle Double.zero (fitness_ Examples.scored)
  /\ dle (fitness_ Examples.scored) Double.one
  /\ dle Double.zero (inlier_rmse_ Examples.scored).
Proof.
  exact (scorer_fitness_and_rmse_bounds Examples.one_point Examples.one_point
           [(0, 0)] Double.one Examples.identity Examples.scored eq_refl
           scored_eq).
Defined.

(** The only pair is an inlier: fitness 1. *)
Lemma scorer_all_inliers_fitness_one_witness :
  fitness_ Examples.scored = Double.one.
Proof.
  apply (scorer_all_inliers_fitness_one Examples.one_point Examples.one_point
           [(0, 0)] Double.one Examples.identity Examples.scored).
  - discriminate.
  - reflexivity.
  - reflexivity.
  - exact scored_eq.
Defined.

(** ** EvaluateRegistration and ICP *)

Lemma abs_not_below_nonpositive (x t : double) :
  (Double.zero <? t)%double = false ->
  (Double.abs x <? t)%double = false.
Proof.
  destruct x as [[] | [] | | [] m e], t as [[] | [] | | [] m' e'];
    try reflexivity; try discriminate.
Qed.

Section ICPRuns.

Context {collaborators : Collaborators}.

Lemma icp_messages_length (rs : list RegistrationResult) :
  forall i, length (icp_messages i rs) = length rs.
Proof.
  induction rs as [| r rs IH]; intros i; cbn [icp_messages length];
    [reflexivity |].
  rewrite IH. reflexivity.
Qed.

(** X8.  [EvaluateRegistration] with [max_dist <= 0] signals no error: it
    returns the empty result (no correspondence, fitness 0, RMSE 0) that
    carries the transformation it was given, not the identity. *)
Theorem evaluate_registration_rejects_nonpositive_distance
    (source target : PointCloud) (max_correspondence_distance : double)
    (transformation : Matrix4d)
    (Hdist : dle max_correspondence_distance Double.zero) :
  EvaluateRegistration source target max_correspondence_distance
    transformation
  = Some {| transformation_ := transformation;
            correspondence_set_ := [];
            inlier_rmse_ := Double.zero;
            fitness_ := Double.zero |}.
Proof.
  unfold EvaluateRegistration, GetRegistrationResultAndCorrespondences.
  unfold dle in Hdist. rewrite Hdist. reflexivity.
Qed.

(** X9.  With [max_iteration <= 0] ICP is [EvaluateRegistration] at
    [init]: the same result or the same undefined behaviour, no message,
    for every distance and whatever the fuel. *)
Theorem icp_without_iterations_is_evaluate_registration
    (fuel : nat) (source target : PointCloud)
    (max_correspondence_distance : double) (init : Matrix4d)
    (estimation : TransformationEstimation)
    (criteria : ICPConvergenceCriteria) (w : World)
    (Hcap : icp_max_iteration_ criteria <= 0) :
  RegistrationICP fuel source target max_correspondence_distance init
    estimation criteria w
  = defined (EvaluateRegistration source target max_correspondence_distance
               init) w.
Proof.
  unfold RegistrationICP, EvaluateRegistration.
  destruct (max_correspondence_distance <=? Double.zero)%double eqn:Ed.
  - unfold GetRegistrationResultAndCorrespondences. rewrite Ed. reflexivity.
  - unfold bind at 1.
    destruct (defined _ w) as [r0 w0 | |] eqn:E; [| reflexivity ..].
    assert (Hcond : (0 <? icp_max_iteration_ criteria) = false)
      by (apply Z.ltb_ge; exact Hcap).
    unfold bind. destruct fuel; cbn [for_loop]; rewrite Hcond; reflexivity.
Qed.

(** X10.  A threshold that is not positive ([<= 0] or a NaN) disables the
    early exit of ICP: no [|delta|] is below it, so a run that completes
    has taken all [max_iteration] steps, one message each. *)
Theorem icp_nonpositive_threshold_runs_all_steps
    (fuel : nat) (source target : PointCloud)
    (max_correspondence_distance : double) (init : Matrix4d)
    (estimation : TransformationEstimation)
    (criteria : ICPConvergenceCriteria) (w w' : World)
    (r : RegistrationResult)
    (Hdist : (max_correspondence_distance <=? Double.zero)%double = false)
    (Hthr : (Double.zero <? relative_fitness_ criteria)%double = false
            \/ (Double.zero <? relative_rmse_ criteria)%double = false)
    (Hrun : RegistrationICP fuel source target max_correspondence_distance
              init estimation criteria w = Ok r w') :
  length (debug_log w')
  = (Z.to_nat (icp_max_iteration_ criteria) + length (debug_log w))%nat.
Proof.
  assert (Hnc : forall a b, ~ converged criteria a b).
  { intros a b [H1 H2]. unfold dlt in H1, H2.
    destruct Hthr as [Ht | Ht].
    - rewrite (abs_not_below_nonpositive _ _ Ht) in H1. discriminate.
    - rewrite (abs_not_below_nonpositive _ _ Ht) in H2. discriminate. }
  unfold RegistrationICP in Hrun. rewrite Hdist in Hrun.
  invert_run Hrun. apply defined_Ok in Hrun0. destruct Hrun0 as [_ ->].
  apply ret_Ok in Hrun. destruct Hrun as [_ ->].
  apply icp_loop_trace in Hrun1. cbn [snd] in Hrun1.
  destruct Hrun1 as [rs [_ [Hlen [Hnil [Hlog Hidx]]]]].
  rewrite Hlog, length_app, length_rev, icp_messages_length,
    removelast_cons_length.
  f_equal.
  destruct rs as [| r1 rs'] eqn:Ers.
  - specialize (Hnil eq_refl). cbn [length]. lia.
  - rewrite <- Ers in *.
    assert (Hpos : (0 < length rs)%nat) by (rewrite Ers; cbn [length]; lia).
    destruct (Hidx (length rs - 1)%nat ltac:(lia)) as [Hlast _].
    destruct (Hlast ltac:(lia)) as [Hc | Hcap];
      [exfalso; exact (Hnc _ _ Hc) | lia].
Qed.

Lemma icp_loop_updates (target : PointCloud) (kdtree : KDTreeFlann)
    (max_correspondence_distance : double)
    (estimation : TransformationEstimation)
    (criteria : ICPConvergenceCriteria) (fuel : nat) :
  forall (i : Z) (st : ICPState) (w : World) (st' : ICPState) (w' : World),
    for_loop fuel (fun i => i <? icp_max_iteration_ criteria)
      (icp_body target kdtree max_correspondence_distance estimation criteria)
      i st w = Ok st' w' ->
    transformation_ (snd st) = fst (fst st) ->
    exists us : list Matrix4d,
      transformation_ (snd st')
      = fold_left (fun T u => Matrix4d_mul u T) us (fst (fst st))
      /\ Forall (fun u => exists pcd cs,
                   u = ComputeTransformation estimation pcd target cs) us
      /\ length (debug_log w') = (length us + length (debug_log w))%nat.
Proof.
  induction fuel as [| fuel IH]; intros i st w st' w' H Hst; simpl in H;
    destruct (i <? icp_max_iteration_ criteria); try discriminate;
    try (apply ret_Ok in H; destruct H as [-> ->]; exists [];
         split; [exact Hst | split; [constructor | reflexivity]]).
  invert_run H. destruct st as [[T pcd] r0]. destruct a as [fl st1].
  apply icp_body_Ok in Hrun. cbv zeta in Hrun.
  destruct Hrun as [r1 [Hev [Hst1 [Hlog _]]]].
  cbn [fst snd] in *. subst st1.
  apply evaluator_transformation in Hev.
  set (u := ComputeTransformation estimation pcd target
              (correspondence_set_ r0)) in *.
  destruct fl.
  - apply IH in H; [| exact Hev]. cbn [fst snd] in H.
    destruct H as [us [Hus [Hall Hlen]]].
    exists (u :: us). cbn [fold_left length].
    split; [exact Hus |]. split.
    + constructor; [| exact Hall]. eexists _, _. reflexivity.
    + rewrite Hlen, Hlog. cbn [length]. lia.
  - apply ret_Ok in H. destruct H as [-> ->].
    exists [u]. cbn [fold_left length fst snd].
    split; [exact Hev |]. split.
    + constructor; [| constructor]. eexists _, _. reflexivity.
    + rewrite Hlog. reflexivity.
Qed.

(** X11.  The transformation returned by ICP is [init] multiplied on the
    left by the update of each step, in the order of the steps; every
    update is an answer of the estimation against [target], and there is
    one per printed message.  With no step it is [init]. *)
Theorem icp_transformation_accumulates_updates
    (fuel : nat) (source target : PointCloud)
    (max_correspondence_distance : double) (init : Matrix4d)
    (estimation : TransformationEstimation)
    (criteria : ICPConvergenceCriteria) (w w' : World)
    (r : RegistrationResult)
    (Hrun : RegistrationICP fuel source target max_correspondence_distance
              init estimation criteria w = Ok r w') :
  exists updates : list Matrix4d,
    transformation_ r
    = fold_left (fun T update => Matrix4d_mul update T) updates init
    /\ Forall (fun update => exists pcd cs,
                 update = ComputeTransformation estimation pcd target cs)
              updates
    /\ length (debug_log w') = (length updates + length (debug_log w))%nat.
Proof.
  unfold RegistrationICP in Hrun.
  destruct (max_correspondence_distance <=? Double.zero)%double.
  - apply ret_Ok in Hrun. destruct Hrun as [-> ->]. exists [].
    split; [reflexivity | split; [constructor | reflexivity]].
  - invert_run Hrun. apply defined_Ok in Hrun0. destruct Hrun0 as [Hr0 ->].
    apply ret_Ok in Hrun. destruct Hrun as [-> ->].
    apply icp_loop_updates in Hrun1;
      [| exact (evaluator_transformation _ _ _ _ _ _ Hr0)].
    exact Hrun1.
Qed.

(** X12.  ICP never seeds or draws from the C library's generator and
    never reads the clock: a run leaves both as they were (unlike the two
    RANSAC drivers, which reseed the generator). *)
Theorem icp_leaves_generator_and_clock_untouched
    (fuel : nat) (source target : PointCloud)
    (max_correspondence_distance : double) (init : Matrix4d)
    (estimation : TransformationEstimation)
    (criteria : ICPConvergenceCriteria) (w w' : World)
    (r : RegistrationResult)
    (Hrun : RegistrationICP fuel source target max_correspondence_distance
              init estimation criteria w = Ok r w') :
  rand_state w' = rand_state w /\ wall_clock w' = wall_clock w.
Proof.
  unfold RegistrationICP in Hrun.
  destruct (max_correspondence_distance <=? Double.zero)%double.
  - apply ret_Ok in Hrun. destruct Hrun as [_ ->]. split; reflexivity.
  - invert_run Hrun. apply defined_Ok in Hrun0. destruct Hrun0 as [_ ->].
    apply ret_Ok in Hrun. destruct Hrun as [_ ->].
    assert (H : (rand_state w1, wall_clock w1) = (rand_state w, wall_clock w)).
    { refine (for_loop_keeps (fun w => (rand_state w, wall_clock w))
                _ _ _ _ _ _ _ _ _ Hrun1).
      intros i [[T pcd] res] wa out wb Hb. unfold icp_body in Hb.
      invert_run Hb. apply PrintDebug_Ok in Hrun. destruct Hrun as [Hs [Hc _]].
      apply defined_Ok in Hrun0. destruct Hrun0 as [_ ->].
      destruct (_ && _); apply ret_Ok in Hb; destruct Hb as [_ ->];
        rewrite Hs, Hc; reflexivity. }
    injection H as H1 H2. split; assumption.
Qed.

(** X13.  ICP has no undefined behaviour of its own: provided the hybrid
    search over the target leaves a first index and a first distance in
    its buffers whenever it reports a hit, ICP with fuel for
    [max_iteration] steps returns a result, for every source, target,
    [init], estimation and criteria. *)
Theorem icp_has_defined_behaviour
    (fuel : nat) (source target : PointCloud)
    (max_correspondence_distance : double) (init : Matrix4d)
    (estimation : TransformationEstimation)
    (criteria : ICPConvergenceCriteria) (w : World)
    (Hsearch : forall p,
       buffers_filled (SearchHybrid (KDTreeFlann_of_PointCloud target) p
                         max_correspondence_distance 1 [0] [Double.zero])
       = true)
    (Hfuel : (Z.to_nat (icp_max_iteration_ criteria) <= fuel)%nat) :
  exists r w',
    RegistrationICP fuel source target max_correspondence_distance init
      estimation criteria w = Ok r w'.
Proof.
  unfold RegistrationICP.
  destruct (max_correspondence_distance <=? Double.zero)%double;
    [eexists _, _; reflexivity |].
  match goal with
  | |- context [GetRegistrationResultAndCorrespondences ?pcd ?t ?kd ?d ?T] =>
      destruct (evaluator_defined pcd t kd d T Hsearch) as [r0 E0]
  end.
  unfold bind at 1. rewrite E0. cbn [defined]. unfold bind at 1.
  match goal with
  | |- context [for_loop fuel ?c ?b ?i ?s ?w0] =>
      destruct (for_loop_Ok (icp_max_iteration_ criteria) b
                  ltac:(intros j [[T pcd] res] w1; unfold icp_body;
                        match goal with
                        | |- context [GetRegistrationResultAndCorrespondences
                                        ?pcd' ?t ?kd ?d ?T'] =>
                            destruct (evaluator_defined pcd' t kd d T' Hsearch)
                              as [r1 E1]
                        end;
                        unfold bind, PrintDebug; rewrite E1; cbn [defined];
                        destruct (_ && _); eexists _, _; reflexivity)
                  fuel i s w0 ltac:(lia)) as [st [w1 E]]
  end.
  rewrite E. eexists _, _. reflexivity.
Qed.

End ICPRuns.

Lemma strict_icp_run_eq :
  RegistrationICP 2 Examples.two_points Examples.two_points Double.one
    Examples.identity Examples.identity_estimation (Runs.zero_thresholds 2)
    Examples.world = Ok Runs.strict_icp_result Runs.strict_icp_world.
Proof. reflexivity. Qed.

(** Distance [-1]. *)
Lemma evaluate_registration_rejects_nonpositive_distance_witness :
  EvaluateRegistration Examples.two_points Examples.two_points
    (Double.of_Z (-1)) Examples.identity
  = Some (RegistrationResult_of Examples.identity).
Proof.
  exact (evaluate_registration_rejects_nonpositive_distance
           Examples.two_points Examples.two_points (Double.of_Z (-1))
           Examples.identity eq_refl).
Defined.

(** No step allowed, no fuel. *)
Lemma icp_without_iterations_is_evaluate_registration_witness :
  RegistrationICP 0 Examples.two_points Examples.two_points Double.one
    Examples.identity Examples.identity_estimation (Examples.icp_criteria 0)
    Examples.world
  = defined (EvaluateRegistration Examples.two_points Examples.two_points
               Double.one Examples.identity) Examples.world.
Proof.
  apply icp_without_iterations_is_evaluate_registration.
  cbn. lia.
Defined.

(** Thresholds 0, two steps allowed: two messages. *)
Lemma icp_nonpositive_threshold_runs_all_steps_witness :
  length (debug_log Runs.strict_icp_world)
  = (2 + length (debug_log Examples.world))%nat.
Proof.
  exact (icp_nonpositive_threshold_runs_all_steps 2 Examples.two_points
           Examples.two_points Double.one Examples.identity
           Examples.identity_estimation (Runs.zero_thresholds 2)
           Examples.world Runs.strict_icp_world Runs.strict_icp_result
           eq_refl (or_introl eq_refl) strict_icp_run_eq).
Defined.

(** The run of ICP on two points. *)
Lemma icp_transformation_accumulates_updates_witness :
  exists updates : list Reference.Mat4,
    transformation_ Examples.icp_result
    = fold_left (fun T update => Reference.mul update T) updates
        Examples.identity
    /\ Forall (fun update => exists pcd cs,
                 update = ComputeTransformation Examples.identity_estimation
                            pcd Examples.two_points cs)
              updates
    /\ length (debug_log Examples.icp_world)
       = (length updates + length (debug_log Examples.world))%nat.
Proof.
  exact (icp_transformation_accumulates_updates 3 Examples.two_points
           Examples.two_points Double.one Examples.identity
           Examples.identity_estimation (Examples.icp_criteria 3)
           Examples.world Examples.icp_world Examples.icp_result icp_run_eq).
Defined.

(** The run of ICP on two points leaves the generator at its state. *)
Lemma icp_leaves_generator_and_clock_untouched_witness :
  rand_state Examples.icp_world = rand_state Examples.world
  /\ wall_clock Examples.icp_world = wall_clock Examples.world.
Proof.
  exact (icp_leaves_generator_and_clock_untouched 3 Examples.two_points
           Examples.two_points Double.one Examples.identity
           Examples.identity_estimation (Examples.icp_criteria 3)
           Examples.world Examples.icp_world Examples.icp_result icp_run_eq).
Defined.

(** Over the reference search, with fuel for the three allowed steps. *)
Lemma icp_has_defined_behaviour_witness :
  exists r w',
    RegistrationICP 3 Examples.two_points Examples.two_points Double.one
      Examples.identity Examples.identity_estimation (Examples.icp_criteria 3)
      Examples.world = Ok r w'.
Proof.
  apply icp_has_defined_behaviour.
  - intros p. apply reference_search_hybrid_fills.
  - cbn. lia.
Defined.

(** ** Correspondence-RANSAC: the sample, the best candidate *)

Lemma rank_lt_trans (a b c : Z * Z * Z) :
  rank_lt a b -> rank_lt b c -> rank_lt a c.
Proof. unfold rank_lt. lia. Qed.

Lemma nonneg_ltb_rank (x y : double) :
  Double.nonneg x = true -> Double.nonneg y = true ->
  ((x <? y)%double = true <-> rank_lt (rank x) (rank y)).
Proof.
  unfold rank_lt.
  destruct x as [[] | [] | | [] mx ex]; try discriminate;
    destruct y as [[] | [] | | [] my ey]; try discriminate; intros _ _;
    cbn [rank fst snd];
    try (split; [intros H; try discriminate H; lia | intros H; try reflexivity; lia]).
  unfold Double.ltb, SFltb, SFcompare.
  destruct (Z.compare_spec ex ey) as [He | He | He].
  - change (Pos.compare_cont Eq mx my) with (Pos.compare mx my).
    destruct (Pos.compare_spec mx my) as [Hm | Hm | Hm];
      (split; [intros H; try discriminate H; lia
              | intros H; try reflexivity; lia]).
  - split; [intros _; lia | reflexivity].
  - split; [intros H; discriminate H | lia].
Qed.

Lemma nonneg_eqb_rank (x y : double) :
  Double.nonneg x = true -> Double.nonneg y = true ->
  ((x =? y)%double = true <-> rank x = rank y).
Proof.
  destruct x as [[] | [] | | [] mx ex]; try discriminate;
    destruct y as [[] | [] | | [] my ey]; try discriminate; intros _ _;
    cbn [rank];
    try (split; [intros H; try discriminate H; reflexivity
                | intros H; try reflexivity; discriminate H]).
  unfold Double.eqb, SFeqb, SFcompare.
  destruct (Z.compare_spec ex ey) as [He | He | He].
  - change (Pos.compare_cont Eq mx my) with (Pos.compare mx my).
    destruct (Pos.compare_spec mx my) as [Hm | Hm | Hm].
    + subst. split; reflexivity.
    + split; [intros H; discriminate H | intros H; injection H; lia].
    + split; [intros H; discriminate H | intros H; injection H; lia].
  - split; [intros H; discriminate H | intros H; injection H; lia].
  - split; [intros H; discriminate H | intros H; injection H; lia].
Qed.

Section SampleAndBest.

Context {collaborators : Collaborators}.

(** X14.  The sample that an iteration of correspondence-RANSAC hands to
    the estimation has [ransac_n] entries and every entry is a pair of
    [corres] (drawn with replacement): none of the placeholder entries of
    [ransac_corres] survives the sampling loop.  The scored candidate is
    the fit of that sample. *)
Theorem ransac_sample_is_drawn_from_corres
    (source target : PointCloud) (corres : CorrespondenceSet)
    (max_correspondence_distance : double)
    (estimation : TransformationEstimation) (ransac_n itr : Z)
    (ransac_corres : CorrespondenceSet) (result : RegistrationResult)
    (w w' : World) (out : flow * RANSACState)
    (Hsize : size ransac_corres = ransac_n)
    (Hrun : ransac_body source target corres max_correspondence_distance
              estimation ransac_n itr (ransac_corres, result) w = Ok out w') :
  size (fst (snd out)) = ransac_n
  /\ Forall (fun c => In c corres) (fst (snd out))
  /\ exists cand,
      EvaluateRANSACBasedOnCorrespondence
        (Transform
           (ComputeTransformation estimation source target (fst (snd out)))
           source)
        target corres max_correspondence_distance
        (ComputeTransformation estimation source target (fst (snd out)))
      = Some cand.
Proof.
  apply ransac_body_Ok in Hrun. destruct Hrun as [s [cand [Hs [Hc ->]]]].
  cbn [fst snd].
  destruct (ransac_sample_from_corres corres ransac_n ransac_corres s w w'
              Hsize Hs) as [Hlen Hall].
  split; [exact Hlen |]. split; [exact Hall |].
  exists cand. exact Hc.
Qed.

Lemma replaces_irrefl (r : RegistrationResult) : ~ replaces r r.
Proof.
  unfold replaces, dlt. rewrite !ltb_irrefl.
  intros [H | [_ H]]; discriminate H.
Qed.

Lemma replaces_trans (x y z : RegistrationResult) :
  scores_nonneg x -> scores_nonneg y -> scores_nonneg z ->
  replaces x y -> replaces y z -> replaces x z.
Proof.
  intros [Hfx Hrx] [Hfy Hry] [Hfz Hrz]. unfold replaces, dlt, deq.
  rewrite !nonneg_ltb_rank, !nonneg_eqb_rank by assumption.
  intros [H1 | [E1 H1]] [H2 | [E2 H2]].
  - left. eapply rank_lt_trans; eassumption.
  - left. rewrite <- E2. exact H1.
  - left. rewrite E1. exact H2.
  - right. split; [congruence |]. eapply rank_lt_trans; eassumption.
Qed.

Lemma best_of_step (cands : list RegistrationResult)
    (cand best : RegistrationResult) :
  Forall scores_nonneg cands -> scores_nonneg cand -> scores_nonneg best ->
  best_of cands best ->
  best_of (cand :: cands)
    (if (fitness_ best <? fitness_ cand)%double
        || ((fitness_ cand =? fitness_ best)%double
            && (inlier_rmse_ cand <? inlier_rmse_ best)%double)
     then cand else best).
Proof.
  intros Hcs Hc Hb [Hin Hbest].
  destruct ((fitness_ best <? fitness_ cand)%double
            || ((fitness_ cand =? fitness_ best)%double
                && (inlier_rmse_ cand <? inlier_rmse_ best)%double)) eqn:E.
  - apply replaces_iff in E. split; [right; left; reflexivity |].
    constructor; [apply replaces_irrefl |].
    rewrite Forall_forall in *. intros x Hx Hxc.
    apply (Hbest x Hx).
    exact (replaces_trans x cand best (Hcs x Hx) Hc Hb Hxc E).
  - split.
    + destruct Hin as [-> | Hin]; [left; reflexivity | right; right; exact Hin].
    + constructor; [| exact Hbest].
      intros Hr. apply replaces_iff in Hr. congruence.
Qed.

Lemma keep_best_scores_nonneg (best cand : RegistrationResult) :
  scores_nonneg best -> scores_nonneg cand ->
  scores_nonneg (keep_best best cand).
Proof. intros Hb Hc. unfold keep_best. destruct (_ || _); assumption. Qed.

Lemma keep_best_fold_best_of (cands : list RegistrationResult) :
  forall (done : list RegistrationResult) (best : RegistrationResult),
    Forall scores_nonneg cands -> Forall scores_nonneg done ->
    scores_nonneg best -> best_of done best ->
    best_of (rev cands ++ done) (fold_left keep_best cands best).
Proof.
  induction cands as [| c cands IH]; intros done best Hcs Hd Hb Hbest.
  - exact Hbest.
  - inversion Hcs as [| ? ? Hc Hcs']. subst.
    cbn [fold_left rev]. rewrite <- app_assoc. cbn [app].
    apply IH.
    + exact Hcs'.
    + constructor; assumption.
    + apply keep_best_scores_nonneg; assumption.
    + apply best_of_step; assumption.
Qed.

Lemma keep_best_fold_best (cands : list RegistrationResult) :
  Forall scores_nonneg cands ->
  best_of cands (fold_left keep_best cands RegistrationResult_default).
Proof.
  intros Hcs.
  pose proof (keep_best_fold_best_of cands [] RegistrationResult_default Hcs
                ltac:(constructor) ltac:(split; reflexivity)
                ltac:(split; [left; reflexivity | constructor])) as [Hin Hall].
  rewrite app_nil_r in Hin, Hall. split.
  - destruct Hin as [Hin | Hin]; [left; exact Hin |].
    right. apply in_rev. exact Hin.
  - apply Forall_rev in Hall. rewrite rev_involutive in Hall. exact Hall.
Qed.

Lemma ransac_loop_candidates (source target : PointCloud)
    (corres : CorrespondenceSet) (max_correspondence_distance : double)
    (estimation : TransformationEstimation) (ransac_n : Z)
    (criteria : RANSACConvergenceCriteria) (fuel : nat) :
  size corres < 2 ^ 31 ->
  forall (itr : Z) (st : RANSACState) (w : World) (st' : RANSACState)
         (w' : World),
    size (fst st) = ransac_n ->
    for_loop fuel
      (fun itr => (itr <? max_iteration_ criteria)
                  && (itr <? max_validation_ criteria))
      (ransac_body source target corres max_correspondence_distance
         estimation ransac_n) itr st w = Ok st' w' ->
    let n := Z.to_nat (Z.min (max_iteration_ criteria)
                             (max_validation_ criteria) - itr) in
    let cands :=
      ransac_candidates source target corres max_correspondence_distance
        estimation ransac_n n itr st w in
    length cands = n
    /\ snd st' = fold_left keep_best cands (snd st)
    /\ Forall scores_nonneg cands
    /\ Forall (fitted_candidate source target corres
                 max_correspondence_distance estimation ransac_n) cands.
Proof.
  intros Hcorres.
  induction fuel as [| fuel IH]; intros itr st w st' w' Hlen H;
    cbn [for_loop] in H;
    destruct ((itr <? max_iteration_ criteria)
              && (itr <? max_validation_ criteria)) eqn:Ec;
    try discriminate.
  - apply ret_Ok in H. destruct H as [-> _].
    apply andb_false_iff in Ec.
    replace (Z.to_nat (Z.min (max_iteration_ criteria)
                             (max_validation_ criteria) - itr)) with 0%nat
      by (destruct Ec as [Ec | Ec]; apply Z.ltb_ge in Ec; lia).
    cbn. repeat split; constructor.
  - apply andb_true_iff in Ec. destruct Ec as [E1 E2].
    apply Z.ltb_lt in E1. apply Z.ltb_lt in E2.
    invert_run H. destruct st as [rc res]. cbn [fst snd] in Hlen.
    pose proof Hrun as Hbody.
    apply ransac_body_Ok in Hrun. destruct Hrun as [s [cand [Hs [Hc ->]]]].
    cbn [fst snd] in H.
    destruct (ransac_sample_from_corres corres ransac_n rc s w w0 Hlen Hs)
      as [Hslen Hsall].
    apply IH in H; [| exact Hslen]. cbv zeta in H. cbn [snd] in H.
    destruct H as [Hn [Hfold [Hnn Hfit]]].
    replace (Z.to_nat (Z.min (max_iteration_ criteria)
                             (max_validation_ criteria) - itr))
      with (S (Z.to_nat (Z.min (max_iteration_ criteria)
                               (max_validation_ criteria) - (itr + 1))))
      by lia.
    cbv zeta. cbn [ransac_candidates]. rewrite Hbody. cbn [fst snd].
    rewrite Hc. cbn [length fold_left snd].
    split; [rewrite Hn; reflexivity |].
    split; [exact Hfold |].
    split.
    + constructor; [| exact Hnn].
      exact (scorer_scores_nonneg _ _ _ _ _ _ Hcorres Hc).
    + constructor; [| exact Hfit]. exists s. auto.
  - apply ret_Ok in H. destruct H as [-> _].
    apply andb_false_iff in Ec.
    replace (Z.to_nat (Z.min (max_iteration_ criteria)
                             (max_validation_ criteria) - itr)) with 0%nat
      by (destruct Ec as [Ec | Ec]; apply Z.ltb_ge in Ec; lia).
    cbn. repeat split; constructor.
Qed.

(** X15.  Correspondence-RANSAC returns a best candidate of its run.  On
    accepted arguments (fewer than [2^31] correspondences) a run that
    completes has scored exactly [N = min(max_iteration, max_validation)]
    candidates ([ransac_candidates]: the candidate of each iteration, from
    the seeded generator on), each the score of the transformation fitted
    to [ransac_n] pairs of [corres]; the returned result is the default
    result or one of these candidates, and none of them would replace it
    under the best-of-N rule. *)
Theorem ransac_correspondence_returns_a_best_candidate
    (fuel : nat) (source target : PointCloud) (corres : CorrespondenceSet)
    (max_correspondence_distance : double)
    (estimation : TransformationEstimation) (ransac_n : Z)
    (criteria : RANSACConvergenceCriteria) (w w' : World)
    (r : RegistrationResult)
    (Hn : 3 <= ransac_n) (Hsize : ransac_n <= size corres)
    (Hint : size corres < 2 ^ 31)
    (Hdist : dlt Double.zero max_correspondence_distance)
    (Hrun : RegistrationRANSACBasedOnCorrespondence fuel source target corres
              max_correspondence_distance estimation ransac_n criteria w
            = Ok r w') :
  let N := Z.to_nat (Z.min (max_iteration_ criteria)
                           (max_validation_ criteria)) in
  let cands :=
    ransac_candidates source target corres max_correspondence_distance
      estimation ransac_n N 0
      (CorrespondenceSet_of_size ransac_n, RegistrationResult_default)
      (seeded w) in
  length cands = N
  /\ Forall (fitted_candidate source target corres max_correspondence_distance
               estimation ransac_n) cands
  /\ (r = RegistrationResult_default \/ In r cands)
  /\ Forall (fun c => ~ replaces c r) cands.
Proof.
  unfold RegistrationRANSACBasedOnCorrespondence in Hrun.
  rewrite to_int_small in Hrun by (unfold size in *; lia).
  rewrite (dlt_zero_not_dle _ Hdist) in Hrun.
  replace (ransac_n <? 3) with false in Hrun
    by (symmetry; apply Z.ltb_ge; lia).
  replace (size corres <? ransac_n) with false in Hrun
    by (symmetry; apply Z.ltb_ge; lia).
  cbn [orb] in Hrun. invert_run Hrun.
  unfold time0 in Hrun0. inversion Hrun0; subst a w0. clear Hrun0.
  unfold do_srand in Hrun1. inversion Hrun1; subst a0 w1. clear Hrun1.
  apply ret_Ok in Hrun. destruct Hrun as [-> _].
  fold (seeded w) in Hrun2.
  apply ransac_loop_candidates in Hrun2; [| exact Hint |].
  2:{ cbn [fst]. unfold CorrespondenceSet_of_size, size.
      rewrite repeat_length. lia. }
  cbv zeta in Hrun2. rewrite Z.sub_0_r in Hrun2. cbn [snd] in Hrun2.
  destruct Hrun2 as [Hlen [Hfold [Hnn Hfit]]].
  cbv zeta. split; [exact Hlen |]. split; [exact Hfit |].
  rewrite Hfold. apply keep_best_fold_best. exact Hnn.
Qed.
Lemma ransac_sample_step_defined (corres : CorrespondenceSet) (j : Z)
    (ransac_corres : CorrespondenceSet) (w : World) :
  (forall s, 0 <= fst (rand s)) ->
  0 < size corres < 2 ^ 31 ->
  exists out w', ransac_sample_step corres j ransac_corres w = Ok out w'.
Proof.
  intros Hrand Hsize. unfold ransac_sample_step, bind, do_rand.
  pose proof (Hrand (rand_state w)) as Hr.
  destruct (rand (rand_state w)) as [r s]. cbn [fst] in Hr.
  rewrite to_int_small by lia. unfold int_rem.
  replace (size corres =? 0) with false by (symmetry; apply Z.eqb_neq; lia).
  cbn [defined].
  pose proof (Z.rem_bound_pos r (size corres) Hr ltac:(lia)) as Hk.
  assert (Hv : valid_index corres (Z.rem r (size corres))) by exact Hk.
  apply at_index_defined in Hv. destruct Hv as [c Hc]. rewrite Hc.
  cbn [defined]. eexists _, _. reflexivity.
Qed.

(** X16.  Correspondence-RANSAC has defined behaviour on valid arguments:
    if [rand()] is not negative, [Transform] keeps the number of points,
    every pair of [corres] names an existing source and target point, and
    the arguments pass the entry test, then the driver with fuel for
    [min(max_iteration, max_validation)] iterations returns a result (the
    remainder never divides by zero, no index is out of range). *)
Theorem ransac_correspondence_has_defined_behaviour
    (Hrand : forall s, 0 <= fst (rand s))
    (HT : forall T pcd,
        length (points_ (Transform T pcd)) = length (points_ pcd))
    (fuel : nat) (source target : PointCloud) (corres : CorrespondenceSet)
    (max_correspondence_distance : double)
    (estimation : TransformationEstimation) (ransac_n : Z)
    (criteria : RANSACConvergenceCriteria) (w : World)
    (Hn : 3 <= ransac_n) (Hsize : ransac_n <= size corres)
    (Hint : size corres < 2 ^ 31)
    (Hdist : dlt Double.zero max_correspondence_distance)
    (Hvalid : forall c, In c corres ->
        0 <= fst c < size (points_ source)
        /\ 0 <= snd c < size (points_ target))
    (Hfuel : (Z.to_nat (Z.min (max_iteration_ criteria)
                             (max_validation_ criteria)) <= fuel)%nat) :
  exists r w',
    RegistrationRANSACBasedOnCorrespondence fuel source target corres
      max_correspondence_distance estimation ransac_n criteria w
    = Ok r w'.
Proof.
  assert (Hbody : forall itr st w0,
             exists out w1,
               ransac_body source target corres max_correspondence_distance
                 estimation ransac_n itr st w0 = Ok out w1).
  { intros itr [rc res] w0. unfold ransac_body.
    destruct (for_upto_Ok (fun _ => True) (ransac_sample_step corres)
                ltac:(intros j s w1 _;
                      destruct (ransac_sample_step_defined corres j s w1
                                  Hrand ltac:(lia)) as [o [w2 E]];
                      exists o, w2; split; [exact E | exact I])
                (Z.to_nat (ransac_n - 0)) 0 rc w0 I) as [s [w1 Es]].
    unfold for_range. unfold bind at 1. rewrite Es.
    set (T := ComputeTransformation estimation source target s).
    assert (Hdef : exists cand,
               EvaluateRANSACBasedOnCorrespondence (Transform T source)
                 target corres max_correspondence_distance T = Some cand).
    { apply scorer_defined. apply Forall_forall. intros c Hc.
      unfold valid_pair, valid_index, size. rewrite HT.
      exact (Hvalid c Hc). }
    destruct Hdef as [cand Ec]. unfold bind. rewrite Ec. cbn [defined].
    destruct (_ || _); eexists _, _; reflexivity. }
  unfold RegistrationRANSACBasedOnCorrespondence.
  rewrite to_int_small by (unfold size in *; lia).
  rewrite (dlt_zero_not_dle _ Hdist).
  replace (ransac_n <? 3) with false by (symmetry; apply Z.ltb_ge; lia).
  replace (size corres <? ransac_n) with false
    by (symmetry; apply Z.ltb_ge; lia).
  cbn [orb]. unfold bind at 1 2. unfold time0, do_srand.
  unfold bind at 1.
  rewrite (for_loop_counted _ _
             (Z.to_nat (Z.min (max_iteration_ criteria)
                              (max_validation_ criteria)))).
  - match goal with
    | |- context [for_upto ?n ?i ?b ?s ?w0] =>
        destruct (for_upto_Ok (fun _ => True) b
                    ltac:(intros j st w0' _;
                          destruct (Hbody j st w0') as [o [w1 E]];
                          unfold bind; rewrite E; eexists _, _;
                          split; [reflexivity | exact I])
                    n i s w0 I) as [st [w1 E]]
    end.
    rewrite E. eexists _, _. reflexivity.
  - intros j s w0 out w' H. destruct s as [rc res].
    apply ransac_body_Ok in H. destruct H as [? [? [_ [_ ->]]]].
    reflexivity.
  - intros k Hk. apply andb_true_iff. split; apply Z.ltb_lt; lia.
  - apply andb_false_iff.
    destruct (Z.le_ge_cases (max_iteration_ criteria)
                            (max_validation_ criteria));
      [left | right]; apply Z.ltb_ge; lia.
  - exact Hfuel.
Qed.

Lemma draws_add (n m : nat) (s : RandState) :
  draws (n + m) s = draws n (draws m s).
Proof. unfold draws. apply Nat.iter_add. Qed.

Lemma ransac_loop_effects (source target : PointCloud)
    (corres : CorrespondenceSet) (max_correspondence_distance : double)
    (estimation : TransformationEstimation) (ransac_n : Z)
    (criteria : RANSACConvergenceCriteria) (fuel : nat) :
  forall (itr : Z) (st : RANSACState) (w : World) (st' : RANSACState)
         (w' : World),
    for_loop fuel
      (fun itr => (itr <? max_iteration_ criteria)
                  && (itr <? max_validation_ criteria))
      (ransac_body source target corres max_correspondence_distance
         estimation ransac_n) itr st w = Ok st' w' ->
    rand_state w'
    = draws (Z.to_nat (Z.min (max_iteration_ criteria)
                             (max_validation_ criteria) - itr)
             * Z.to_nat ransac_n) (rand_state w)
    /\ wall_clock w' = wall_clock w
    /\ debug_log w' = debug_log w.
Proof.
  induction fuel as [| fuel IH]; intros itr st w st' w' H; cbn [for_loop] in H;
    destruct ((itr <? max_iteration_ criteria)
              && (itr <? max_validation_ criteria)) eqn:Ec;
    try discriminate.
  - apply ret_Ok in H. destruct H as [_ ->].
    apply andb_false_iff in Ec.
    replace (Z.to_nat (Z.min (max_iteration_ criteria)
                             (max_validation_ criteria) - itr)) with 0%nat
      by (destruct Ec as [Ec | Ec]; apply Z.ltb_ge in Ec; lia).
    repeat split.
  - apply andb_true_iff in Ec. destruct Ec as [E1 E2].
    apply Z.ltb_lt in E1. apply Z.ltb_lt in E2.
    invert_run H. destruct st as [rc res].
    apply ransac_body_Ok in Hrun. destruct Hrun as [s [cand [Hs [_ ->]]]].
    cbn [fst snd] in H.
    unfold for_range in Hs. apply ransac_sampling_Ok in Hs.
    destruct Hs as [Hr [Hc [Hl _]]].
    apply IH in H. destruct H as [Hr' [Hc' Hl']].
    split; [| split; congruence].
    rewrite Hr', Hr, <- draws_add. f_equal.
    replace (Z.to_nat (Z.min (max_iteration_ criteria)
                             (max_validation_ criteria) - itr))
      with (S (Z.to_nat (Z.min (max_iteration_ criteria)
                               (max_validation_ criteria) - (itr + 1))))
      by lia.
    replace (ransac_n - 0) with ransac_n by lia.
    cbn [Nat.mul]. lia.
  - apply ret_Ok in H. destruct H as [_ ->].
    apply andb_false_iff in Ec.
    replace (Z.to_nat (Z.min (max_iteration_ criteria)
                             (max_validation_ criteria) - itr)) with 0%nat
      by (destruct Ec as [Ec | Ec]; apply Z.ltb_ge in Ec; lia).
    repeat split.
Qed.

(** X17.  What a run of correspondence-RANSAC on accepted arguments does to
    the world: it reseeds the generator from the clock and draws exactly
    [min(max_iteration, max_validation) * ransac_n] numbers from it, it
    leaves the clock alone, and it prints one message, the summary with
    the fitness and the RMSE of the returned result. *)
Theorem ransac_correspondence_effects
    (fuel : nat) (source target : PointCloud) (corres : CorrespondenceSet)
    (max_correspondence_distance : double)
    (estimation : TransformationEstimation) (ransac_n : Z)
    (criteria : RANSACConvergenceCriteria) (w w' : World)
    (r : RegistrationResult)
    (Hn : 3 <= ransac_n) (Hsize : ransac_n <= size corres)
    (Hint : size corres < 2 ^ 31)
    (Hdist : dlt Double.zero max_correspondence_distance)
    (Hrun : RegistrationRANSACBasedOnCorrespondence fuel source target corres
              max_correspondence_distance estimation ransac_n criteria w
            = Ok r w') :
  rand_state w'
  = draws (Z.to_nat (Z.min (max_iteration_ criteria)
                           (max_validation_ criteria))
           * Z.to_nat ransac_n)
      (srand (to_unsigned (wall_clock w)))
  /\ wall_clock w' = wall_clock w
  /\ debug_log w'
     = RANSAC_Fitness (fitness_ r) (inlier_rmse_ r) :: debug_log w.
Proof.
  unfold RegistrationRANSACBasedOnCorrespondence in Hrun.
  rewrite to_int_small in Hrun by (unfold size in *; lia).
  rewrite (dlt_zero_not_dle _ Hdist) in Hrun.
  replace (ransac_n <? 3) with false in Hrun
    by (symmetry; apply Z.ltb_ge; lia).
  replace (size corres <? ransac_n) with false in Hrun
    by (symmetry; apply Z.ltb_ge; lia).
  cbn [orb] in Hrun. invert_run Hrun.
  unfold time0 in Hrun0. inversion Hrun0; subst a w0. clear Hrun0.
  unfold do_srand in Hrun1. inversion Hrun1; subst a0 w1. clear Hrun1.
  apply ransac_loop_effects in Hrun2. cbn [rand_state wall_clock debug_log]
    in Hrun2.
  destruct Hrun2 as [Hr [Hc Hl]].
  apply PrintDebug_Ok in Hrun3. destruct Hrun3 as [Hr3 [Hc3 Hl3]].
  apply ret_Ok in Hrun. destruct Hrun as [-> ->].
  rewrite Z.sub_0_r in Hr.
  split; [congruence |]. split; [congruence |]. rewrite Hl3, Hl. reflexivity.
Qed.

End SampleAndBest.

Lemma reference_rand_nonneg (s : Z) : 0 <= fst (Reference.lcg s).
Proof.
  unfold Reference.lcg. cbn [fst].
  apply Z.mod_pos_bound. reflexivity.
Qed.

Lemma reference_Transform_length (T : Reference.Mat4) (pcd : PointCloud) :
  length (points_ (Reference.TransformPoints T pcd)) = length (points_ pcd).
Proof. apply length_map. Qed.

(** The first iteration on three correspondences. *)
Lemma ransac_sample_is_drawn_from_corres_witness :
  size Examples.step_sampled = 3
  /\ Forall (fun c => In c Examples.three_corres) Examples.step_sampled
  /\ exists cand,
      EvaluateRANSACBasedOnCorrespondence
        (Transform
           (ComputeTransformation Examples.identity_estimation
              Examples.two_points Examples.two_points Examples.step_sampled)
           Examples.two_points)
        Examples.two_points Examples.three_corres Double.one
        (ComputeTransformation Examples.identity_estimation
           Examples.two_points Examples.two_points Examples.step_sampled)
      = Some cand.
Proof.
  exact (ransac_sample_is_drawn_from_corres Examples.two_points
           Examples.two_points Examples.three_corres Double.one
           Examples.identity_estimation 3 0 (CorrespondenceSet_of_size 3)
           RegistrationResult_default Examples.world Examples.step_world
           (Next, (Examples.step_sampled, Examples.step_result))
           eq_refl ransac_step_eq).
Defined.

(** The run of two iterations on three correspondences: both candidates
    are the identity with 2 inliers out of 3, the first one is returned. *)
Lemma ransac_correspondence_returns_a_best_candidate_witness :
  length
    (ransac_candidates Examples.two_points Examples.two_points
       Examples.three_corres Double.one Examples.identity_estimation 3 2 0
       (CorrespondenceSet_of_size 3, RegistrationResult_default)
       (seeded Examples.world)) = 2%nat
  /\ Forall (fitted_candidate Examples.two_points Examples.two_points
               Examples.three_corres Double.one Examples.identity_estimation
               3)
       (ransac_candidates Examples.two_points Examples.two_points
          Examples.three_corres Double.one Examples.identity_estimation 3 2 0
          (CorrespondenceSet_of_size 3, RegistrationResult_default)
          (seeded Examples.world))
  /\ (Examples.ransac_result = RegistrationResult_default
      \/ In Examples.ransac_result
           (ransac_candidates Examples.two_points Examples.two_points
              Examples.three_corres Double.one Examples.identity_estimation
              3 2 0
              (CorrespondenceSet_of_size 3, RegistrationResult_default)
              (seeded Examples.world)))
  /\ Forall (fun c => ~ replaces c Examples.ransac_result)
       (ransac_candidates Examples.two_points Examples.two_points
          Examples.three_corres Double.one Examples.identity_estimation 3 2 0
          (CorrespondenceSet_of_size 3, RegistrationResult_default)
          (seeded Examples.world)).
Proof.
  exact (ransac_correspondence_returns_a_best_candidate 2 Examples.two_points
           Examples.two_points Examples.three_corres Double.one
           Examples.identity_estimation 3 (Examples.ransac_criteria 2 5)
           Examples.world Examples.ransac_world Examples.ransac_result
           ltac:(lia) ltac:(vm_compute; discriminate) eq_refl eq_refl
           ransac_run_eq).
Defined.

(** Three correspondences between two points, over the reference
    collaborators. *)
Lemma ransac_correspondence_has_defined_behaviour_witness :
  exists r w',
    RegistrationRANSACBasedOnCorrespondence 2 Examples.two_points
      Examples.two_points Examples.three_corres Double.one
      Examples.identity_estimation 3 (Examples.ransac_criteria 2 5)
      Examples.world = Ok r w'.
Proof.
  apply (ransac_correspondence_has_defined_behaviour
           (collaborators := Reference.collaborators)
           reference_rand_nonneg reference_Transform_length).
  - lia.
  - reflexivity.
  - reflexivity.
  - reflexivity.
  - intros c [<- | [<- | [<- | []]]]; split; split; reflexivity || discriminate.
  - cbn. lia.
Defined.

(** Two iterations with samples of three: six draws, one message. *)
Lemma ransac_correspondence_effects_witness :
  rand_state Examples.ransac_world
  = draws (2 * 3) (srand (to_unsigned (wall_clock Examples.world)))
  /\ wall_clock Examples.ransac_world = wall_clock Examples.world
  /\ debug_log Examples.ransac_world
     = RANSAC_Fitness (fitness_ Examples.ransac_result)
         (inlier_rmse_ Examples.ransac_result)
       :: debug_log Examples.world.
Proof.
  exact (ransac_correspondence_effects 2 Examples.two_points
           Examples.two_points Examples.three_corres Double.one
           Examples.identity_estimation 3 (Examples.ransac_criteria 2 5)
           Examples.world Examples.ransac_world Examples.ransac_result
           ltac:(lia) ltac:(vm_compute; discriminate) eq_refl eq_refl
           ransac_run_eq).
Defined.

(** ** Feature-RANSAC: edge cases, the best candidate *)

Lemma div_of_Z_positive (n m : Z) :
  1 <= n < 2 ^ 53 -> 1 <= m < 2 ^ 53 ->
  (Double.zero <? Double.of_Z n / Double.of_Z m)%double = true.
Proof.
  intros Hn Hm.
  destruct (DoubleFacts.SFdiv_of_Z_shape n m Hn Hm) as [m2 [e2 [E _]]].
  rewrite E. reflexivity.
Qed.

Lemma positive_not_below_zero (x : double) :
  dlt Double.zero x ->
  (x <? Double.zero)%double = false /\ (Double.zero =? x)%double = false.
Proof.
  unfold dlt.
  destruct x as [[] | [] | | [] m e]; intros H; try discriminate H;
    split; reflexivity.
Qed.

Section FeatureEdges.

Context {collaborators : Collaborators}.

(** X18.  With [max_iteration <= 0] feature-RANSAC on accepted arguments
    returns the default result, yet it has reseeded the generator from
    the clock and printed the summary message with fitness 0 and RMSE
    0. *)
Theorem feature_ransac_without_iterations_returns_default
    (source target : PointCloud) (source_feature target_feature : Feature)
    (max_correspondence_distance : double)
    (estimation : TransformationEstimation) (ransac_n : Z)
    (checkers : list CorrespondenceChecker)
    (criteria : RANSACConvergenceCriteria) (w : World)
    (Hn : 3 <= ransac_n)
    (Hdist : dlt Double.zero max_correspondence_distance)
    (Hcap : max_iteration_ criteria <= 0) :
  RegistrationRANSACBasedOnFeatureMatching source target source_feature
    target_feature max_correspondence_distance estimation ransac_n checkers
    criteria w
  = Ok RegistrationResult_default
       {| rand_state := srand (to_unsigned (wall_clock w));
          wall_clock := wall_clock w;
          debug_log := RANSAC_Fitness Double.zero Double.zero :: debug_log w |}.
Proof.
  unfold RegistrationRANSACBasedOnFeatureMatching.
  rewrite (dlt_zero_not_dle _ Hdist).
  replace (ransac_n <? 3) with false by (symmetry; apply Z.ltb_ge; lia).
  cbn [orb]. unfold for_range.
  replace (Z.to_nat (max_iteration_ criteria - 0)) with 0%nat by lia.
  reflexivity.
Qed.

Lemma feature_sample_step_empty_source (source : PointCloud)
    (source_feature : Feature) (kdtree_feature : KDTreeFlann) (j : Z)
    (st : SampleState) (w : World) :
  points_ source = [] ->
  feature_sample_step source source_feature kdtree_feature j st w = Undefined.
Proof.
  intros Hs. unfold feature_sample_step. destruct st as [[rc indices] dists].
  rewrite Hs. unfold bind at 1. unfold do_rand.
  destruct (rand (rand_state w)) as [r s]. reflexivity.
Qed.

(** X19.  Feature-RANSAC on a source without points is undefined
    behaviour as soon as one iteration runs: the first sample computes
    [rand() % (int)source.points_.size()], a remainder by zero.  The entry
    test does not look at the source. *)
Theorem feature_ransac_empty_source_is_undefined
    (source target : PointCloud) (source_feature target_feature : Feature)
    (max_correspondence_distance : double)
    (estimation : TransformationEstimation) (ransac_n : Z)
    (checkers : list CorrespondenceChecker)
    (criteria : RANSACConvergenceCriteria) (w : World)
    (Hempty : points_ source = [])
    (Hn : 3 <= ransac_n)
    (Hdist : dlt Double.zero max_correspondence_distance)
    (Hcap : 1 <= max_iteration_ criteria) :
  RegistrationRANSACBasedOnFeatureMatching source target source_feature
    target_feature max_correspondence_distance estimation ransac_n checkers
    criteria w
  = Undefined.
Proof.
  unfold RegistrationRANSACBasedOnFeatureMatching.
  rewrite (dlt_zero_not_dle _ Hdist).
  replace (ransac_n <? 3) with false by (symmetry; apply Z.ltb_ge; lia).
  cbn [orb]. unfold for_range.
  destruct (Z.to_nat (max_iteration_ criteria - 0)) as [| k] eqn:Ek; [lia |].
  destruct (Z.to_nat (ransac_n - 0)) as [| k'] eqn:Ek'; [lia |].
  unfold bind at 1 2. unfold time0, do_srand.
  unfold bind at 1. cbn [for_upto].
  unfold bind at 1. unfold feature_body at 1. cbn [negb].
  unfold for_range. rewrite Ek'. cbn [for_upto].
  unfold bind at 1 2.
  rewrite (feature_sample_step_empty_source _ _ _ _ _ _ Hempty).
  reflexivity.
Qed.

Lemma run_checkers_rejecting (checkers : list CorrespondenceChecker)
    (checker : CorrespondenceChecker) (source target : PointCloud)
    (ransac_corres : CorrespondenceSet) (transformation : Matrix4d) :
  In checker checkers ->
  Check checker source target ransac_corres transformation = false ->
  run_checkers (require_pointcloud_alignment_ checker) checkers source target
    ransac_corres transformation = false.
Proof.
  intros Hin Hc. unfold run_checkers. apply negb_false_iff.
  apply existsb_exists. exists checker. split; [exact Hin |].
  rewrite Hc, eqb_reflx. reflexivity.
Qed.

(** X20.  If one of the checkers answers [false] on every sample
    (whether or not it requires the alignment), no candidate is ever
    scored and feature-RANSAC returns the default result. *)
Theorem feature_ransac_rejecting_checker_returns_default
    (source target : PointCloud) (source_feature target_feature : Feature)
    (max_correspondence_distance : double)
    (estimation : TransformationEstimation) (ransac_n : Z)
    (checkers : list CorrespondenceChecker)
    (criteria : RANSACConvergenceCriteria) (w w' : World)
    (r : RegistrationResult) (checker : CorrespondenceChecker)
    (Hin : In checker checkers)
    (Hreject : forall ransac_corres transformation,
        Check checker source target ransac_corres transformation = false)
    (Hrun : RegistrationRANSACBasedOnFeatureMatching source target
              source_feature target_feature max_correspondence_distance
              estimation ransac_n checkers criteria w = Ok r w') :
  r = RegistrationResult_default.
Proof.
  destruct ((ransac_n <? 3)
            || (max_correspondence_distance <=? Double.zero)%double)
    eqn:Evalid.
  - unfold RegistrationRANSACBasedOnFeatureMatching in Hrun.
    rewrite Evalid in Hrun. apply ret_Ok in Hrun. destruct Hrun as [-> _].
    reflexivity.
  - destruct (feature_driver_Ok _ _ _ _ _ _ _ _ _ _ _ _ Evalid Hrun)
      as [st [w1 [Hloop [Hr _]]]].
    assert (Hst : snd (fst (fst st)) = RegistrationResult_default).
    { refine (for_upto_invariant
                (fun st : FeatureState =>
                   snd (fst (fst st)) = RegistrationResult_default)
                _ _ _ _ _ _ _ _ _ Hloop); [| reflexivity].
      intros i [[[rc rp] tv] fin] wa out wb Hp Hb. cbn [fst snd] in Hp.
      apply feature_body_Ok in Hb.
      destruct Hb as [[_ [-> _]] | [_ [s [_ Hb]]]]; [exact Hp |].
      cbv zeta in Hb.
      destruct Hb as [[-> _] | [Hpre [Hpost _]]]; [exact Hp |].
      exfalso.
      pose proof (run_checkers_rejecting checkers checker source target
                    (fst (fst s)) Matrix4d_uninitialized Hin
                    (Hreject _ _)) as H1.
      pose proof (run_checkers_rejecting checkers checker source target
                    (fst (fst s))
                    (ComputeTransformation estimation source target
                       (fst (fst s))) Hin (Hreject _ _)) as H2.
      destruct (require_pointcloud_alignment_ checker); congruence. }
    rewrite Hr, Hst. reflexivity.
Qed.

Lemma feature_body_validation_cap (source target : PointCloud)
    (source_feature : Feature) (kdtree kdtree_feature : KDTreeFlann)
    (max_correspondence_distance : double)
    (estimation : TransformationEstimation) (ransac_n : Z)
    (checkers : list CorrespondenceChecker)
    (max_iteration max_validation : Z) (itr : Z) (st : FeatureState)
    (w : World) :
  max_validation <= 1 ->
  snd st = true \/ snd (fst st) = 0 ->
  feature_body source target source_feature kdtree kdtree_feature
    max_correspondence_distance estimation ransac_n checkers
    {| max_iteration_ := max_iteration; max_validation_ := max_validation |}
    itr st w
  = feature_body source target source_feature kdtree kdtree_feature
      max_correspondence_distance estimation ransac_n checkers
      {| max_iteration_ := max_iteration; max_validation_ := 1 |}
      itr st w.
Proof.
  intros Hmv Hinv. destruct st as [[[rc rp] tv] fin]. cbn [fst snd] in Hinv.
  unfold feature_body. destruct fin; [reflexivity |].
  destruct Hinv as [Hinv | ->]; [discriminate |].
  cbn [negb max_validation_]. apply bind_ext. intros sampled w1 _.
  destruct (Bool.eqb _ false); [reflexivity |].
  destruct (Bool.eqb _ false); [reflexivity |].
  apply bind_ext. intros cand w2 _.
  replace (max_validation <=? 0 + 1) with true
    by (symmetry; apply Z.leb_le; lia).
  reflexivity.
Qed.

Lemma feature_body_keeps_validation_state (source target : PointCloud)
    (source_feature : Feature) (kdtree kdtree_feature : KDTreeFlann)
    (max_correspondence_distance : double)
    (estimation : TransformationEstimation) (ransac_n : Z)
    (checkers : list CorrespondenceChecker)
    (criteria : RANSACConvergenceCriteria) (itr : Z) (st st' : FeatureState)
    (w w' : World) :
  max_validation_ criteria <= 1 ->
  snd st = true \/ snd (fst st) = 0 ->
  feature_body source target source_feature kdtree kdtree_feature
    max_correspondence_distance estimation ransac_n checkers criteria
    itr st w = Ok st' w' ->
  snd st' = true \/ snd (fst st') = 0.
Proof.
  intros Hmv Hinv H. destruct st as [[[rc rp] tv] fin]. cbn [fst snd] in Hinv.
  apply feature_body_Ok in H.
  destruct H as [[_ [-> _]] | [Hfin [s [_ H]]]]; [exact Hinv |].
  cbv zeta in H.
  destruct H as [[-> _] | [_ [_ [cand [_ ->]]]]]; [exact Hinv |].
  cbn [fst snd]. left. subst fin.
  destruct Hinv as [Hinv | ->]; [discriminate |].
  replace (max_validation_ criteria <=? 0 + 1) with true
    by (symmetry; apply Z.leb_le; lia).
  reflexivity.
Qed.

Lemma feature_loop_validation_cap (source target : PointCloud)
    (source_feature : Feature) (kdtree kdtree_feature : KDTreeFlann)
    (max_correspondence_distance : double)
    (estimation : TransformationEstimation) (ransac_n : Z)
    (checkers : list CorrespondenceChecker)
    (max_iteration max_validation : Z) :
  max_validation <= 1 ->
  forall (n : nat) (i : Z) (st : FeatureState) (w : World),
    snd st = true \/ snd (fst st) = 0 ->
    for_upto n i
      (feature_body source target source_feature kdtree kdtree_feature
         max_correspondence_distance estimation ransac_n checkers
         {| max_iteration_ := max_iteration;
            max_validation_ := max_validation |}) st w
    = for_upto n i
        (feature_body source target source_feature kdtree kdtree_feature
           max_correspondence_distance estimation ransac_n checkers
           {| max_iteration_ := max_iteration; max_validation_ := 1 |}) st w.
Proof.
  intros Hmv. induction n as [| n IH]; intros i st w Hinv; cbn [for_upto];
    [reflexivity |].
  unfold bind.
  rewrite (feature_body_validation_cap _ _ _ _ _ _ _ _ _ max_iteration
             max_validation i st w Hmv Hinv).
  destruct (feature_body source target source_feature kdtree kdtree_feature
              max_correspondence_distance estimation ransac_n checkers
              {| max_iteration_ := max_iteration; max_validation_ := 1 |}
              i st w) as [st1 w1 | |] eqn:E; [| reflexivity ..].
  apply IH.
  eapply feature_body_keeps_validation_state; [| exact Hinv | exact E].
  cbn [max_validation_]. lia.
Qed.

(** X21.  In feature-RANSAC the validation cap is tested only after a
    validation has been counted, so every [max_validation <= 1] (zero and
    the negative numbers included) acts as [max_validation = 1]: the same
    outcome in the same world. *)
Theorem feature_ransac_validation_cap_below_one_acts_as_one
    (source target : PointCloud) (source_feature target_feature : Feature)
    (max_correspondence_distance : double)
    (estimation : TransformationEstimation) (ransac_n : Z)
    (checkers : list CorrespondenceChecker)
    (max_iteration max_validation : Z) (w : World)
    (Hcap : max_validation <= 1) :
  RegistrationRANSACBasedOnFeatureMatching source target source_feature
    target_feature max_correspondence_distance estimation ransac_n checkers
    {| max_iteration_ := max_iteration; max_validation_ := max_validation |} w
  = RegistrationRANSACBasedOnFeatureMatching source target source_feature
      target_feature max_correspondence_distance estimation ransac_n checkers
      {| max_iteration_ := max_iteration; max_validation_ := 1 |} w.
Proof.
  unfold RegistrationRANSACBasedOnFeatureMatching.
  destruct (_ || _); [reflexivity |].
  cbn [max_iteration_]. unfold for_range.
  apply bind_ext. intros now w1 _.
  apply bind_ext. intros u w2 _.
  unfold bind at 1 3.
  rewrite (feature_loop_validation_cap source target source_feature
             (KDTreeFlann_of_PointCloud target)
             (KDTreeFlann_of_Feature target_feature)
             max_correspondence_distance estimation ransac_n checkers
             max_iteration max_validation Hcap)
    by (right; reflexivity).
  reflexivity.
Qed.

Lemma feature_sample_step_defined (source : PointCloud)
    (source_feature : Feature) (kdtree_feature : KDTreeFlann) (j : Z)
    (st : SampleState) (w : World) :
  (forall s, 0 <= fst (rand s)) ->
  0 < size (points_ source) < 2 ^ 31 ->
  size (points_ source) <= size (data_ source_feature) ->
  (forall column indices dists,
     knn_filled (SearchKNN kdtree_feature column 1 indices dists) = true) ->
  valid_index (fst (fst st)) j ->
  exists st' w',
    feature_sample_step source source_feature kdtree_feature j st w
    = Ok st' w'
    /\ length (fst (fst st')) = length (fst (fst st)).
Proof.
  intros Hrand Hsize Hcols Hknn Hj. destruct st as [[rc indices] dists].
  cbn [fst snd] in *. unfold feature_sample_step, bind, do_rand.
  pose proof (Hrand (rand_state w)) as Hr.
  destruct (rand (rand_state w)) as [r s]. cbn [fst] in Hr.
  rewrite to_int_small by lia. unfold int_rem.
  replace (size (points_ source) =? 0) with false
    by (symmetry; apply Z.eqb_neq; lia).
  cbn [defined].
  pose proof (Z.rem_bound_pos r (size (points_ source)) Hr ltac:(lia)) as Hk.
  apply at_index_defined in Hj. destruct Hj as [c Hc]. rewrite Hc.
  cbn [defined].
  assert (Hv : valid_index (data_ source_feature)
                 (Z.rem r (size (points_ source))))
    by (unfold valid_index; lia).
  apply at_index_defined in Hv. destruct Hv as [col Hcol]. rewrite Hcol.
  cbn [defined].
  specialize (Hknn col indices dists). unfold knn_filled in Hknn.
  destruct (SearchKNN kdtree_feature col 1 indices dists) as [[k idx] ds].
  destruct (k =? 0).
  - unfold PrintDebug, ret. eexists _, _. split; [reflexivity |].
    cbn [fst]. rewrite !set_index_length. reflexivity.
  - cbn [orb] in Hknn. destruct (at_index idx 0) as [t |]; [| discriminate].
    cbn [defined]. unfold ret. eexists _, _. split; [reflexivity |].
    cbn [fst]. rewrite !set_index_length. reflexivity.
Qed.

Lemma feature_sampling_defined (source : PointCloud)
    (source_feature : Feature) (kdtree_feature : KDTreeFlann) :
  (forall s, 0 <= fst (rand s)) ->
  0 < size (points_ source) < 2 ^ 31 ->
  size (points_ source) <= size (data_ source_feature) ->
  (forall column indices dists,
     knn_filled (SearchKNN kdtree_feature column 1 indices dists) = true) ->
  forall (k : nat) (j : Z) (st : SampleState) (w : World),
    0 <= j -> j + Z.of_nat k <= size (fst (fst st)) ->
    exists st' w',
      for_upto k j (feature_sample_step source source_feature kdtree_feature)
        st w = Ok st' w'
      /\ length (fst (fst st')) = length (fst (fst st)).
Proof.
  intros Hrand Hsize Hcols Hknn.
  induction k as [| k IH]; intros j st w Hj Hk; cbn [for_upto].
  - eexists _, _. split; reflexivity.
  - destruct (feature_sample_step_defined source source_feature
                kdtree_feature j st w Hrand Hsize Hcols Hknn
                ltac:(unfold valid_index; lia)) as [st1 [w1 [E Hlen]]].
    unfold bind. rewrite E.
    destruct (IH (j + 1) st1 w1 ltac:(lia)
                ltac:(unfold size in *; rewrite Hlen; lia))
      as [st2 [w2 [E2 Hlen2]]].
    exists st2, w2. split; [exact E2 | congruence].
Qed.

(** X22.  Feature-RANSAC has defined behaviour when [rand()] is not
    negative, the source has between 1 and [2^31 - 1] points,
    [source_feature] has a column for every source point, the feature
    search leaves a first index whenever its count is not 0 and the
    hybrid search fills its buffers on a hit: it then returns a result,
    for every target, estimation, checkers and criteria. *)
Theorem feature_ransac_has_defined_behaviour
    (Hrand : forall s, 0 <= fst (rand s))
    (source target : PointCloud) (source_feature target_feature : Feature)
    (max_correspondence_distance : double)
    (estimation : TransformationEstimation) (ransac_n : Z)
    (checkers : list CorrespondenceChecker)
    (criteria : RANSACConvergenceCriteria) (w : World)
    (Hsource : 0 < size (points_ source) < 2 ^ 31)
    (Hcolumns : size (points_ source) <= size (data_ source_feature))
    (Hknn : forall column indices dists,
       knn_filled (SearchKNN (KDTreeFlann_of_Feature target_feature) column 1
                     indices dists) = true)
    (Hsearch : forall p,
       buffers_filled (SearchHybrid (KDTreeFlann_of_PointCloud target) p
                         max_correspondence_distance 1 [0] [Double.zero])
       = true) :
  exists r w',
    RegistrationRANSACBasedOnFeatureMatching source target source_feature
      target_feature max_correspondence_distance estimation ransac_n checkers
      criteria w = Ok r w'.
Proof.
  unfold RegistrationRANSACBasedOnFeatureMatching.
  destruct ((ransac_n <? 3)
            || (max_correspondence_distance <=? Double.zero)%double)
    eqn:Evalid; [eexists _, _; reflexivity |].
  apply orb_false_iff in Evalid. destruct Evalid as [Hn _].
  apply Z.ltb_ge in Hn.
  assert (Hbody : forall itr (st : FeatureState) w0,
             size (fst (fst (fst st))) = ransac_n ->
             exists st' w1,
               feature_body source target source_feature
                 (KDTreeFlann_of_PointCloud target)
                 (KDTreeFlann_of_Feature target_feature)
                 max_correspondence_distance estimation ransac_n checkers
                 criteria itr st w0 = Ok st' w1
               /\ size (fst (fst (fst st'))) = ransac_n).
  { intros itr [[[rc rp] tv] fin] w0 Hlen. cbn [fst snd] in Hlen.
    unfold feature_body. destruct fin; cbn [negb].
    { eexists _, _. split; [reflexivity | exact Hlen]. }
    destruct (feature_sampling_defined source source_feature
                (KDTreeFlann_of_Feature target_feature) Hrand Hsource
                Hcolumns Hknn (Z.to_nat (ransac_n - 0)) 0
                (rc, [0], [Double.zero]) w0 ltac:(lia)
                ltac:(cbn [fst]; lia)) as [s [w1 [Es Hs]]].
    cbn [fst] in Hs. unfold for_range, bind at 1. rewrite Es.
    assert (Hlen' : size (fst (fst s)) = ransac_n)
      by (unfold size in *; lia).
    destruct (Bool.eqb _ false);
      [eexists _, _; split; [reflexivity | exact Hlen'] |].
    destruct (Bool.eqb _ false);
      [eexists _, _; split; [reflexivity | exact Hlen'] |].
    match goal with
    | |- context [GetRegistrationResultAndCorrespondences ?pcd ?t ?kd ?d ?T] =>
        destruct (evaluator_defined pcd t kd d T Hsearch) as [cand Ec]
    end.
    unfold bind. rewrite Ec. cbn [defined].
    eexists _, _. split; [reflexivity | exact Hlen']. }
  unfold bind at 1 2. unfold time0, do_srand. unfold for_range.
  unfold bind at 1.
  match goal with
  | |- context [for_upto ?n ?i ?b ?s ?w0] =>
      destruct (for_upto_Ok
                  (fun st : FeatureState =>
                     size (fst (fst (fst st))) = ransac_n) b
                  Hbody n i s w0) as [st [w1 E]]
  end.
  - cbn [fst]. unfold CorrespondenceSet_of_size, size.
    rewrite repeat_length. lia.
  - rewrite E. eexists _, _. reflexivity.
Qed.

Lemma default_or_fit_unfit_or_fit (r : RegistrationResult) :
  default_or_fit r -> unfit_or_fit r.
Proof.
  intros [-> | H]; [left; split; reflexivity | right; exact H].
Qed.

Lemma best_of_N_keeps_default_or_fit (cand best : RegistrationResult) :
  unfit_or_fit cand -> default_or_fit best ->
  default_or_fit
    (if (fitness_ best <? fitness_ cand)%double
        || ((fitness_ cand =? fitness_ best)%double
            && (inlier_rmse_ cand <? inlier_rmse_ best)%double)
     then cand else best).
Proof.
  intros Hc Hb.
  destruct ((fitness_ best <? fitness_ cand)%double
            || ((fitness_ cand =? fitness_ best)%double
                && (inlier_rmse_ cand <? inlier_rmse_ best)%double)) eqn:E;
    [| exact Hb].
  destruct Hc as [[Hf Hrm] | Hc]; [| right; exact Hc].
  exfalso. rewrite Hf, Hrm in E.
  destruct Hb as [-> | Hb].
  - discriminate E.
  - destruct (positive_not_below_zero _ Hb) as [H1 H2].
    rewrite H1, H2 in E. discriminate E.
Qed.

Lemma evaluator_unfit_or_fit (source target : PointCloud)
    (target_kdtree : KDTreeFlann) (max_correspondence_distance : double)
    (transformation : Matrix4d) (r : RegistrationResult) :
  size (points_ source) < 2 ^ 31 ->
  GetRegistrationResultAndCorrespondences source target target_kdtree
    max_correspondence_distance transformation = Some r ->
  unfit_or_fit r.
Proof.
  intros Hsize H.
  destruct (max_correspondence_distance <=? Double.zero)%double eqn:Ed.
  - unfold GetRegistrationResultAndCorrespondences in H. rewrite Ed in H.
    injection H as <-. left. split; reflexivity.
  - pose proof (evaluator_Some source target target_kdtree
                  max_correspondence_distance transformation r Hsize Ed H)
      as Hr.
    cbv zeta in Hr. destruct Hr as [_ [_ [Hnil Hcons]]].
    pose proof (hybrid_hits_length target_kdtree max_correspondence_distance
                  (points_ source) 0) as Hlen.
    fold (inliers source target_kdtree max_correspondence_distance) in Hlen.
    destruct (inliers source target_kdtree max_correspondence_distance)
      as [| h hits] eqn:Ehits.
    + left. exact (Hnil eq_refl).
    + right. destruct (Hcons ltac:(discriminate)) as [Hf _].
      unfold dlt. rewrite Hf.
      apply div_of_Z_positive; unfold size in *; cbn [length] in *; lia.
Qed.

Lemma hybrid_hits_nonneg (target_kdtree : KDTreeFlann)
    (max_correspondence_distance : double) :
  (forall p,
     hit_distance_nonneg (SearchHybrid target_kdtree p
                            max_correspondence_distance 1 [0] [Double.zero])
     = true) ->
  forall (l : list Vector3d) (i : Z),
    forallb Double.nonneg
      (map snd (flat_map (hybrid_hit target_kdtree
                            max_correspondence_distance) (enumerate i l)))
    = true.
Proof.
  intros Hsearch. induction l as [| a l IH]; intros i; [reflexivity |].
  cbn [enumerate flat_map]. rewrite map_app, forallb_app, IH, andb_true_r.
  unfold hybrid_hit. cbn [fst snd]. specialize (Hsearch a).
  unfold hit_distance_nonneg in Hsearch.
  destruct (SearchHybrid target_kdtree a max_correspondence_distance 1
              [0] [Double.zero]) as [[k indices] dists].
  destruct (0 <? k); [| reflexivity].
  destruct (at_index dists 0) as [d |]; [| reflexivity].
  destruct (at_index indices 0) as [j |]; [| reflexivity].
  cbn. rewrite Hsearch. reflexivity.
Qed.

Lemma evaluator_scores_nonneg (source target : PointCloud)
    (target_kdtree : KDTreeFlann) (max_correspondence_distance : double)
    (transformation : Matrix4d) (r : RegistrationResult) :
  size (points_ source) < 2 ^ 31 ->
  (forall p,
     hit_distance_nonneg (SearchHybrid target_kdtree p
                            max_correspondence_distance 1 [0] [Double.zero])
     = true) ->
  GetRegistrationResultAndCorrespondences source target target_kdtree
    max_correspondence_distance transformation = Some r ->
  scores_nonneg r.
Proof.
  intros Hsize Hsearch H.
  destruct (max_correspondence_distance <=? Double.zero)%double eqn:Ed.
  - unfold GetRegistrationResultAndCorrespondences in H. rewrite Ed in H.
    injection H as <-. split; reflexivity.
  - pose proof (evaluator_Some source target target_kdtree
                  max_correspondence_distance transformation r Hsize Ed H)
      as Hr.
    cbv zeta in Hr. destruct Hr as [_ [_ [Hnil Hcons]]].
    pose proof (hybrid_hits_length target_kdtree max_correspondence_distance
                  (points_ source) 0) as Hlen.
    pose proof (hybrid_hits_nonneg target_kdtree max_correspondence_distance
                  Hsearch (points_ source) 0) as Hnn.
    fold (inliers source target_kdtree max_correspondence_distance)
      in Hlen, Hnn.
    destruct (inliers source target_kdtree max_correspondence_distance)
      as [| h hits] eqn:Ehits.
    + destruct (Hnil eq_refl) as [Hf Hrm]. unfold scores_nonneg.
      rewrite Hf, Hrm. split; reflexivity.
    + destruct (Hcons ltac:(discriminate)) as [Hf Hrm]. unfold scores_nonneg.
      rewrite Hf, Hrm.
      assert (Hn : 1 <= size (h :: hits) <= size (points_ source))
        by (unfold size in *; cbn [length] in *; lia).
      split.
      * apply DoubleFacts.div_of_Z_nonneg; [lia |].
        apply DoubleFacts.of_Z_nonneg. lia.
      * apply DoubleFacts.sqrt_nonneg.
        apply DoubleFacts.div_of_Z_nonneg; [lia |].
        apply DoubleFacts.add_nonneg; [reflexivity |].
        apply sum_nonneg; [exact Hnn | reflexivity].
Qed.

Lemma keep_best_fold_default_or_fit (cands : list RegistrationResult) :
  forall best : RegistrationResult,
    Forall unfit_or_fit cands -> default_or_fit best ->
    default_or_fit (fold_left keep_best cands best).
Proof.
  induction cands as [| c cands IH]; intros best Hcs Hb; [exact Hb |].
  inversion Hcs as [| ? ? Hc Hcs']. subst. cbn [fold_left].
  apply IH; [exact Hcs' |].
  apply best_of_N_keeps_default_or_fit; assumption.
Qed.

Lemma feature_loop_candidates
    (HT : forall T pcd,
        length (points_ (Transform T pcd)) = length (points_ pcd))
    (source target : PointCloud) (source_feature : Feature)
    (kdtree_feature : KDTreeFlann) (max_correspondence_distance : double)
    (estimation : TransformationEstimation) (ransac_n : Z)
    (checkers : list CorrespondenceChecker)
    (criteria : RANSACConvergenceCriteria)
    (Hsource : size (points_ source) < 2 ^ 31)
    (Hsearch : forall p,
       hit_distance_nonneg
         (SearchHybrid (KDTreeFlann_of_PointCloud target) p
            max_correspondence_distance 1 [0] [Double.zero]) = true)
    (n : nat) :
  forall (itr : Z) (st : FeatureState) (w : World) (st' : FeatureState)
         (w' : World),
    for_upto n itr
      (feature_body source target source_feature
         (KDTreeFlann_of_PointCloud target) kdtree_feature
         max_correspondence_distance estimation ransac_n checkers criteria)
      st w = Ok st' w' ->
    let cands :=
      feature_candidates source target source_feature
        (KDTreeFlann_of_PointCloud target) kdtree_feature
        max_correspondence_distance estimation ransac_n checkers criteria
        n itr st w in
    snd (fst (fst st')) = fold_left keep_best cands (snd (fst (fst st)))
    /\ Forall scores_nonneg cands
    /\ Forall unfit_or_fit cands
    /\ Forall (evaluated_candidate source target max_correspondence_distance
                 estimation) cands.
Proof.
  induction n as [| n IH]; intros itr st w st' w' H; cbn [for_upto] in H.
  - apply ret_Ok in H. destruct H as [-> _]. cbn.
    repeat split; constructor.
  - invert_run H. pose proof Hrun as Hbody.
    apply IH in H. cbv zeta in H. destruct H as [Hfold [Hnn [Huf Hev]]].
    cbv zeta. cbn [feature_candidates]. rewrite Hbody.
    destruct st as [[[rc rp] tv] fin].
    apply feature_body_Ok in Hrun.
    destruct Hrun as [[-> [-> _]] | [-> [s [_ Hrun]]]].
    + cbn [snd negb andb fst]. cbn [fst snd] in Hfold.
      split; [exact Hfold |]. split; [exact Hnn |]. split; assumption.
    + cbv zeta in Hrun. cbn [snd negb andb].
      destruct Hrun as [[-> Hcheck] | [Hpre [Hpost [cand [Hc ->]]]]].
      * cbn [fst snd] in *.
        assert (Hno :
          run_checkers false checkers source target (fst (fst s))
            Matrix4d_uninitialized
          && run_checkers true checkers source target (fst (fst s))
               (ComputeTransformation estimation source target (fst (fst s)))
          = false).
        { destruct Hcheck as [-> | ->];
            [reflexivity | apply andb_false_r]. }
        rewrite Hno.
        split; [exact Hfold |]. split; [exact Hnn |]. split; assumption.
      * cbn [fst snd] in *. rewrite Hpre, Hpost, Hc. cbn [andb fold_left].
        assert (Hsz : size (points_
                        (Transform
                           (ComputeTransformation estimation source target
                              (fst (fst s))) source)) < 2 ^ 31)
          by (unfold size in *; rewrite HT; exact Hsource).
        split; [exact Hfold |].
        split.
        { constructor; [| exact Hnn].
          exact (evaluator_scores_nonneg _ _ _ _ _ _ Hsz Hsearch Hc). }
        split.
        { constructor; [| exact Huf].
          eapply evaluator_unfit_or_fit; [exact Hsz | exact Hc]. }
        constructor; [| exact Hev]. eexists. exact Hc.
Qed.

(** X23.  Feature-RANSAC returns a best candidate of its run.  On accepted
    arguments, when [Transform] keeps the number of points (fewer than
    [2^31]) and the hybrid search returns distances that are not negative,
    take the candidates that the iterations of a completed run have
    scored ([feature_candidates]: one for every iteration that starts
    before the validation is finished and whose sample no checker
    refuses, from the seeded generator on), each the Evaluator's score of
    a fitted transformation: the returned result is the default result or
    one of these candidates, and none of them would replace it under the
    best-of-N rule. *)
Theorem feature_ransac_returns_a_best_candidate
    (HT : forall T pcd,
        length (points_ (Transform T pcd)) = length (points_ pcd))
    (source target : PointCloud) (source_feature target_feature : Feature)
    (max_correspondence_distance : double)
    (estimation : TransformationEstimation) (ransac_n : Z)
    (checkers : list CorrespondenceChecker)
    (criteria : RANSACConvergenceCriteria) (w w' : World)
    (r : RegistrationResult)
    (Hn : 3 <= ransac_n)
    (Hdist : dlt Double.zero max_correspondence_distance)
    (Hsource : size (points_ source) < 2 ^ 31)
    (Hsearch : forall p,
       hit_distance_nonneg
         (SearchHybrid (KDTreeFlann_of_PointCloud target) p
            max_correspondence_distance 1 [0] [Double.zero]) = true)
    (Hrun : RegistrationRANSACBasedOnFeatureMatching source target
              source_feature target_feature max_correspondence_distance
              estimation ransac_n checkers criteria w = Ok r w') :
  let cands :=
    feature_candidates source target source_feature
      (KDTreeFlann_of_PointCloud target)
      (KDTreeFlann_of_Feature target_feature) max_correspondence_distance
      estimation ransac_n checkers criteria
      (Z.to_nat (max_iteration_ criteria)) 0
      (CorrespondenceSet_of_size ransac_n, RegistrationResult_default, 0,
       false)
      (seeded w) in
  Forall (evaluated_candidate source target max_correspondence_distance
            estimation) cands
  /\ (r = RegistrationResult_default \/ In r cands)
  /\ Forall (fun c => ~ replaces c r) cands.
Proof.
  assert (Evalid : (ransac_n <? 3)
                   || (max_correspondence_distance <=? Double.zero)%double
                   = false).
  { rewrite (dlt_zero_not_dle _ Hdist).
    replace (ransac_n <? 3) with false by (symmetry; apply Z.ltb_ge; lia).
    reflexivity. }
  destruct (feature_driver_Ok _ _ _ _ _ _ _ _ _ _ _ _ Evalid Hrun)
    as [st [w1 [Hloop [Hr _]]]].
  unfold for_range in Hloop. rewrite Z.sub_0_r in Hloop.
  apply (feature_loop_candidates HT) in Hloop;
    [| exact Hsource | exact Hsearch].
  cbv zeta in Hloop. cbn [fst snd] in Hloop.
  destruct Hloop as [Hfold [Hnn [Huf Hev]]].
  cbv zeta. split; [exact Hev |].
  pose proof (keep_best_fold_best _ Hnn) as Hbest.
  pose proof (keep_best_fold_default_or_fit _ RegistrationResult_default Huf
                ltac:(left; reflexivity)) as Hfit.
  rewrite <- Hfold in Hbest, Hfit.
  assert (Hsame : r = snd (fst (fst st))).
  { rewrite Hr.
    destruct ((fitness_ RegistrationResult_default
               <? fitness_ (snd (fst (fst st))))%double
              || ((fitness_ (snd (fst (fst st)))
                   =? fitness_ RegistrationResult_default)%double
                  && (inlier_rmse_ (snd (fst (fst st)))
                      <? inlier_rmse_ RegistrationResult_default)%double))
      eqn:E; [reflexivity |].
    destruct Hfit as [Hd | Hpos]; [symmetry; exact Hd |].
    exfalso. unfold dlt in Hpos.
    change (fitness_ RegistrationResult_default) with Double.zero in E.
    rewrite Hpos in E. discriminate E. }
  rewrite Hsame. exact Hbest.
Qed.
End FeatureEdges.

Lemma feature_run_eq :
  RegistrationRANSACBasedOnFeatureMatching Examples.two_points
    Examples.two_points Runs.features Runs.features Double.one
    Examples.identity_estimation 3 [] (Examples.ransac_criteria 2 5)
    Examples.world = Ok Runs.feature_result Runs.feature_world.
Proof. reflexivity. Qed.

Lemma refused_run_eq :
  RegistrationRANSACBasedOnFeatureMatching Examples.two_points
    Examples.two_points Runs.features Runs.features Double.one
    Examples.identity_estimation 3 [Runs.refusing_checker]
    (Examples.ransac_criteria 2 5) Examples.world
  = Ok RegistrationResult_default Runs.refused_world.
Proof. reflexivity. Qed.

Lemma reference_search_knn_fills (columns : list (list double))
    (query : list double) (indices : list Z) (dists : list double) :
  knn_filled (Reference.search_knn (Reference.FeatureTree columns) query 1
                indices dists) = true.
Proof.
  unfold Reference.search_knn.
  destruct (firstn _ _) as [| [d i] found]; reflexivity.
Qed.

(** [max_iteration = 0]: the world is reseeded and holds the summary. *)
Lemma feature_ransac_without_iterations_returns_default_witness :
  RegistrationRANSACBasedOnFeatureMatching Examples.two_points
    Examples.two_points Runs.features Runs.features Double.one
    Examples.identity_estimation 3 [] (Examples.ransac_criteria 0 5)
    Examples.world
  = Ok RegistrationResult_default
       (mkWorld (collaborators := Reference.collaborators) 0 0
          [RANSAC_Fitness Double.zero Double.zero]).
Proof.
  apply (feature_ransac_without_iterations_returns_default
           (collaborators := Reference.collaborators)).
  - lia.
  - reflexivity.
  - cbn. lia.
Defined.

(** A source without points, two iterations allowed. *)
Lemma feature_ransac_empty_source_is_undefined_witness :
  RegistrationRANSACBasedOnFeatureMatching Runs.no_points
    Examples.two_points (mkFeature []) Runs.features Double.one
    Examples.identity_estimation 3 [] (Examples.ransac_criteria 2 5)
    Examples.world
  = Undefined.
Proof.
  apply feature_ransac_empty_source_is_undefined.
  - reflexivity.
  - lia.
  - reflexivity.
  - cbn. lia.
Defined.

(** One checker that refuses every sample. *)
Lemma feature_ransac_rejecting_checker_returns_default_witness :
  match RegistrationRANSACBasedOnFeatureMatching Examples.two_points
          Examples.two_points Runs.features Runs.features Double.one
          Examples.identity_estimation 3 [Runs.refusing_checker]
          (Examples.ransac_criteria 2 5) Examples.world with
  | Ok r _ => r = RegistrationResult_default
  | _ => False
  end.
Proof.
  pose proof (feature_ransac_rejecting_checker_returns_default
                Examples.two_points Examples.two_points Runs.features
                Runs.features Double.one Examples.identity_estimation 3
                [Runs.refusing_checker] (Examples.ransac_criteria 2 5)
                Examples.world Runs.refused_world RegistrationResult_default
                Runs.refusing_checker (or_introl eq_refl)
                (fun _ _ => eq_refl) refused_run_eq) as H.
  rewrite refused_run_eq. exact H.
Defined.

(** [max_validation = 0] and [max_validation = 1]. *)
Lemma feature_ransac_validation_cap_below_one_acts_as_one_witness :
  RegistrationRANSACBasedOnFeatureMatching Examples.two_points
    Examples.two_points Runs.features Runs.features Double.one
    Examples.identity_estimation 3 [] (Examples.ransac_criteria 2 0)
    Examples.world
  = RegistrationRANSACBasedOnFeatureMatching Examples.two_points
      Examples.two_points Runs.features Runs.features Double.one
      Examples.identity_estimation 3 [] (Examples.ransac_criteria 2 1)
      Examples.world.
Proof.
  apply (feature_ransac_validation_cap_below_one_acts_as_one
           (collaborators := Reference.collaborators)).
  lia.
Defined.

(** Two points with one feature column each, over the reference
    collaborators. *)
Lemma feature_ransac_has_defined_behaviour_witness :
  exists r w',
    RegistrationRANSACBasedOnFeatureMatching Examples.two_points
      Examples.two_points Runs.features Runs.features Double.one
      Examples.identity_estimation 3 [] (Examples.ransac_criteria 2 5)
      Examples.world = Ok r w'.
Proof.
  apply (feature_ransac_has_defined_behaviour
           (collaborators := Reference.collaborators) reference_rand_nonneg).
  - split; reflexivity.
  - discriminate.
  - intros column indices dists. apply reference_search_knn_fills.
  - intros p. apply reference_search_hybrid_fills.
Defined.

Lemma insert_by_distance_Forall (P : double * Z -> Prop) (c : double * Z)
    (l : list (double * Z)) :
  P c -> Forall P l -> Forall P (Reference.insert_by_distance c l).
Proof.
  intros Hc. induction l as [| c' l IH]; intros Hl;
    cbn [Reference.insert_by_distance].
  - constructor; [exact Hc | constructor].
  - inversion Hl as [| ? ? Hc' Hl']. subst.
    destruct (fst c <? fst c')%double.
    + constructor; [exact Hc | exact Hl].
    + constructor; [exact Hc' | apply IH; exact Hl'].
Qed.

Lemma nearest_Forall {A : Type} (dist2 : A -> double) (keep : double -> bool)
    (data : list A) :
  Forall (fun c => keep (fst c) = true /\ exists a, fst c = dist2 a)
         (Reference.nearest dist2 keep data).
Proof.
  unfold Reference.nearest. generalize 0.
  induction data as [| a data IH]; intros i; cbn [enumerate fold_right].
  - constructor.
  - cbn [fst snd]. destruct (keep (dist2 a)) eqn:Ek; [| apply IH].
    apply insert_by_distance_Forall; [| apply IH].
    cbn [fst]. split; [exact Ek | exists a; reflexivity].
Qed.

(** The reference hybrid search returns squared distances. *)
Lemma reference_search_hybrid_distances (tree : Reference.KDTree)
    (p : Vector3d) (radius : double) (indices : list Z)
    (dists : list double) :
  hit_distance_nonneg
    (Reference.search_hybrid tree p radius 1 indices dists) = true.
Proof.
  unfold Reference.search_hybrid. destruct tree as [points | columns];
    [| reflexivity].
  pose proof (nearest_Forall (squaredNorm_diff p)
                (fun d => (d <=? radius * radius)%double) points) as H.
  destruct (Reference.nearest _ _ points) as [| [d i] found];
    [reflexivity |].
  inversion H as [| ? ? [Hk [q Hq]] _]. subst. cbn [fst] in Hk, Hq.
  cbn. destruct (squaredNorm_diff_nonneg_or_nan p q) as [Hn | Hn].
  - rewrite Hq, Hn in Hk. discriminate Hk.
  - rewrite Hq. exact Hn.
Qed.

(** The run of feature-RANSAC on two points, without checkers: both
    iterations score a candidate. *)
Lemma feature_ransac_returns_a_best_candidate_witness :
  Forall (evaluated_candidate Examples.two_points Examples.two_points
            Double.one Examples.identity_estimation)
    (feature_candidates Examples.two_points Examples.two_points
       Runs.features (KDTreeFlann_of_PointCloud Examples.two_points)
       (KDTreeFlann_of_Feature Runs.features) Double.one
       Examples.identity_estimation 3 [] (Examples.ransac_criteria 2 5) 2 0
       (CorrespondenceSet_of_size 3, RegistrationResult_default, 0, false)
       (seeded Examples.world))
  /\ (Runs.feature_result = RegistrationResult_default
      \/ In Runs.feature_result
           (feature_candidates Examples.two_points Examples.two_points
              Runs.features (KDTreeFlann_of_PointCloud Examples.two_points)
              (KDTreeFlann_of_Feature Runs.features) Double.one
              Examples.identity_estimation 3 []
              (Examples.ransac_criteria 2 5) 2 0
              (CorrespondenceSet_of_size 3, RegistrationResult_default, 0,
               false)
              (seeded Examples.world)))
  /\ Forall (fun c => ~ replaces c Runs.feature_result)
       (feature_candidates Examples.two_points Examples.two_points
          Runs.features (KDTreeFlann_of_PointCloud Examples.two_points)
          (KDTreeFlann_of_Feature Runs.features) Double.one
          Examples.identity_estimation 3 [] (Examples.ransac_criteria 2 5) 2
          0
          (CorrespondenceSet_of_size 3, RegistrationResult_default, 0, false)
          (seeded Examples.world)).
Proof.
  exact (feature_ransac_returns_a_best_candidate
           (collaborators := Reference.collaborators)
           reference_Transform_length Examples.two_points
           Examples.two_points Runs.features Runs.features Double.one
           Examples.identity_estimation 3 [] (Examples.ransac_criteria 2 5)
           Examples.world Runs.feature_world Runs.feature_result
           ltac:(lia) eq_refl eq_refl
           (fun p => reference_search_hybrid_distances _ p _ _ _)
           feature_run_eq).
Defined.

(** ** What both RANSAC drivers return *)

Section Drivers.

Context {collaborators : Collaborators}.

Lemma scorer_unfit_or_fit (source target : PointCloud)
    (corres : CorrespondenceSet) (max_correspondence_distance : double)
    (transformation : Matrix4d) (r : RegistrationResult) :
  size corres < 2 ^ 31 ->
  EvaluateRANSACBasedOnCorrespondence source target corres
    max_correspondence_distance transformation = Some r ->
  unfit_or_fit r.
Proof.
  intros Hsize H. apply scorer_Some in H. cbv zeta in H.
  destruct H as [_ [_ [H0 H1]]].
  pose proof (filter_length_le
                (inlier_pair source target max_correspondence_distance)
                corres) as Hlen.
  destruct (Z.eq_dec
              (Z.of_nat (length (filter (inlier_pair source target
                                           max_correspondence_distance)
                                        corres))) 0) as [Hg | Hg].
  - left. exact (H0 Hg).
  - right. destruct (H1 Hg) as [Hf _]. unfold dlt. rewrite Hf.
    apply div_of_Z_positive; unfold size in *; lia.
Qed.

(** X24.  A RANSAC driver returns a fitted transformation only with a
    positive fitness: the result of correspondence-RANSAC and of
    feature-RANSAC is the default result (identity, fitness 0) or has
    [fitness > 0]; a candidate without inlier never replaces the
    incumbent. *)
Theorem ransac_returns_default_or_positive_fitness
    (HT : forall T pcd,
        length (points_ (Transform T pcd)) = length (points_ pcd))
    (source target : PointCloud) (corres : CorrespondenceSet)
    (Hsource : size (points_ source) < 2 ^ 31)
    (Hcorres : size corres < 2 ^ 31) :
  (forall fuel max_correspondence_distance estimation ransac_n criteria
          w r w',
      RegistrationRANSACBasedOnCorrespondence fuel source target corres
        max_correspondence_distance estimation ransac_n criteria w
      = Ok r w' ->
      r = RegistrationResult_default \/ dlt Double.zero (fitness_ r))
  /\ (forall source_feature target_feature max_correspondence_distance
             estimation ransac_n checkers criteria w r w',
         RegistrationRANSACBasedOnFeatureMatching source target
           source_feature target_feature max_correspondence_distance
           estimation ransac_n checkers criteria w = Ok r w' ->
         r = RegistrationResult_default \/ dlt Double.zero (fitness_ r)).
Proof.
  split.
  - intros fuel md est n crit w r w' H.
    unfold RegistrationRANSACBasedOnCorrespondence in H.
    destruct (_ || _).
    + apply ret_Ok in H. destruct H as [-> _]. left. reflexivity.
    + invert_run H. apply ret_Ok in H. destruct H as [-> _].
      refine (for_loop_invariant
                (fun st : RANSACState => default_or_fit (snd st))
                _ _ _ _ _ _ _ _ _ _ Hrun1).
      * intros i [rc res] wa out wb Hp Hb. cbn [snd] in Hp.
        apply ransac_body_Ok in Hb.
        destruct Hb as [s [cand [_ [Hc ->]]]]. cbn [snd].
        apply best_of_N_keeps_default_or_fit; [| exact Hp].
        eapply scorer_unfit_or_fit; [exact Hcorres | exact Hc].
      * left. reflexivity.
  - intros sf tf md est n checkers crit w r w' H.
    destruct ((n <? 3) || (md <=? Double.zero)%double) eqn:Evalid.
    + unfold RegistrationRANSACBasedOnFeatureMatching in H.
      rewrite Evalid in H. apply ret_Ok in H. destruct H as [-> _].
      left. reflexivity.
    + destruct (feature_driver_Ok _ _ _ _ _ _ _ _ _ _ _ _ Evalid H)
        as [st [w1 [Hloop [Hr _]]]].
      assert (Hst : default_or_fit (snd (fst (fst st)))).
      { refine (for_upto_invariant
                  (fun st : FeatureState => default_or_fit (snd (fst (fst st))))
                  _ _ _ _ _ _ _ _ _ Hloop).
        - intros i [[[rc rp] tv] fin] wa out wb Hp Hb. cbn [fst snd] in Hp.
          apply feature_body_Ok in Hb.
          destruct Hb as [[_ [-> _]] | [_ [s [_ Hb]]]]; [exact Hp |].
          cbv zeta in Hb.
          destruct Hb as [[-> _] | [_ [_ [cand [Hc ->]]]]]; [exact Hp |].
          cbn [fst snd].
          apply best_of_N_keeps_default_or_fit; [| exact Hp].
          eapply evaluator_unfit_or_fit; [| exact Hc].
          unfold size in *. rewrite HT. exact Hsource.
        - left. reflexivity. }
      rewrite Hr.
      apply best_of_N_keeps_default_or_fit; [| left; reflexivity].
      apply default_or_fit_unfit_or_fit. exact Hst.
Qed.

Lemma log_blind_ret {A : Type} (a : A) : log_blind (ret a).
Proof. intros w1 w2 H. split; [reflexivity | exact H]. Qed.

Lemma log_blind_defined {A : Type} (o : option A) : log_blind (defined o).
Proof.
  intros w1 w2 H. unfold defined. destruct o; [| exact I].
  split; [reflexivity | exact H].
Qed.

Lemma log_blind_PrintDebug (msg : DebugMsg) : log_blind (PrintDebug msg).
Proof. intros w1 w2 H. split; [reflexivity | exact H]. Qed.

Lemma log_blind_do_rand : log_blind do_rand.
Proof.
  intros w1 w2 [Hs Hc]. unfold do_rand. rewrite Hs.
  destruct (rand (rand_state w2)) as [r s].
  split; [reflexivity | split; [reflexivity | exact Hc]].
Qed.

Lemma log_blind_bind {A B : Type} (m : M A) (f : A -> M B) :
  log_blind m -> (forall a, log_blind (f a)) -> log_blind (bind m f).
Proof.
  intros Hm Hf w1 w2 H. unfold bind. specialize (Hm w1 w2 H).
  destruct (m w1) as [a w1' | |], (m w2) as [b w2' | |]; try contradiction;
    try exact I.
  destruct Hm as [<- Hw]. apply Hf. exact Hw.
Qed.

Lemma log_blind_for_upto {S : Type} (body : Z -> S -> M S) :
  (forall i s, log_blind (body i s)) ->
  forall (n : nat) (i : Z) (s : S), log_blind (for_upto n i body s).
Proof.
  intros Hb. induction n as [| n IH]; intros i s; cbn [for_upto].
  - apply log_blind_ret.
  - apply log_blind_bind; [apply Hb |]. intros s'. apply IH.
Qed.

Lemma log_blind_for_loop {S : Type} (cond : Z -> bool)
    (body : Z -> S -> M (flow * S)) :
  (forall i s, log_blind (body i s)) ->
  forall (fuel : nat) (i : Z) (s : S),
    log_blind (for_loop fuel cond body i s).
Proof.
  intros Hb. induction fuel as [| fuel IH]; intros i s; cbn [for_loop];
    destruct (cond i); try apply log_blind_ret.
  - intros w1 w2 _. exact I.
  - apply log_blind_bind; [apply Hb |]. intros [fl s']. cbn [fst snd].
    destruct fl; [apply IH | apply log_blind_ret].
Qed.

Lemma log_blind_ransac_body (source target : PointCloud)
    (corres : CorrespondenceSet) (max_correspondence_distance : double)
    (estimation : TransformationEstimation) (ransac_n itr : Z)
    (st : RANSACState) :
  log_blind (ransac_body source target corres max_correspondence_distance
               estimation ransac_n itr st).
Proof.
  unfold ransac_body. destruct st as [rc res].
  apply log_blind_bind.
  - apply log_blind_for_upto. intros j s. unfold ransac_sample_step.
    apply log_blind_bind; [apply log_blind_do_rand |]. intros r.
    apply log_blind_bind; [apply log_blind_defined |]. intros k.
    apply log_blind_bind; [apply log_blind_defined |]. intros c.
    apply log_blind_ret.
  - intros s. apply log_blind_bind; [apply log_blind_defined |]. intros c.
    destruct (_ || _); apply log_blind_ret.
Qed.

Lemma agree_same_result {A : Type} (o1 o2 : outcome A) :
  agree o1 o2 -> same_result o1 o2.
Proof.
  destruct o1, o2; cbn; try tauto.
Qed.

(** X25.  Correspondence-RANSAC reseeds the generator from [time(0)]
    before it draws, so what it returns does not depend on the state of
    the generator or on the log before the call: two calls with the same
    arguments at the same clock value return the same result, or fail
    alike, whatever [rand()] calls came before them. *)
Theorem ransac_correspondence_result_depends_on_clock_only
    (fuel : nat) (source target : PointCloud) (corres : CorrespondenceSet)
    (max_correspondence_distance : double)
    (estimation : TransformationEstimation) (ransac_n : Z)
    (criteria : RANSACConvergenceCriteria) (w1 w2 : World)
    (Hclock : wall_clock w1 = wall_clock w2) :
  same_result
    (RegistrationRANSACBasedOnCorrespondence fuel source target corres
       max_correspondence_distance estimation ransac_n criteria w1)
    (RegistrationRANSACBasedOnCorrespondence fuel source target corres
       max_correspondence_distance estimation ransac_n criteria w2).
Proof.
  assert (Hseed : same_generator (seeded w1) (seeded w2)).
  { unfold seeded, same_generator. cbn. rewrite Hclock. split; reflexivity. }
  unfold RegistrationRANSACBasedOnCorrespondence.
  destruct (_ || _); [reflexivity |].
  apply agree_same_result.
  unfold bind at 1 2 5 6. unfold time0, do_srand.
  fold (seeded w1). fold (seeded w2).
  refine (log_blind_bind _ _ _ _ _ _ Hseed).
  - apply log_blind_for_loop. intros i s. apply log_blind_ransac_body.
  - intros st. apply log_blind_bind; [apply log_blind_PrintDebug |].
    intros _. apply log_blind_ret.
Qed.

End Drivers.

(** The two runs on two points. *)
Lemma ransac_returns_default_or_positive_fitness_witness :
  (Examples.ransac_result = RegistrationResult_default
   \/ dlt Double.zero (fitness_ Examples.ransac_result))
  /\ (Runs.feature_result = RegistrationResult_default
      \/ dlt Double.zero (fitness_ Runs.feature_result)).
Proof.
  destruct (ransac_returns_default_or_positive_fitness
              (collaborators := Reference.collaborators)
              reference_Transform_length Examples.two_points
              Examples.two_points Examples.three_corres eq_refl eq_refl)
    as [H1 H2].
  split.
  - exact (H1 _ _ _ _ _ _ _ _ ransac_run_eq).
  - exact (H2 _ _ _ _ _ _ _ _ _ _ feature_run_eq).
Defined.

(** Two worlds at clock 0 whose generators and logs differ. *)
Lemma ransac_correspondence_result_depends_on_clock_only_witness :
  same_result
    (RegistrationRANSACBasedOnCorrespondence 2 Examples.two_points
       Examples.two_points Examples.three_corres Double.one
       Examples.identity_estimation 3 (Examples.ransac_criteria 2 5)
       Examples.world)
    (RegistrationRANSACBasedOnCorrespondence 2 Examples.two_points
       Examples.two_points Examples.three_corres Double.one
       Examples.identity_estimation 3 (Examples.ransac_criteria 2 5)
       Runs.other_world).
Proof.
  apply ransac_correspondence_result_depends_on_clock_only. reflexivity.
Defined.

(** ** The information matrix: domain and shape *)

Lemma information_step_defined (target : PointCloud) (G : Matrix6d)
    (c : Vector2i) :
  (exists G', information_step target G c = Some G')
  <-> valid_index (points_ target) (snd c).
Proof.
  rewrite <- at_index_defined. unfold information_step.
  destruct (at_index (points_ target) (snd c)) as [p |].
  - split; intros _; eexists; reflexivity.
  - split; intros [x H]; discriminate.
Qed.

Lemma information_loop_defined (target : PointCloud)
    (cs : CorrespondenceSet) :
  forall G : Matrix6d,
    (exists G', information_loop target G cs = Some G')
    <-> Forall (fun c => valid_index (points_ target) (snd c)) cs.
Proof.
  induction cs as [| c cs IH]; intros G; cbn [information_loop].
  - split; [constructor | intros _; eexists; reflexivity].
  - destruct (information_step target G c) as [G1 |] eqn:E.
    + rewrite IH. split.
      * intros H. constructor; [| exact H].
        apply (information_step_defined target G c). exists G1. exact E.
      * intros H. inversion H. assumption.
    + split; [intros [x H]; discriminate |].
      intros H. inversion H as [| ? ? Hc _]. subst.
      apply (information_step_defined target G c) in Hc.
      destruct Hc as [x Hx]. congruence.
Qed.

Lemma SFmul_comm (prec emax : Z) (x y : double) :
  SFmul prec emax x y = SFmul prec emax y x.
Proof.
  destruct x as [sx | sx | | sx mx ex], y as [sy | sy | | sy my ey]; simpl;
    try reflexivity; try (rewrite xorb_comm; reflexivity).
  rewrite xorb_comm, Pos.mul_comm, Z.add_comm. reflexivity.
Qed.

Lemma zip_with_length {A B C : Type} (f : A -> B -> C) (l : list A) :
  forall r : list B, length (zip_with f l r) = Nat.min (length l) (length r).
Proof.
  induction l as [| a l IH]; intros [| b r]; simpl; auto.
Qed.

Lemma nth_zip_with {A B C : Type} (f : A -> B -> C) (da : A) (db : B)
    (dc : C) (l : list A) :
  forall (r : list B) (i : nat),
    (i < length l)%nat -> (i < length r)%nat ->
    nth i (zip_with f l r) dc = f (nth i l da) (nth i r db).
Proof.
  induction l as [| a l IH]; intros [| b r] [| i] Hl Hr; simpl in *;
    try lia; [reflexivity |].
  apply IH; lia.
Qed.

Lemma row_length (A : Matrix6d) (i : nat) :
  Matrix6d_is_6x6 A -> (i < 6)%nat -> length (nth i A []) = 6%nat.
Proof.
  intros [Hl Hr] Hi.
  assert (Hin : In (nth i A []) A) by (apply nth_In; lia).
  rewrite Forall_forall in Hr. apply Hr. exact Hin.
Qed.

Lemma Matrix6d_add_is_6x6 (A B : Matrix6d) :
  Matrix6d_is_6x6 A -> Matrix6d_is_6x6 B -> Matrix6d_is_6x6 (Matrix6d_add A B).
Proof.
  intros HA HB. unfold Matrix6d_add. split.
  - rewrite zip_with_length. destruct HA as [-> _], HB as [-> _]. reflexivity.
  - apply Forall_forall. intros row Hin.
    apply (In_nth _ _ []) in Hin. destruct Hin as [i [Hi <-]].
    rewrite zip_with_length in Hi.
    destruct HA as [HlA HrA], HB as [HlB HrB].
    rewrite (nth_zip_with _ [] [] []) by lia.
    rewrite zip_with_length.
    assert (HRA : length (nth i A []) = 6%nat)
      by (apply row_length; [split; assumption | lia]).
    assert (HRB : length (nth i B []) = 6%nat)
      by (apply row_length; [split; assumption | lia]).
    rewrite HRA, HRB. reflexivity.
Qed.

Lemma Matrix6d_add_coeff (A B : Matrix6d) (i j : nat) :
  Matrix6d_is_6x6 A -> Matrix6d_is_6x6 B -> (i < 6)%nat -> (j < 6)%nat ->
  Matrix6d_coeff (Matrix6d_add A B) i j
  = (Matrix6d_coeff A i j + Matrix6d_coeff B i j)%double.
Proof.
  intros HA HB Hi Hj. unfold Matrix6d_coeff, Matrix6d_add.
  rewrite (nth_zip_with _ [] [] [])
    by (destruct HA as [HlA _], HB as [HlB _]; lia).
  apply nth_zip_with; rewrite row_length; assumption.
Qed.

Lemma outer_is_6x6 (v : Vector6d) :
  length v = 6%nat -> Matrix6d_is_6x6 (outer v).
Proof.
  intros Hv. unfold outer. split.
  - rewrite length_map. exact Hv.
  - apply Forall_forall. intros row Hin. apply in_map_iff in Hin.
    destruct Hin as [a [<- _]]. rewrite length_map. exact Hv.
Qed.

Lemma outer_coeff (v : Vector6d) (i j : nat) :
  (i < length v)%nat -> (j < length v)%nat ->
  Matrix6d_coeff (outer v) i j
  = (nth i v Double.zero * nth j v Double.zero)%double.
Proof.
  intros Hi Hj. unfold Matrix6d_coeff, outer.
  rewrite (nth_indep _ []
             (map (fun b => (Double.zero * b)%double) v))
    by (rewrite length_map; exact Hi).
  rewrite (map_nth (fun a => map (fun b => (a * b)%double) v)).
  rewrite (nth_indep _ Double.zero
             (nth i v Double.zero * Double.zero)%double)
    by (rewrite length_map; exact Hj).
  rewrite (map_nth (fun b => (nth i v Double.zero * b)%double)).
  reflexivity.
Qed.

Lemma outer_symmetric (v : Vector6d) :
  length v = 6%nat -> Matrix6d_symmetric (outer v).
Proof.
  intros Hv i j Hi Hj. rewrite !outer_coeff by lia.
  apply SFmul_comm.
Qed.

Lemma Matrix6d_add_symmetric (A B : Matrix6d) :
  Matrix6d_is_6x6 A -> Matrix6d_is_6x6 B ->
  Matrix6d_symmetric A -> Matrix6d_symmetric B ->
  Matrix6d_symmetric (Matrix6d_add A B).
Proof.
  intros HA HB SA SB i j Hi Hj.
  rewrite !Matrix6d_add_coeff by assumption.
  rewrite (SA i j Hi Hj), (SB i j Hi Hj). reflexivity.
Qed.

Lemma Matrix6d_Identity_is_6x6 : Matrix6d_is_6x6 Matrix6d_Identity.
Proof. split; [reflexivity | repeat constructor]. Qed.

Lemma Matrix6d_Identity_symmetric : Matrix6d_symmetric Matrix6d_Identity.
Proof.
  intros i j Hi Hj.
  do 6 (destruct i as [| i]; [do 6 (destruct j as [| j]; [reflexivity |]); lia |]).
  lia.
Qed.

Lemma information_step_symmetric (target : PointCloud) (G G' : Matrix6d)
    (c : Vector2i) :
  Matrix6d_is_6x6 G /\ Matrix6d_symmetric G ->
  information_step target G c = Some G' ->
  Matrix6d_is_6x6 G' /\ Matrix6d_symmetric G'.
Proof.
  intros HG H. unfold information_step in H.
  destruct (at_index (points_ target) (snd c)) as [p |]; [| discriminate].
  cbv zeta in H. injection H as <-.
  assert (Hstep : forall (A : Matrix6d) (v : Vector6d),
             Matrix6d_is_6x6 A /\ Matrix6d_symmetric A -> length v = 6%nat ->
             Matrix6d_is_6x6 (Matrix6d_add A (outer v))
             /\ Matrix6d_symmetric (Matrix6d_add A (outer v))).
  { intros A v [H6 Hs] Hv. split.
    - apply Matrix6d_add_is_6x6; [exact H6 | apply outer_is_6x6; exact Hv].
    - apply Matrix6d_add_symmetric;
        [exact H6 | apply outer_is_6x6; exact Hv | exact Hs
        | apply outer_symmetric; exact Hv]. }
  apply Hstep; [apply Hstep; [apply Hstep; [exact HG |] |] |]; reflexivity.
Qed.

Lemma information_loop_symmetric (target : PointCloud)
    (cs : CorrespondenceSet) :
  forall G G' : Matrix6d,
    Matrix6d_is_6x6 G /\ Matrix6d_symmetric G ->
    information_loop target G cs = Some G' ->
    Matrix6d_is_6x6 G' /\ Matrix6d_symmetric G'.
Proof.
  induction cs as [| c cs IH]; intros G G' HG H; cbn [information_loop] in H.
  - injection H as <-. exact HG.
  - destruct (information_step target G c) as [G1 |] eqn:E; [| discriminate].
    apply (IH G1 G'); [| exact H].
    eapply information_step_symmetric; eassumption.
Qed.

Lemma information_loop_reads_snd (target : PointCloud) :
  forall (cs cs' : CorrespondenceSet) (G : Matrix6d),
    map snd cs = map snd cs' ->
    information_loop target G cs = information_loop target G cs'.
Proof.
  induction cs as [| c cs IH]; intros [| c' cs'] G H; try discriminate;
    [reflexivity |].
  cbn [map] in H. injection H as Hc Hcs. cbn [information_loop].
  unfold information_step. rewrite Hc.
  destruct (at_index (points_ target) (snd c')) as [p |]; [| reflexivity].
  cbv zeta. apply IH. exact Hcs.
Qed.

Section InformationShape.

Context {collaborators : Collaborators}.

(** X26.  [GetInformationMatrixFromRegistrationResult] checks no index.
    On a result with fewer than [2^31] correspondences (the loop counter
    is an [int]) it is defined exactly when the target index of every
    correspondence is an index of [target.points_]. *)
Theorem information_matrix_defined_iff_target_indices_valid
    (source target : PointCloud) (result : RegistrationResult)
    (Hsize : size (correspondence_set_ result) < 2 ^ 31) :
  (exists GTG,
      GetInformationMatrixFromRegistrationResult source target result
      = Some GTG)
  <-> Forall (fun c => valid_index (points_ target) (snd c))
             (correspondence_set_ result).
Proof.
  rewrite <- (information_loop_defined target (correspondence_set_ result)
                Matrix6d_Identity).
  unfold GetInformationMatrixFromRegistrationResult.
  destruct (information_loop target Matrix6d_Identity
              (correspondence_set_ result)) as [G |].
  - split; intros _; eexists; reflexivity.
  - split; intros [x H]; discriminate.
Qed.

(** X27.  The information matrix is a symmetric 6x6 matrix, coefficient
    for coefficient in binary64 (the product of doubles commutes). *)
Theorem information_matrix_is_symmetric
    (source target : PointCloud) (result : RegistrationResult)
    (GTG : Matrix6d)
    (Hrun : GetInformationMatrixFromRegistrationResult source target result
            = Some GTG) :
  Matrix6d_is_6x6 GTG /\ Matrix6d_symmetric GTG.
Proof.
  unfold GetInformationMatrixFromRegistrationResult in Hrun.
  destruct (information_loop target Matrix6d_Identity
              (correspondence_set_ result)) as [G |] eqn:E; [| discriminate].
  injection Hrun as <-.
  apply information_loop_symmetric in E;
    [| split; [apply Matrix6d_Identity_is_6x6
              | apply Matrix6d_Identity_symmetric]].
  destruct E as [H6 Hs]. split.
  - apply Matrix6d_add_is_6x6; [apply Matrix6d_Identity_is_6x6 | exact H6].
  - apply Matrix6d_add_symmetric;
      [apply Matrix6d_Identity_is_6x6 | exact H6
      | apply Matrix6d_Identity_symmetric | exact Hs].
Qed.

(** X28.  The information matrix reads the target indices of the
    correspondences and nothing else of the result: two results whose
    correspondence sets have the same target indices, in the same order,
    give the same matrix, whatever their source indices, transformation,
    fitness and RMSE, and whatever the source cloud. *)
Theorem information_matrix_reads_only_target_indices
    (source1 source2 target : PointCloud) (result1 result2 : RegistrationResult)
    (Hsame : map snd (correspondence_set_ result1)
             = map snd (correspondence_set_ result2)) :
  GetInformationMatrixFromRegistrationResult source1 target result1
  = GetInformationMatrixFromRegistrationResult source2 target result2.
Proof.
  unfold GetInformationMatrixFromRegistrationResult.
  rewrite (information_loop_reads_snd target _ _ Matrix6d_Identity Hsame).
  reflexivity.
Qed.

End InformationShape.

Lemma information_eq :
  GetInformationMatrixFromRegistrationResult Examples.one_point
    Examples.one_point Examples.evaluated = Some Runs.information.
Proof. reflexivity. Qed.

(** One point aligned with itself: the only correspondence names the
    target point 0. *)
Lemma information_matrix_defined_iff_target_indices_valid_witness :
  (exists GTG,
      GetInformationMatrixFromRegistrationResult Examples.one_point
        Examples.one_point Examples.evaluated = Some GTG)
  <-> Forall (fun c => valid_index (points_ Examples.one_point) (snd c))
             (correspondence_set_ Examples.evaluated).
Proof.
  apply information_matrix_defined_iff_target_indices_valid. reflexivity.
Defined.

(** The matrix of one point aligned with itself. *)
Lemma information_matrix_is_symmetric_witness :
  Matrix6d_is_6x6 Runs.information /\ Matrix6d_symmetric Runs.information.
Proof.
  exact (information_matrix_is_symmetric Examples.one_point
           Examples.one_point Examples.evaluated Runs.information
           information_eq).
Defined.

(** Another source cloud, source index, fitness and RMSE; the same
    target index. *)
Lemma information_matrix_reads_only_target_indices_witness :
  GetInformationMatrixFromRegistrationResult Examples.one_point
    Examples.one_point Examples.evaluated
  = GetInformationMatrixFromRegistrationResult Examples.two_points
      Examples.one_point
      {| transformation_ := Examples.identity;
         correspondence_set_ := [(7, 0)];
         inlier_rmse_ := Double.one;
         fitness_ := Double.zero |}.
Proof.
  apply information_matrix_reads_only_target_indices. reflexivity.
Defined.

(** ** The information matrix of the results *)

Section InformationOfResults.

Context {collaborators : Collaborators}.

Lemma hybrid_hits_target_valid (target : PointCloud)
    (target_kdtree : KDTreeFlann) (max_correspondence_distance : double) :
  (forall p,
     hit_index_valid target
       (SearchHybrid target_kdtree p max_correspondence_distance 1
          [0] [Double.zero]) = true) ->
  forall (l : list Vector3d) (i : Z),
    Forall (fun c => valid_index (points_ target) (snd c))
      (map fst (flat_map (hybrid_hit target_kdtree
                            max_correspondence_distance) (enumerate i l))).
Proof.
  intros Hsearch. induction l as [| a l IH]; intros i; [constructor |].
  cbn [enumerate flat_map]. rewrite map_app. apply Forall_app.
  split; [| apply IH].
  unfold hybrid_hit. cbn [fst snd]. specialize (Hsearch a).
  unfold hit_index_valid in Hsearch.
  destruct (SearchHybrid target_kdtree a max_correspondence_distance 1
              [0] [Double.zero]) as [[k indices] dists].
  destruct (0 <? k); [| constructor].
  destruct (at_index dists 0) as [d |]; [| constructor].
  destruct (at_index indices 0) as [j |]; [| constructor].
  apply andb_true_iff in Hsearch. destruct Hsearch as [H0 H1].
  apply Z.leb_le in H0. apply Z.ltb_lt in H1.
  constructor; [| constructor]. cbn [fst snd]. split; assumption.
Qed.

Lemma evaluator_targets_valid (source target : PointCloud)
    (target_kdtree : KDTreeFlann) (max_correspondence_distance : double)
    (transformation : Matrix4d) (r : RegistrationResult) :
  size (points_ source) < 2 ^ 31 ->
  (forall p,
     hit_index_valid target
       (SearchHybrid target_kdtree p max_correspondence_distance 1
          [0] [Double.zero]) = true) ->
  GetRegistrationResultAndCorrespondences source target target_kdtree
    max_correspondence_distance transformation = Some r ->
  Forall (fun c => valid_index (points_ target) (snd c))
         (correspondence_set_ r).
Proof.
  intros Hsize Hsearch H.
  destruct (max_correspondence_distance <=? Double.zero)%double eqn:Ed.
  - unfold GetRegistrationResultAndCorrespondences in H. rewrite Ed in H.
    injection H as <-. constructor.
  - pose proof (evaluator_Some source target target_kdtree
                  max_correspondence_distance transformation r Hsize Ed H)
      as Hr.
    cbv zeta in Hr. destruct Hr as [_ [Hset _]]. rewrite Hset.
    apply hybrid_hits_target_valid. exact Hsearch.
Qed.

(** X29.  The results of [EvaluateRegistration] and of ICP can be handed to
    [GetInformationMatrixFromRegistrationResult] with the same clouds:
    when [Transform] keeps the number of points (fewer than [2^31]) and
    the hybrid search over the target reports indices of target points,
    the information matrix of every such result is defined. *)
Theorem information_matrix_is_defined_on_registration_results
    (HT : forall T pcd,
        length (points_ (Transform T pcd)) = length (points_ pcd))
    (source target : PointCloud)
    (Hsource : size (points_ source) < 2 ^ 31)
    (Hsearch : forall max_correspondence_distance p,
       hit_index_valid target
         (SearchHybrid (KDTreeFlann_of_PointCloud target) p
            max_correspondence_distance 1 [0] [Double.zero]) = true) :
  (forall max_correspondence_distance transformation r,
      EvaluateRegistration source target max_correspondence_distance
        transformation = Some r ->
      exists GTG,
        GetInformationMatrixFromRegistrationResult source target r
        = Some GTG)
  /\ (forall fuel max_correspondence_distance init estimation criteria
             w r w',
         RegistrationICP fuel source target max_correspondence_distance init
           estimation criteria w = Ok r w' ->
         exists GTG,
           GetInformationMatrixFromRegistrationResult source target r
           = Some GTG).
Proof.
  assert (Hsize : forall T, size (points_ (Transform T source)) < 2 ^ 31).
  { intros T. unfold size in *. rewrite HT. exact Hsource. }
  assert (Hdef : forall r,
             Forall (fun c => valid_index (points_ target) (snd c))
                    (correspondence_set_ r) ->
             exists GTG,
               GetInformationMatrixFromRegistrationResult source target r
               = Some GTG).
  { intros r Hr.
    apply (information_loop_defined target (correspondence_set_ r)
             Matrix6d_Identity) in Hr.
    destruct Hr as [G HG].
    unfold GetInformationMatrixFromRegistrationResult. rewrite HG.
    eexists. reflexivity. }
  split.
  - intros md T r H. apply Hdef. unfold EvaluateRegistration in H.
    eapply evaluator_targets_valid; [| apply Hsearch | exact H].
    destruct (Bool.eqb _ _); [apply Hsize | exact Hsource].
  - intros fuel md init est crit w r w' H. apply Hdef.
    unfold RegistrationICP in H.
    destruct (md <=? Double.zero)%double.
    + apply ret_Ok in H. destruct H as [-> _]. constructor.
    + invert_run H. apply defined_Ok in Hrun. destruct Hrun as [Hr0 ->].
      apply ret_Ok in H. destruct H as [-> _].
      assert (Hpcd0 : size (points_ (if Bool.eqb (Matrix4d_isIdentity init)
                                          false
                                     then Transform init source
                                     else source)) < 2 ^ 31).
      { destruct (Bool.eqb _ _); [apply Hsize | exact Hsource]. }
      refine (proj2 (for_loop_invariant
                (fun st : ICPState =>
                   size (points_ (snd (fst st))) < 2 ^ 31
                   /\ Forall (fun c => valid_index (points_ target) (snd c))
                             (correspondence_set_ (snd st)))
                _ _ _ _ _ _ _ _ _ _ Hrun0)).
      * intros i [[T pcd] res] wa out wb [Hp _] Hb.
        apply icp_body_Ok in Hb. cbv zeta in Hb.
        destruct Hb as [res' [Hev [Hout _]]]. rewrite Hout. cbn [fst snd].
        assert (Hp' : size (points_ (Transform
                        (ComputeTransformation est pcd target
                           (correspondence_set_ res)) pcd)) < 2 ^ 31).
        { unfold size in *. rewrite HT. exact Hp. }
        split; [exact Hp' |].
        eapply evaluator_targets_valid; [exact Hp' | apply Hsearch | exact Hev].
      * cbn [fst snd]. split; [exact Hpcd0 |].
        eapply evaluator_targets_valid; [exact Hpcd0 | apply Hsearch | exact Hr0].
Qed.

(** X30.  A result of correspondence-RANSAC never holds a correspondence
    (its scorer does not fill the set), so its information matrix carries
    no information: for every source and target it is the value that the
    function takes on a result without correspondence. *)
Theorem ransac_correspondence_information_is_empty_set_value
    (fuel : nat) (source target : PointCloud) (corres : CorrespondenceSet)
    (max_correspondence_distance : double)
    (estimation : TransformationEstimation) (ransac_n : Z)
    (criteria : RANSACConvergenceCriteria) (w w' : World)
    (r : RegistrationResult)
    (Hrun : RegistrationRANSACBasedOnCorrespondence fuel source target corres
              max_correspondence_distance estimation ransac_n criteria w
            = Ok r w') :
  correspondence_set_ r = []
  /\ forall (source' target' : PointCloud) (transformation : Matrix4d),
      GetInformationMatrixFromRegistrationResult source' target' r
      = GetInformationMatrixFromRegistrationResult source' target'
          (RegistrationResult_of transformation).
Proof.
  assert (Hset : correspondence_set_ r = []).
  { unfold RegistrationRANSACBasedOnCorrespondence in Hrun.
    destruct (_ || _).
    - apply ret_Ok in Hrun. destruct Hrun as [-> _]. reflexivity.
    - invert_run Hrun. apply ret_Ok in Hrun. destruct Hrun as [-> _].
      refine (for_loop_invariant
                (fun st : RANSACState => correspondence_set_ (snd st) = [])
                _ _ _ _ _ _ _ _ _ _ Hrun2); [| reflexivity].
      intros i [rc res] wa out wb Hp Hb. cbn [snd] in Hp.
      apply ransac_body_Ok in Hb.
      destruct Hb as [s [cand [_ [Hc ->]]]]. cbn [snd].
      apply scorer_Some in Hc. cbv zeta in Hc. destruct Hc as [_ [Hc _]].
      match goal with
      | |- context [if ?c then _ else _] => destruct c
      end; assumption. }
  split; [exact Hset |].
  intros source' target' T.
  unfold GetInformationMatrixFromRegistrationResult. rewrite Hset.
  reflexivity.
Qed.

End InformationOfResults.

Lemma insert_by_distance_In (c x : double * Z) (l : list (double * Z)) :
  In x (Reference.insert_by_distance c l) -> x = c \/ In x l.
Proof.
  induction l as [| c' l IH]; cbn [Reference.insert_by_distance].
  - intros [<- | []]. left. reflexivity.
  - destruct (fst c <? fst c')%double.
    + intros [<- | H]; [left; reflexivity | right; exact H].
    + intros [<- | H]; [right; left; reflexivity |].
      destruct (IH H) as [-> | H']; [left; reflexivity | right; right; exact H'].
Qed.

Lemma nearest_indices {A : Type} (dist2 : A -> double) (keep : double -> bool)
    (data : list A) (x : double * Z) :
  In x (Reference.nearest dist2 keep data) -> 0 <= snd x < size data.
Proof.
  unfold Reference.nearest, size.
  assert (H : forall i,
             In x (fold_right
                     (fun ia acc =>
                        let d := dist2 (snd ia) in
                        if keep d
                        then Reference.insert_by_distance (d, fst ia) acc
                        else acc) [] (enumerate i data)) ->
             i <= snd x < i + Z.of_nat (length data)).
  { induction data as [| a data IH]; intros i; cbn [enumerate fold_right];
      [intros [] |].
    cbn [fst snd length]. intros Hin.
    assert (Hrest : In x (fold_right
                            (fun ia acc =>
                               let d := dist2 (snd ia) in
                               if keep d
                               then Reference.insert_by_distance (d, fst ia)
                                      acc
                               else acc) [] (enumerate (i + 1) data)) ->
                    i <= snd x < i + Z.of_nat (S (length data))).
    { intros H. apply IH in H. lia. }
    destruct (keep (dist2 a)); [| exact (Hrest Hin)].
    apply insert_by_distance_In in Hin.
    destruct Hin as [-> | Hin]; [cbn [snd]; lia | exact (Hrest Hin)]. }
  intros Hin. apply H in Hin. lia.
Qed.

(** The reference hybrid search returns indices of the points it was
    built on. *)
Lemma reference_search_hybrid_indices (target : PointCloud) (p : Vector3d)
    (radius : double) (indices : list Z) (dists : list double) :
  hit_index_valid target
    (Reference.search_hybrid (Reference.PointTree (points_ target)) p radius
       1 indices dists) = true.
Proof.
  unfold Reference.search_hybrid. change (Z.to_nat 1) with 1%nat.
  pose proof (nearest_indices (squaredNorm_diff p)
                (fun d => (d <=? radius * radius)%double) (points_ target))
    as H.
  destruct (Reference.nearest _ _ (points_ target)) as [| [d i] found];
    [reflexivity |].
  specialize (H (d, i) (or_introl eq_refl)). cbn [snd] in H.
  cbn [firstn map snd fst]. unfold hit_index_valid.
  change (0 <? size [(d, i)]) with true. cbv iota.
  change (at_index [i] 0) with (Some i). cbv iota.
  apply andb_true_iff. split; [apply Z.leb_le | apply Z.ltb_lt]; lia.
Qed.

(** The run of ICP on two points, over the reference search. *)
Lemma information_matrix_is_defined_on_registration_results_witness :
  exists GTG,
    GetInformationMatrixFromRegistrationResult Examples.two_points
      Examples.two_points Examples.icp_result = Some GTG.
Proof.
  destruct (information_matrix_is_defined_on_registration_results
              (collaborators := Reference.collaborators)
              reference_Transform_length Examples.two_points
              Examples.two_points eq_refl
              (fun d p => reference_search_hybrid_indices _ p d _ _))
    as [_ H].
  exact (H _ _ _ _ _ _ _ _ icp_run_eq).
Defined.

(** The run of correspondence-RANSAC on three correspondences. *)
Lemma ransac_correspondence_information_is_empty_set_value_witness :
  correspondence_set_ Examples.ransac_result = []
  /\ forall (source' target' : PointCloud)
            (transformation : Matrix4d
                                (Collaborators := Reference.collaborators)),
      GetInformationMatrixFromRegistrationResult source' target'
        Examples.ransac_result
      = GetInformationMatrixFromRegistrationResult source' target'
          (RegistrationResult_of transformation).
Proof.
  exact (ransac_correspondence_information_is_empty_set_value
           2 Examples.two_points Examples.two_points Examples.three_corres
           Double.one Examples.identity_estimation 3
           (Examples.ransac_criteria 2 5) Examples.world
           Examples.ransac_world Examples.ransac_result ransac_run_eq).
Defined.
